(** * Price engine of the hardware-store catalog (motor_precios.py)

    Shallow embedding of the parts of [MotorPrecios] (and of its mobile
    sibling [MotorMobileLite]) that the specification describes:
    the price-token normaliser, the final cleanup of a supplier table, the
    column inference with its manual override, the configuration store, the
    pricing formula and the two-phase search.

    Conventions of the model.
    - Python [str] values are ASCII texts ([string]); the character classes
      ([isdigit], [isalpha], [isspace]) are the ASCII ones.
    - A Python [float] is carried by its exact value, a rational ([Q]) in
      lowest terms, so that equal numbers are equal terms.  The float
      arithmetic of the code (the pricing formula, [round], the scores of
      the column inference) rounds every result to the nearest binary64
      number, ties to even ([Binary64]); the pricing formula also has the
      infinities and NaN.  [float(s)] of a decimal text is carried by the
      value of the text itself; a function that computes with it takes
      the nearest binary64 number first.
    - An operation that raises in Python returns [None] here. *)

From Stdlib Require Import ZArith QArith Qround Qabs Qpower Lqa Lia Ascii String.
From stdpp Require Import base option list strings gmap sorting.

Local Open Scope Z_scope.

(** ** Python text primitives *)

Module Texto.

(** [c.isspace()] on ASCII: TAB, LF, VT, FF, CR, FS, GS, RS, US, SP. *)
Definition isspace (c : ascii) : bool :=
  let n := N_of_ascii c in
  ((9 <=? n) && (n <=? 13) || (28 <=? n) && (n <=? 32))%N.

Definition isdigit (c : ascii) : bool :=
  let n := N_of_ascii c in ((48 <=? n) && (n <=? 57))%N.

Definition isupper (c : ascii) : bool :=
  let n := N_of_ascii c in ((65 <=? n) && (n <=? 90))%N.

Definition islower (c : ascii) : bool :=
  let n := N_of_ascii c in ((97 <=? n) && (n <=? 122))%N.

Definition isalpha (c : ascii) : bool := isupper c || islower c.

Definition isalnum (c : ascii) : bool := isalpha c || isdigit c.

Definition lower_char (c : ascii) : ascii :=
  if isupper c then ascii_of_N (N_of_ascii c + 32) else c.

Fixpoint lower (s : string) : string :=
  match s with
  | EmptyString => EmptyString
  | String c s' => String (lower_char c) (lower s')
  end.

Fixpoint lstrip (s : string) : string :=
  match s with
  | EmptyString => EmptyString
  | String c s' => if isspace c then lstrip s' else s
  end.

Fixpoint rstrip (s : string) : string :=
  match s with
  | EmptyString => EmptyString
  | String c s' =>
      match rstrip s' with
      | EmptyString => if isspace c then EmptyString else String c EmptyString
      | String _ _ as r => String c r
      end
  end.

(** [s.strip()] *)
Definition strip (s : string) : string := rstrip (lstrip s).

(** [s.startswith(p)] *)
Fixpoint startswith (p s : string) : bool :=
  match p, s with
  | EmptyString, _ => true
  | String a p', String b s' => if Ascii.eqb a b then startswith p' s' else false
  | String _ _, EmptyString => false
  end.

(** [p in s] *)
Fixpoint contains (p s : string) : bool :=
  startswith p s ||
  match s with
  | EmptyString => false
  | String _ s' => contains p s'
  end.

(** [s.replace(old, new)] for a non-empty [old]: the occurrences are
    taken from left to right and do not overlap.  [skip] counts the
    characters of a match that are still to be dropped. *)
Fixpoint replace_go (old new : string) (skip : nat) (s : string) : string :=
  match s with
  | EmptyString => EmptyString
  | String c s' =>
      match skip with
      | S k => replace_go old new k s'
      | O =>
          if startswith old s
          then new +:+ replace_go old new (Nat.pred (String.length old)) s'
          else String c (replace_go old new O s')
      end
  end.

Definition replace (old new s : string) : string :=
  match old with
  | EmptyString => s
  | String _ _ => replace_go old new O s
  end.

(** [s.split(sep)] for a one-character separator. *)
Fixpoint split_go (sep : ascii) (cur : string) (s : string) : list string :=
  match s with
  | EmptyString => [String.rev cur]
  | String c s' =>
      if Ascii.eqb c sep
      then String.rev cur :: split_go sep EmptyString s'
      else split_go sep (String c cur) s'
  end.

Definition split (sep : ascii) (s : string) : list string :=
  split_go sep EmptyString s.

(** [s.rfind(c)] for a one-character needle: the last index, or -1. *)
Fixpoint rfind_go (c : ascii) (s : string) (i : Z) (found : Z) : Z :=
  match s with
  | EmptyString => found
  | String a s' => rfind_go c s' (i + 1) (if Ascii.eqb a c then i else found)
  end.

Definition rfind (c : ascii) (s : string) : Z := rfind_go c s 0 (-1).

(** [sum(p(c) for c in s)] *)
Fixpoint count (p : ascii -> bool) (s : string) : nat :=
  match s with
  | EmptyString => O
  | String c s' => (if p c then 1 else 0) + count p s'
  end.

(** [any(p(c) for c in s)] *)
Fixpoint any (p : ascii -> bool) (s : string) : bool :=
  match s with
  | EmptyString => false
  | String c s' => p c || any p s'
  end.

(** [s[-1]] of a list, the list being non-empty at the call sites. *)
Definition ultimo (l : list string) : string := List.last l EmptyString.

End Texto.

(** ** [float(s)] on decimal literals

    The grammar is Python's:
    [[sign] (digitpart ["." [digitpart]] | "." digitpart) [exponent]]
    between optional blanks, where [digitpart] is a run of digits that may
    be grouped with single underscores.  Any other text raises.  The
    literals [inf], [infinity] and [nan], which Python reads as the special
    floats, denote no rational and are left out: the model raises on
    them. *)

Module PyFloat.

Definition digito (c : ascii) : option Z :=
  if Texto.isdigit c then Some (Z.of_N (N_of_ascii c) - 48) else None.

(** Reads the rest of a [digitpart]; returns the accumulated value, the
    number of digits read and the unread text. *)
Fixpoint digitpart (s : string) (acc : Z) (n : nat) : Z * nat * string :=
  match s with
  | EmptyString => (acc, n, s)
  | String c s' =>
      match digito c with
      | Some d => digitpart s' (10 * acc + d) (S n)
      | None =>
          match n, s' with
          | S _, String c2 s'' =>
              if Ascii.eqb c "_" then
                match digito c2 with
                | Some d => digitpart s'' (10 * acc + d) (S n)
                | None => (acc, n, s)
                end
              else (acc, n, s)
          | _, _ => (acc, n, s)
          end
      end
  end.

(** An optional sign: [true] for a minus. *)
Definition signo (s : string) : bool * string :=
  match s with
  | String "-" s' => (true, s')
  | String "+" s' => (false, s')
  | _ => (false, s)
  end.

(** The mantissa: its digits read as an integer, and how many of them
    stand after the point. *)
Definition numero (s : string) : option (Z * nat * string) :=
  let '(ip, ni, r) := digitpart s 0 O in
  match ni with
  | O =>
      match r with
      | String "." r' =>
          let '(m, nf, r'') := digitpart r' 0 O in
          match nf with O => None | S _ => Some (m, nf, r'') end
      | _ => None
      end
  | S _ =>
      match r with
      | String "." r' =>
          let '(m, nf, r'') := digitpart r' ip O in Some (m, nf, r'')
      | _ => Some (ip, O, r)
      end
  end.

Definition exponente (s : string) : option (Z * string) :=
  match s with
  | String c r =>
      if Ascii.eqb c "e" || Ascii.eqb c "E" then
        let '(neg, r') := signo r in
        let '(e, ne, r'') := digitpart r' 0 O in
        match ne with
        | O => None
        | S _ => Some (if neg then - e else e, r'')
        end
      else Some (0, s)
  | EmptyString => Some (0, s)
  end.

(** [m * 10^e] as a rational in lowest terms. *)
Definition escala (m e : Z) : Q :=
  Qred (if 0 <=? e then (m * 10 ^ e) # 1 else m # Z.to_pos (10 ^ (- e))).

Definition float (s : string) : option Q :=
  let '(neg, r) := signo (Texto.strip s) in
  '(m, nf, r1) ← numero r;
  '(e, r2) ← exponente r1;
  match r2 with
  | EmptyString => Some (escala (if neg then - m else m) (e - Z.of_nat nf))
  | String _ _ => None
  end.

End PyFloat.

(** ** Binary64 arithmetic

    The arithmetic of Python's [float]: IEEE 754 binary64, every operation
    rounded to the nearest number, ties to the one with an even
    significand. *)

(** Rounding to the nearest integer, ties to the even one. *)
Definition redondear_par (x : Q) : Z :=
  let f := Qfloor x in
  match (x - inject_Z f ?= 1 # 2)%Q with
  | Lt => f
  | Gt => f + 1
  | Eq => if Z.even f then f else f + 1
  end.

Module Binary64.

(** The [e] with [2^e <= x < 2^(e+1)], for a positive [x]. *)
Definition piso_log2 (x : Q) : Z :=
  let a := Z.log2 (Qnum x) - Z.log2 (Zpos (Qden x)) in
  if Qle_bool (2 ^ a) x then a else a - 1.

(** The exponent of the unit in the last place of the binary64 numbers
    around [x]: 53 significant bits, and no exponent below that of the
    subnormal numbers. *)
Definition exponente (x : Q) : Z := Z.max (piso_log2 (Qabs x) - 52) (-1074).

(** The multiple of [2^exponente x] nearest to [x], ties to the even
    multiple, in lowest terms: the binary64 number nearest to [x], were
    the exponent unbounded above. *)
Definition cercano (x : Q) : Q :=
  if Qeq_bool x 0 then 0%Q
  else let e := exponente x in
       Qred (inject_Z (redondear_par (x / 2 ^ e)) * 2 ^ e).

(** A Python [float]: a finite binary64 number by its value, an infinity,
    or a NaN.  The sign of a zero is not kept. *)
Inductive t : Type :=
  | Finito (x : Q)
  | Infinito (negativo : bool)
  | NaN.

(** [x < 0] *)
Definition negativo (x : Q) : bool := negb (Qle_bool 0 x).

(** The result of an operation whose exact value is [x], and [float] of a
    number or of a decimal text of value [x]: the nearest number, or the
    infinity of its sign when that number is out of range. *)
Definition redondear (x : Q) : t :=
  let y := cercano x in
  if Qle_bool (2 ^ 1024) (Qabs y) then Infinito (negativo y) else Finito y.

Definition uno : t := Finito 1.

(** [a * b] *)
Definition producto (a b : t) : t :=
  match a, b with
  | NaN, _ | _, NaN => NaN
  | Finito x, Finito y => redondear (x * y)
  | Infinito s, Finito y | Finito y, Infinito s =>
      if Qeq_bool y 0 then NaN else Infinito (xorb s (negativo y))
  | Infinito s, Infinito s' => Infinito (xorb s s')
  end.

(** [a + b] *)
Definition suma (a b : t) : t :=
  match a, b with
  | NaN, _ | _, NaN => NaN
  | Finito x, Finito y => redondear (x + y)
  | Infinito s, Finito _ | Finito _, Infinito s => Infinito s
  | Infinito s, Infinito s' => if Bool.eqb s s' then Infinito s else NaN
  end.

(** [a - b] *)
Definition resta (a b : t) : t :=
  match a, b with
  | NaN, _ | _, NaN => NaN
  | Finito x, Finito y => redondear (x - y)
  | Infinito s, Finito _ => Infinito s
  | Finito _, Infinito s => Infinito (negb s)
  | Infinito s, Infinito s' => if Bool.eqb s s' then NaN else Infinito s
  end.

(** [a / 100] *)
Definition entre_cien (a : t) : t :=
  match a with
  | Finito x => redondear (x / 100)
  | Infinito _ | NaN => a
  end.

(** [a > 0] *)
Definition mayor_que_cero (a : t) : bool :=
  match a with
  | Finito x => negb (Qle_bool x 0)
  | Infinito s => negb s
  | NaN => false
  end.

(** A value that the operations can return: a finite one is a binary64
    number within the range. *)
Definition canonico (a : t) : Prop :=
  match a with
  | Finito x => cercano x = x /\ (Qabs x < 2 ^ 1024)%Q
  | Infinito _ | NaN => True
  end.

End Binary64.

(** ** The price-token normaliser *)

(** The first line of [limpiar_precio]: blanks and currency markers. *)
Definition quitar_moneda (val : string) : string :=
  Texto.replace "EUR" "" (Texto.replace "USD" "" (Texto.replace "$" "" (Texto.strip val))).

(** The separator decision of [limpiar_precio], on the marker-free text. *)
Definition normalizar_separadores (val : string) : string :=
  if Texto.contains "," val && Texto.contains "." val then
    if Texto.rfind "," val >? Texto.rfind "." val
    then Texto.replace "," "." (Texto.replace "." "" val)
    else Texto.replace "," "" val
  else if Texto.contains "," val then Texto.replace "," "." val
  else if Texto.contains "." val then
    let partes := Texto.split "." val in
    if (1 <? length partes)%nat && (String.length (Texto.ultimo partes) =? 3)%nat
    then Texto.replace "." "" val
    else val
  else val.

(** [f if f > 0 else None] *)
Definition solo_positivo (f : Q) : option Q :=
  if Qlt_le_dec 0 f then Some f else None.

(** [limpiar_precio(val)]: the parsed cost, or [None] both when the parse
    raises and when the value is not strictly positive. *)
Definition limpiar_precio (val : string) : option Q :=
  PyFloat.float (normalizar_separadores (quitar_moneda val)) ≫= solo_positivo.

(** The rule as the specification words it: the dot is a thousand separator
    exactly when the segment after the last dot has exactly three digits and
    at least one digit group stands before it. *)
Definition antes_del_ultimo_punto (val : string) : string :=
  String.substring 0 (Z.to_nat (Texto.rfind "." val)) val.

Fixpoint todos (p : ascii -> bool) (s : string) : bool :=
  match s with
  | EmptyString => true
  | String c s' => p c && todos p s'
  end.

Definition spec_punto_es_miles (val : string) : bool :=
  let seg := Texto.ultimo (Texto.split "." val) in
  (String.length seg =? 3)%nat && todos Texto.isdigit seg
  && Texto.any Texto.isdigit (antes_del_ultimo_punto val).

Definition spec_limpiar_precio_solo_punto (val : string) : option Q :=
  let val := quitar_moneda val in
  PyFloat.float (if spec_punto_es_miles val then Texto.replace "." "" val else val)
    ≫= solo_positivo.

(** ** Tables

    A pandas frame after [df.astype(str)]: column labels and rows of text
    cells.  Readers that pass [header=None] label the columns 0, 1, 2, ...;
    the El Taller extractor labels them by name.  Labels are pairwise
    distinct, as the readers produce them.  A missing cell reads ["nan"]. *)

Inductive etiqueta : Type :=
  | EInt (n : Z)
  | ETxt (s : string).

Global Instance etiqueta_eq_dec : EqDecision etiqueta.
Proof. solve_decision. Defined.

Record DataFrame : Type := {
  columnas : list etiqueta;
  filas : list (list string)
}.

(** A row of a cleaned supplier table. *)
Record Fila : Type := {
  Codigo : string;
  Producto : string;
  Precio_de_Costo : Q
}.

Definition celda (i : nat) (fila : list string) : string := nth i fila "nan".

(** [df.columns.get_loc(c)] *)
Fixpoint get_loc (c : etiqueta) (cols : list etiqueta) : option nat :=
  match cols with
  | [] => None
  | c' :: cols' => if decide (c' = c) then Some O else S <$> get_loc c cols'
  end.

Definition tiene_columna (c : etiqueta) (df : DataFrame) : bool :=
  bool_decide (c ∈ columnas df).

(** [if "Codigo" not in df.columns: df["Codigo"] = ""] *)
Definition asegurar_codigo (df : DataFrame) : DataFrame :=
  if tiene_columna (ETxt "Codigo") df then df
  else {| columnas := columnas df ++ [ETxt "Codigo"];
          filas := (fun fila => fila ++ [""]) <$> filas df |}.

(** [.astype(str).str.strip().replace("nan", "")] on one cell. *)
Definition limpiar_codigo (c : string) : string :=
  let t := Texto.strip c in if String.eqb t "nan" then "" else t.

(** One row through [_limpieza_final]: dropped when the price does not
    parse to a positive number or the trimmed product is too short. *)
Definition limpiar_fila (i_cod i_prod i_precio : nat) (fila : list string) : option Fila :=
  precio ← limpiar_precio (celda i_precio fila);
  let prod := Texto.strip (celda i_prod fila) in
  if (1 <? String.length prod)%nat
  then Some {| Codigo := limpiar_codigo (celda i_cod fila);
               Producto := prod;
               Precio_de_Costo := precio |}
  else None.

(** [_limpieza_final(df_final)]; [None] is the [KeyError] of a missing
    column. *)
Definition _limpieza_final (df_final : DataFrame) : option (list Fila) :=
  i_precio ← get_loc (ETxt "Precio de Costo") (columnas df_final);
  i_prod ← get_loc (ETxt "Producto") (columnas df_final);
  i_cod ← get_loc (ETxt "Codigo") (columnas df_final);
  Some (omap (limpiar_fila i_cod i_prod i_precio) (filas df_final)).

(** ** Column inference *)

(** The companion [<file>.json] document. *)
Record Mapeo : Type := {
  col_producto : option Z;
  col_precio : option Z;
  col_codigo : option Z;
  skip_rows : option Z
}.

(** Truth value of the mapping: an empty document is falsy. *)
Definition mapeo_presente (m : Mapeo) : bool :=
  bool_decide (is_Some (col_producto m)) || bool_decide (is_Some (col_precio m))
  || bool_decide (is_Some (col_codigo m)) || bool_decide (is_Some (skip_rows m)).

(** [l[i]] with Python's negative indices; [None] is the [IndexError]. *)
Definition py_index {A} (l : list A) (i : Z) : option A :=
  let n := Z.of_nat (length l) in
  if 0 <=? i then l !! Z.to_nat i
  else if - n <=? i then l !! Z.to_nat (n + i)
  else None.

(** A Python dict built by successive assignments: the last binding of a
    key wins. *)
Fixpoint dict_get {K V} `{EqDecision K} (k : K) (d : list (K * V)) : option V :=
  match d with
  | [] => None
  | (k', v) :: d' =>
      match dict_get k d' with
      | Some w => Some w
      | None => if decide (k' = k) then Some v else None
      end
  end.

(** [df.rename(columns=mapa)] *)
Definition renombrar (mapa : list (etiqueta * string)) (df : DataFrame) : DataFrame :=
  {| columnas := (fun c => from_option ETxt c (dict_get c mapa)) <$> columnas df;
     filas := filas df |}.

(** Outcome of the manual branch: a returned table, or an exception caught
    by the enclosing [try], with the frame as the branch left it. *)
Inductive resultado_manual : Type :=
  | Devuelve (t : list Fila)
  | Falla (df : DataFrame).

Definition modo_manual (df : DataFrame) (m : Mapeo) : resultado_manual :=
  let skip := default 0 (skip_rows m) in
  let df := if 0 <? skip
            then {| columnas := columnas df; filas := drop (Z.to_nat skip) (filas df) |}
            else df in
  let idx_prod := default (-1) (col_producto m) in
  let idx_precio := default (-1) (col_precio m) in
  let idx_cod := default (-1) (col_codigo m) in
  let max_idx := Z.of_nat (length (columnas df)) - 1 in
  if (max_idx <? idx_prod) || (max_idx <? idx_precio) then Devuelve []
  else
    match py_index (columnas df) idx_prod, py_index (columnas df) idx_precio with
    | Some col_nombre_prod, Some col_nombre_precio =>
        let mapa := [(col_nombre_prod, "Producto"); (col_nombre_precio, "Precio de Costo")] in
        let mapa :=
          if (0 <=? idx_cod) && (idx_cod <=? max_idx) then
            match py_index (columnas df) idx_cod with
            | Some col_nombre_cod => mapa ++ [(col_nombre_cod, "Codigo")]
            | None => mapa
            end
          else mapa in
        match _limpieza_final (asegurar_codigo (renombrar mapa df)) with
        | Some t => Devuelve t
        | None => Falla df
        end
    | _, _ => Falla df
    end.

(** *** Automatic mode: column density scoring *)

Definition Qgtb (a b : Q) : bool := negb (Qle_bool a b).
Definition Qltb (a b : Q) : bool := negb (Qle_bool b a).

(** [a / b] of two counts: the float nearest to the quotient. *)
Definition razon (a b : nat) : Q :=
  Binary64.cercano (inject_Z (Z.of_nat a) / inject_Z (Z.of_nat b)).

(** A decimal literal of the source: the float nearest to it. *)
Definition literal (x : Q) : Q := Binary64.cercano x.

Definition es_numero_posible (texto : string) : bool :=
  let t := Texto.lower (quitar_moneda texto) in
  if String.eqb t "" || String.eqb t "nan" then false
  else Qgtb (razon (Texto.count Texto.isdigit t) (String.length t)) (literal (1 # 2)).

Definition tiene_decimales (texto : string) : bool :=
  let t := Texto.strip texto in Texto.contains "," t || Texto.contains "." t.

Definition es_producto (texto : string) : bool :=
  let t := Texto.strip texto in
  if (String.length t <? 4)%nat || String.eqb (Texto.lower t) "nan" then false
  else Qgtb (razon (Texto.count (fun c => Texto.isalpha c || Texto.isspace c) t)
                   (String.length t)) (literal (3 # 5)).

Definition es_codigo (texto : string) : bool :=
  let t := Texto.strip texto in
  if String.eqb (Texto.lower t) "nan" then false
  else (1 <? String.length t)%nat && (String.length t <? 18)%nat
       && Texto.any Texto.isdigit t.

(** The four entries that the scoring loop stores for one column. *)
Record Puntajes : Type := {
  scores_precio : Q;
  scores_decimales : Q;
  scores_producto : Q;
  scores_codigo : Q
}.

Definition contar {A} (p : A -> bool) (l : list A) : nat := length (filter (fun x => p x = true) l).

Definition puntuar (muestra : list string) : Puntajes :=
  let total := length muestra in
  let muestra_str := Texto.strip <$> muestra in
  let unicos := length (remove_dups muestra_str) in
  let ratio_unicidad := if (0 <? total)%nat then razon unicos total else 0%Q in
  let avg_len := if (0 <? total)%nat
                 then razon (foldr (fun x a => String.length x + a)%nat O muestra_str) total
                 else 0%Q in
  let hits_num := contar es_numero_posible muestra in
  let hits_dec := contar (fun x => es_numero_posible x && tiene_decimales x) muestra in
  let hits_prod := contar es_producto muestra in
  let hits_cod := contar es_codigo muestra in
  {| scores_precio := razon hits_num total;
     scores_decimales := razon hits_dec total;
     scores_producto := Binary64.cercano (razon hits_prod total * avg_len);
     scores_codigo := Binary64.cercano (razon hits_cod total * ratio_unicidad) |}.

(** [range(0, total_filas, step)] *)
Definition indices_muestra (total_filas : nat) : list nat :=
  let step := Nat.max 1 (total_filas / 200) in
  (fun k => k * step)%nat <$> seq 0 ((total_filas + step - 1) / step).

(** [df[col].iloc[indices_muestra].tolist()]; [None] is the [IndexError]
    of a position past the last row. *)
Definition muestra_columna (df : DataFrame) (indices : list nat) (col : etiqueta)
  : option (list string) :=
  j ← get_loc col (columnas df);
  mapM (fun i => celda j <$> (filas df !! i)) indices.

Definition puntuar_columnas (df : DataFrame) (total_filas : nat)
  : option (list (etiqueta * Puntajes)) :=
  mapM (fun col => (fun mu => (col, puntuar mu)) <$>
                   muestra_columna df (indices_muestra total_filas) col)
       (columnas df).

(** [list.sort] and [sorted]: a stable insertion sort.  [antes x y] says
    that [x] may stand before [y]; for [sort(key=k, reverse=True)] it is
    "the key of [x] is at least the key of [y]". *)
Fixpoint insertar_orden {A} (antes : A -> A -> bool) (x : A) (l : list A) : list A :=
  match l with
  | [] => [x]
  | y :: l' => if antes x y then x :: l else y :: insertar_orden antes x l'
  end.

Definition ordenar_estable {A} (antes : A -> A -> bool) (l : list A) : list A :=
  foldr (insertar_orden antes) [] l.

(** The tie-break loop over the remaining price candidates. *)
Fixpoint desempatar (sp sd : etiqueta -> Q) (best_col : etiqueta)
  (candidatos : list etiqueta) : etiqueta :=
  match candidatos with
  | [] => best_col
  | cand :: resto =>
      if Qltb (Binary64.cercano (sp best_col - sp cand)) (literal (1 # 5)) then
        if Qgtb (sd cand) (Binary64.cercano (sd best_col + literal (1 # 10)))
        then desempatar sp sd cand resto
        else desempatar sp sd best_col resto
      else best_col
  end.

(** [max(d, key=d.get)]: the first key with the greatest value. *)
Fixpoint primero_maximo (best : etiqueta * Q) (d : list (etiqueta * Q)) : etiqueta :=
  match d with
  | [] => best.1
  | kv :: d' => primero_maximo (if Qgtb kv.2 best.2 then kv else best) d'
  end.

(** The position-weighted choice of the code column. *)
Fixpoint elegir_codigo (cols : list etiqueta) (idx_prod : nat)
  (best_cand : option etiqueta) (best_final_score : Q)
  (candidatos_cod : list (etiqueta * Q)) : option etiqueta :=
  match candidatos_cod with
  | [] => best_cand
  | (cand, s) :: resto =>
      let score_base :=
        match get_loc cand cols with
        | Some idx_cand =>
            if (idx_cand <? idx_prod)%nat then Binary64.cercano (s * 2)
            else Binary64.cercano (s * (1 # 2))
        | None => s
        end in
      if Qgtb score_base best_final_score
      then elegir_codigo cols idx_prod (Some cand) score_base resto
      else elegir_codigo cols idx_prod best_cand best_final_score resto
  end.

(** Truth value of a column label: the integer 0 and the empty text are
    falsy. *)
Definition etiqueta_verdadera (c : etiqueta) : bool :=
  match c with
  | EInt n => negb (n =? 0)
  | ETxt s => negb (String.eqb s "")
  end.

(** The choice of the product, price and code columns from the scores;
    [None] where the source returns an empty frame. *)
Definition elegir_columnas (cols : list etiqueta) (scores : list (etiqueta * Puntajes))
  : option (etiqueta * etiqueta * option etiqueta) :=
  let sp c := from_option scores_precio 0%Q (dict_get c scores) in
  let sd c := from_option scores_decimales 0%Q (dict_get c scores) in
  let spr c := from_option scores_producto 0%Q (dict_get c scores) in
  match cols with
  | [c0; c1] =>
      if Qgtb (sp c1) (literal (3 # 10)) && Qgtb (spr c0) (literal (3 # 10))
      then Some (c0, c1, None)
      else if Qgtb (sp c0) (literal (3 # 10)) && Qgtb (spr c1) (literal (3 # 10))
      then Some (c1, c0, None)
      else None
  | _ =>
      let candidatos :=
        (filter (fun cs => Qgtb (scores_precio cs.2) (literal (1 # 10)) = true) scores).*1 in
      match ordenar_estable (fun a b => Qle_bool (sp b) (sp a)) candidatos with
      | [] => None
      | best_col :: resto =>
          let col_precio := desempatar sp sd best_col resto in
          let posibles_prods :=
            filter (fun kv => kv.1 ≠ col_precio)
                   ((fun cs => (cs.1, scores_producto cs.2)) <$> scores) in
          match filter (fun kv => Qgtb kv.2 (literal (1 # 2)) = true) posibles_prods with
          | [] => None
          | kv :: resto_prods =>
              let col_producto := primero_maximo kv resto_prods in
              let posibles_cods :=
                filter (fun kv => kv.1 ≠ col_precio ∧ kv.1 ≠ col_producto)
                       ((fun cs => (cs.1, scores_codigo cs.2)) <$> scores) in
              let candidatos_cod :=
                filter (fun kv => Qgtb kv.2 (literal (1 # 20)) = true) posibles_cods in
              let idx_prod := default 999%nat (get_loc col_producto cols) in
              Some (col_producto, col_precio,
                    elegir_codigo cols idx_prod None (-1) candidatos_cod)
          end
      end
  end.

(** The automatic branch.  [total_filas] is the row count taken before the
    manual branch ran; [None] is an exception that leaves the function. *)
Definition modo_automatico (df : DataFrame) (total_filas : nat) : option (list Fila) :=
  scores ← puntuar_columnas df total_filas;
  match scores with
  | [] => Some []
  | _ :: _ =>
      match elegir_columnas (columnas df) scores with
      | None => Some []
      | Some (col_producto, col_precio, col_codigo) =>
          if negb (etiqueta_verdadera col_producto) || negb (etiqueta_verdadera col_precio)
          then Some []
          else
            let mapa := [(col_producto, "Producto"); (col_precio, "Precio de Costo")] in
            let mapa :=
              match col_codigo with
              | Some c => if etiqueta_verdadera c then mapa ++ [(c, "Codigo")] else mapa
              | None => mapa
              end in
            _limpieza_final (asegurar_codigo (renombrar mapa df))
      end
  end.

(** [_procesar_dataframe_inteligente(df, mapeo_manual)].  The empty table
    stands for the empty frame that the source returns when it rejects the
    grid. *)
Definition _procesar_dataframe_inteligente (df : DataFrame) (mapeo_manual : option Mapeo)
  : option (list Fila) :=
  if tiene_columna (ETxt "Producto") df && tiene_columna (ETxt "Precio de Costo") df
  then _limpieza_final (asegurar_codigo df)
  else
    let total_filas := length (filas df) in
    if (total_filas =? 0)%nat then Some []
    else
      match mapeo_manual with
      | Some m =>
          if mapeo_presente m then
            match modo_manual df m with
            | Devuelve t => Some t
            | Falla df' => modo_automatico df' total_filas
            end
          else modo_automatico df total_filas
      | None => modo_automatico df total_filas
      end.

(** ** Configuration store *)

(** A per-supplier entry: a bare markup or a record of fields. *)
Inductive Entrada : Type :=
  | Escalar (q : Q)
  | Registro (r : gmap string Q).

(** The configuration document, with the keys of its schema; a key may be
    absent. *)
Record Documento : Type := {
  doc_margenes_por_proveedor : option (gmap string Entrada);
  doc_margen_default : option Q;
  doc_umbral_busqueda_fuzzy : option Z;
  doc_moneda : option string;
  doc_drive_folder_id : option string
}.

(** What a path holds: a file opened for writing and not yet written is
    empty, which does not parse. *)
Inductive Contenido : Type :=
  | Vacio
  | Json (d : Documento).

(** The state of a [MotorPrecios]. *)
Record Motor : Type := {
  archivo_margenes : string;
  proveedores : list (string * list Fila);
  margenes : gmap string Entrada;
  margen_default : Q;
  umbral_fuzzy : Z;
  moneda : string;
  drive_folder_id : string
}.

(** The fields that [__init__] sets before loading anything. *)
Definition motor_inicial (archivo : string) : Motor :=
  {| archivo_margenes := archivo; proveedores := [];
     margenes := ∅; margen_default := 20; umbral_fuzzy := 60;
     moneda := "ARS"; drive_folder_id := "" |}.

(** [_cargar_margenes()]: a missing or unparsable file leaves the state as
    it is. *)
Definition _cargar_margenes (fs : gmap string Contenido) (m : Motor) : Motor :=
  match fs !! archivo_margenes m with
  | Some (Json config) =>
      {| archivo_margenes := archivo_margenes m;
         proveedores := proveedores m;
         margenes := default ∅ (doc_margenes_por_proveedor config);
         margen_default := default 20%Q (doc_margen_default config);
         umbral_fuzzy := default 60 (doc_umbral_busqueda_fuzzy config);
         moneda := default "ARS" (doc_moneda config);
         drive_folder_id := default "" (doc_drive_folder_id config) |}
  | Some Vacio | None => m
  end.

(** The document that [_guardar_margenes] builds. *)
Definition config_a_guardar (m : Motor) : Documento :=
  {| doc_margenes_por_proveedor := Some (margenes m);
     doc_margen_default := Some (margen_default m);
     doc_umbral_busqueda_fuzzy := Some (umbral_fuzzy m);
     doc_moneda := Some (moneda m);
     doc_drive_folder_id := None |}.

(** [_guardar_margenes()], one file-system state per effect: [open(.., "w")]
    truncates the target, [json.dump] then writes the document into it. *)
Definition _guardar_margenes (m : Motor) (fs : gmap string Contenido)
  : list (gmap string Contenido) :=
  let fs1 := <[archivo_margenes m := Vacio]> fs in
  let fs2 := <[archivo_margenes m := Json (config_a_guardar m)]> fs1 in
  [fs1; fs2].

Definition con_margenes (m : Motor) (mg : gmap string Entrada) : Motor :=
  {| archivo_margenes := archivo_margenes m; proveedores := proveedores m;
     margenes := mg; margen_default := margen_default m;
     umbral_fuzzy := umbral_fuzzy m; moneda := moneda m;
     drive_folder_id := drive_folder_id m |}.

(** [actualizar_margen(proveedor, margen, desc1, desc2)]: the new state and
    the file-system states that the save goes through. *)
Definition actualizar_margen (m : Motor) (fs : gmap string Contenido)
  (proveedor : string) (margen desc1 desc2 : Q)
  : Motor * list (gmap string Contenido) :=
  let entrada :=
    if Qgtb desc1 0 || Qgtb desc2 0
    then Registro {[ "margen" := margen; "desc1" := desc1; "desc2" := desc2 ]}
    else Escalar margen in
  let m' := con_margenes m (<[proveedor := entrada]> (margenes m)) in
  (m', _guardar_margenes m' fs).

(** The file system once every effect has happened. *)
Definition estado_final (fs : gmap string Contenido) (pasos : list (gmap string Contenido))
  : gmap string Contenido := List.last pasos fs.

(** ** Pricing *)

(** [config.get(k, 0)] *)
Definition config_get (config : gmap string Q) (k : string) : Q :=
  default 0%Q (config !! k).

(** [obtener_info_config(proveedor)]: the dict with the three keys. *)
Definition obtener_info_config (m : Motor) (proveedor : string) : gmap string Q :=
  match margenes m !! proveedor with
  | Some (Registro raw) =>
      {[ "margen" := config_get raw "margen";
         "desc1" := config_get raw "desc1";
         "desc2" := config_get raw "desc2" ]}
  | Some (Escalar raw) => {[ "margen" := raw; "desc1" := 0%Q; "desc2" := 0%Q ]}
  | None => {[ "margen" := margen_default m; "desc1" := 0%Q; "desc2" := 0%Q ]}
  end.

(** [round(x, 2)]: the exact value of [x] is rounded to the nearest
    hundredth, ties to the even one, and the float nearest to that
    hundredth is returned; an infinity or a NaN is returned as it is. *)
Definition round2 (x : Binary64.t) : Binary64.t :=
  match x with
  | Binary64.Finito v => Binary64.redondear (redondear_par (v * 100) # 100)
  | Binary64.Infinito _ | Binary64.NaN => x
  end.

(** [calcular_precio_final(precio_costo, config)].  The cost and the
    values of the dict are floats (the callers hand in [float(..)] of
    what they hold): each enters the arithmetic as the float of its
    value. *)
Definition calcular_precio_final (precio_costo : Q) (config : gmap string Q) : Binary64.t :=
  let costo_neto := Binary64.redondear precio_costo in
  let d1 := Binary64.redondear (config_get config "desc1") in
  let costo_neto :=
    if Binary64.mayor_que_cero d1
    then Binary64.producto costo_neto (Binary64.resta Binary64.uno (Binary64.entre_cien d1))
    else costo_neto in
  let d2 := Binary64.redondear (config_get config "desc2") in
  let costo_neto :=
    if Binary64.mayor_que_cero d2
    then Binary64.producto costo_neto (Binary64.resta Binary64.uno (Binary64.entre_cien d2))
    else costo_neto in
  let margen := Binary64.redondear (config_get config "margen") in
  let precio_venta :=
    Binary64.producto costo_neto (Binary64.suma Binary64.uno (Binary64.entre_cien margen)) in
  round2 precio_venta.

(** ** Search *)

(** One entry of the list that [buscar_producto] returns. *)
Record Hit : Type := {
  codigo : string;
  producto : string;
  proveedor : string;
  precio_costo : Q;
  config : gmap string Q;
  precio_final : Binary64.t;
  score_busqueda : Z
}.

(** [l[:n]] and [df.head(n)]: a negative [n] counts from the end. *)
Definition py_hasta {A} (n : Z) (l : list A) : list A :=
  if 0 <=? n then take (Z.to_nat n) l
  else take (length l - Z.to_nat (- n)) l.

(** [proveedor_target and nom_prov != proveedor_target] *)
Definition otro_proveedor (proveedor_target : option string) (nom_prov : string) : bool :=
  match proveedor_target with
  | Some t => negb (String.eqb t "") && negb (String.eqb nom_prov t)
  | None => false
  end.

Definition por_score (a b : Hit) : bool := score_busqueda b <=? score_busqueda a.

Section Busqueda.

(** The two library calls of the search.  [str_contains pat] is pandas'
    [Series.str.contains(pat, na=False)], a regular-expression search:
    [None] when the pattern does not compile, else the test on one cell.
    [partial_token_sort_ratio] is the scorer that [process.extract] runs
    on the query and one choice. *)
Variable str_contains : string -> option (string -> bool).
Variable partial_token_sort_ratio : string -> string -> Z.

Variable m : Motor.
Variable consulta : string.
Variable limite : Z.
Variable proveedor_target : option string.

(** The dict appended for one row.  The cost cell already holds a number,
    which the [float(str(..))] round trip gives back. *)
Definition hit_de (nom_prov : string) (row : Fila) (score : Z) : Hit :=
  let config := obtener_info_config m nom_prov in
  {| codigo := Codigo row;
     producto := Producto row;
     proveedor := nom_prov;
     precio_costo := Precio_de_Costo row;
     config := config;
     precio_final := calcular_precio_final (Precio_de_Costo row) config;
     score_busqueda := score |}.

(** [df[mask].head(limite)]; [None] when building the mask raises. *)
Definition df_exact (df : list Fila) : option (list Fila) :=
  busca ← str_contains consulta;
  Some (py_hasta limite
          (filter (fun row => busca (Texto.lower (Producto row))
                              || busca (Texto.lower (Codigo row)) = true) df)).

(** The first loop over the suppliers, with its early exit. *)
Fixpoint fase_exacta (provs : list (string * list Fila)) (resultados : list Hit)
  : list Hit :=
  match provs with
  | [] => resultados
  | (nom_prov, df) :: resto =>
      if otro_proveedor proveedor_target nom_prov then fase_exacta resto resultados
      else if bool_decide (df = []) then fase_exacta resto resultados
      else
        match df_exact df with
        | None => fase_exacta resto resultados
        | Some rows =>
            let resultados := resultados ++ ((fun row => hit_de nom_prov row 100) <$> rows) in
            if limite * 2 <=? Z.of_nat (length resultados) then resultados
            else fase_exacta resto resultados
        end
  end.

(** [process.extract(consulta, pool, limit=5, scorer=..)]: the five best
    choices by score, ties in pool order. *)
Definition process_extract (pool : list string) : list (string * Z) :=
  take 5 (ordenar_estable (fun a b => b.2 <=? a.2)
            ((fun c => (c, partial_token_sort_ratio consulta c)) <$> pool)).

(** The inner loop over the matches of one supplier. *)
Fixpoint agregar_fuzzy (nom_prov : string) (df : list Fila)
  (matches : list (string * Z)) (resultados : list Hit) : list Hit :=
  match matches with
  | [] => resultados
  | (m_str, score) :: resto =>
      if score <? umbral_fuzzy m then agregar_fuzzy nom_prov df resto resultados
      else if existsb (fun r => String.eqb (producto r) m_str
                                && String.eqb (proveedor r) nom_prov) resultados
      then agregar_fuzzy nom_prov df resto resultados
      else
        match List.find (fun row => String.eqb (Producto row) m_str) df with
        | Some row =>
            agregar_fuzzy nom_prov df resto (resultados ++ [hit_de nom_prov row score])
        | None => agregar_fuzzy nom_prov df resto resultados
        end
  end.

(** The second loop over the suppliers. *)
Fixpoint fase_fuzzy (provs : list (string * list Fila)) (resultados : list Hit)
  : list Hit :=
  match provs with
  | [] => resultados
  | (nom_prov, df) :: resto =>
      if otro_proveedor proveedor_target nom_prov then fase_fuzzy resto resultados
      else if bool_decide (df = []) then fase_fuzzy resto resultados
      else fase_fuzzy resto
             (agregar_fuzzy nom_prov df (process_extract (Producto <$> df)) resultados)
  end.

(** The list of hits before ranking: the substring hits, followed by the
    fuzzy hits when the second phase is entered. *)
Definition resultados_sin_ordenar : list Hit :=
  let resultados := fase_exacta (proveedores m) [] in
  if (length resultados <? 5)%nat && (3 <? String.length consulta)%nat
  then fase_fuzzy (proveedores m) resultados
  else resultados.

Definition buscar_ya_normalizada : list Hit :=
  py_hasta limite (ordenar_estable por_score resultados_sin_ordenar).

End Busqueda.

(** [buscar_producto(consulta, limite, proveedor_target)] *)
Definition buscar_producto
  (str_contains : string -> option (string -> bool))
  (partial_token_sort_ratio : string -> string -> Z)
  (m : Motor) (consulta : string) (limite : Z) (proveedor_target : option string)
  : list Hit :=
  buscar_ya_normalizada str_contains partial_token_sort_ratio m
    (Texto.strip (Texto.lower consulta)) limite proveedor_target.

(** ** Instances of the two library calls, for concrete catalogs *)

(** Modelled from the spec: the regular-expression engine behind
    [str.contains] is a library outside the repository.  A pattern made of
    letters, digits and blanks only (and the empty pattern) compiles and
    matches exactly the cells that contain it; this instance is that
    case. *)
Definition contiene_literal (pat : string) : option (string -> bool) :=
  Some (Texto.contains pat).

(** Modelled from the spec: the scorer of the fuzzy-matching library,
    outside the repository, after the design note "tokenize by whitespace,
    sort tokens, compute normalized edit-distance similarity on the
    best-aligned substring; return an integer in 0..100". *)
Module Fuzz.

(** The default processor: every character that is neither a letter, a
    digit nor an underscore becomes a blank; then lower case, trimmed. *)
Fixpoint solo_palabras (s : string) : string :=
  match s with
  | EmptyString => EmptyString
  | String c s' =>
      String (if Texto.isalnum c || Ascii.eqb c "_" then c else " "%char)
             (solo_palabras s')
  end.

Definition full_process (s : string) : string :=
  Texto.strip (Texto.lower (solo_palabras s)).

Fixpoint unir (l : list string) : string :=
  match l with
  | [] => ""
  | [w] => w
  | w :: l' => w +:+ " " +:+ unir l'
  end.

(** [" ".join(sorted(s.split()))] *)
Definition ordenar_tokens (s : string) : string :=
  unir (ordenar_estable (fun a b => String.leb a b) (String.words s)).

(** One row of the longest-common-subsequence table. *)
Fixpoint lcs_fila (x : ascii) (b : list ascii) (prev : list nat) (izq : nat)
  : list nat :=
  match b, prev with
  | y :: b', diag :: ((arriba :: _) as prev') =>
      let v := if Ascii.eqb x y then S diag else Nat.max arriba izq in
      v :: lcs_fila x b' prev' v
  | _, _ => []
  end.

Definition lcs (a b : list ascii) : nat :=
  List.last (foldl (fun prev x => O :: lcs_fila x b prev O)
               (replicate (S (length b)) O) a) O.

(** Similarity of two texts in 0..100. *)
Definition ratio (a b : list ascii) : Z :=
  let t := (length a + length b)%nat in
  if (t =? 0)%nat then 100
  else redondear_par (inject_Z (200 * Z.of_nat (lcs a b)) / inject_Z (Z.of_nat t)).

(** The windows of [larga] against which [corta] is aligned: its proper
    prefixes shorter than [corta], then, from every position, the next
    [length corta] characters (fewer at the end). *)
Definition ventanas (corta larga : list ascii) : list (list ascii) :=
  ((fun k => take k larga) <$> seq 1 (length corta - 1)) ++
  ((fun i => take (length corta) (drop i larga)) <$> seq 0 (length larga)).

Definition partial_ratio (s1 s2 : string) : Z :=
  let a := list_ascii_of_string s1 in
  let b := list_ascii_of_string s2 in
  let '(corta, larga) := if (length a <=? length b)%nat then (a, b) else (b, a) in
  match corta, larga with
  | [], [] => 100
  | [], _ :: _ => 0
  | _ :: _, _ => foldr (fun v r => Z.max (ratio corta v) r) 0 (ventanas corta larga)
  end.

Definition partial_token_sort_ratio (s1 s2 : string) : Z :=
  partial_ratio (ordenar_tokens (full_process s1)) (ordenar_tokens (full_process s2)).

End Fuzz.

(** ** The mobile engine (motor_mobile_lite.py) *)

Module MotorMobileLite.

(** An entry of the pre-processed product database. *)
Record Item : Type := {
  item_producto : string;
  item_codigo : string;
  item_proveedor : string;
  item_precio_costo : Q
}.

Record Motor : Type := {
  productos : list Item;
  margenes : gmap string Entrada;
  margen_default : Q
}.

Definition obtener_info_config (m : Motor) (proveedor : string) : gmap string Q :=
  match margenes m !! proveedor with
  | Some (Registro raw) =>
      {[ "margen" := config_get raw "margen";
         "desc1" := config_get raw "desc1";
         "desc2" := config_get raw "desc2" ]}
  | Some (Escalar raw) => {[ "margen" := raw; "desc1" := 0%Q; "desc2" := 0%Q ]}
  | None => {[ "margen" := margen_default m; "desc1" := 0%Q; "desc2" := 0%Q ]}
  end.

Definition _calcular_precio_final (m : Motor) (item : Item) : Binary64.t :=
  calcular_precio_final (item_precio_costo item)
    (obtener_info_config m (item_proveedor item)).

(** The loop over the products: an item and its current price per match,
    until [limite] results are there. *)
Fixpoint recorrer (m : Motor) (consulta : string) (limite : Z)
  (ps : list Item) (resultados : list (Item * Binary64.t)) : list (Item * Binary64.t) :=
  match ps with
  | [] => resultados
  | p :: resto =>
      if Texto.contains consulta (Texto.lower (item_producto p))
         || Texto.contains consulta (Texto.lower (item_codigo p))
         || Texto.contains consulta (Texto.lower (item_proveedor p))
      then
        let resultados := resultados ++ [(p, _calcular_precio_final m p)] in
        if limite <=? Z.of_nat (length resultados) then resultados
        else recorrer m consulta limite resto resultados
      else recorrer m consulta limite resto resultados
  end.

(** [buscar_producto(consulta, limite)] *)
Definition buscar_producto (m : Motor) (consulta : string) (limite : Z)
  : list (Item * Binary64.t) :=
  let consulta := Texto.strip (Texto.lower consulta) in
  if String.eqb consulta "" then []
  else recorrer m consulta limite (productos m) [].

End MotorMobileLite.


(** ** Predicates and data of the statements *)

(** What the cleanup guarantees of a row. *)
Definition fila_valida (r : Fila) : Prop :=
  (0 < Precio_de_Costo r)%Q /\ (1 < String.length (Texto.strip (Producto r)))%nat.

(** A frame as the El Taller extractor labels it, with a zero price, a
    one-letter product and a text in place of a price among its rows. *)
Definition tabla_taller : DataFrame :=
  {| columnas := [ETxt "Producto"; ETxt "Precio de Costo"];
     filas := [ ["Amoladora angular"; "$ 108.200"];
                ["Disco de corte"; "0,00"];
                ["X"; "15,50"];
                ["Llave francesa"; "consultar"];
                ["  Pinza universal  "; "1.234,56"] ] |}.

(** The frame on which the manual branch works, once [skip_rows] rows are
    dropped. *)
Definition tras_skip (df : DataFrame) (m : Mapeo) : DataFrame :=
  if 0 <? default 0 (skip_rows m)
  then {| columnas := columnas df;
          filas := drop (Z.to_nat (default 0 (skip_rows m))) (filas df) |}
  else df.

(** A header-less grid: code, description, price. *)
Definition grilla_codigo_producto_precio : DataFrame :=
  {| columnas := [EInt 0; EInt 1; EInt 2];
     filas := [ ["1001"; "Martillo de bola"; "1.500,50"];
                ["1002"; "Taladro percutor"; "17.684,21"];
                ["1003"; "Maza de goma"; "864,05"] ] |}.

Definition mapeo_columna_5 : Mapeo :=
  {| col_producto := Some 5; col_precio := Some 2; col_codigo := None; skip_rows := None |}.

Definition mapeo_columna_menos_7 : Mapeo :=
  {| col_producto := Some (-7); col_precio := Some 2; col_codigo := None; skip_rows := None |}.


(** The dict with the three keys of a supplier configuration. *)
Definition config_de (margen desc1 desc2 : Q) : gmap string Q :=
  {[ "margen" := margen; "desc1" := desc1; "desc2" := desc2 ]}.

(** A configuration file that names a remote folder, and the engine that
    loaded it. *)
Definition documento_con_carpeta : Documento :=
  {| doc_margenes_por_proveedor := Some {[ "ACME" := Escalar 25 ]};
     doc_margen_default := Some 20%Q;
     doc_umbral_busqueda_fuzzy := Some 60;
     doc_moneda := Some "ARS";
     doc_drive_folder_id := Some "1AbC" |}.

Definition fs_con_carpeta : gmap string Contenido :=
  {[ "margenes.json" := Json documento_con_carpeta ]}.

Definition motor_con_carpeta : Motor :=
  _cargar_margenes fs_con_carpeta (motor_inicial "margenes.json").

(** An engine whose only entry is a record that gives one discount and no
    markup. *)
Definition motor_con_registro : Motor :=
  {| archivo_margenes := "margenes.json"; proveedores := [];
     margenes := {[ "ACME" := Registro {[ "desc1" := 10%Q ]} ]};
     margen_default := 20; umbral_fuzzy := 60; moneda := "ARS";
     drive_folder_id := "" |}.

(** The same engine over another list of supplier tables. *)
Definition con_proveedores (m : Motor) (provs : list (string * list Fila)) : Motor :=
  {| archivo_margenes := archivo_margenes m; proveedores := provs;
     margenes := margenes m; margen_default := margen_default m;
     umbral_fuzzy := umbral_fuzzy m; moneda := moneda m;
     drive_folder_id := drive_folder_id m |}.

(** What the second phase guarantees of a hit that it appends: a score at
    least the threshold, which is the scorer's value for the query and the
    product. *)
Definition hit_fuzzy (scorer : string -> string -> Z) (m : Motor) (consulta : string)
  (h : Hit) : Prop :=
  umbral_fuzzy m <= score_busqueda h /\
  score_busqueda h = scorer consulta (producto h).

Definition fila (c p : string) (q : Q) : Fila :=
  {| Codigo := c; Producto := p; Precio_de_Costo := q |}.

Definition motor_de (provs : list (string * list Fila)) : Motor :=
  {| archivo_margenes := "margenes.json"; proveedores := provs;
     margenes := {[ "A" := Escalar 50 ]}; margen_default := 20;
     umbral_fuzzy := 60; moneda := "ARS"; drive_folder_id := "" |}.

(** Two suppliers with three products between them. *)
Definition motor_dos_proveedores : Motor :=
  motor_de [ ("A", [fila "1" "Martillo de bola" 1000; fila "2" "Pinza universal" 800]);
             ("B", [fila "7" "Martilo de carpintero" 500]) ].

(** One supplier whose product holds the words of the query
    "bola martillo" in the other order. *)
Definition motor_martillo_bola : Motor :=
  motor_de [ ("A", [fila "2" "martillo bola" 10]) ].

(** Three suppliers that all sell hammers. *)
Definition tabla_martillos (p : string) : list Fila :=
  [ fila "1" (p +:+ " martillo chico") 100;
    fila "2" (p +:+ " martillo mediano") 200;
    fila "3" (p +:+ " martillo grande") 300 ].

Definition proveedores_a_b : list (string * list Fila) :=
  [ ("A", tabla_martillos "A"); ("B", tabla_martillos "B") ].

Definition proveedores_c : list (string * list Fila) :=
  [ ("C", [fila "9" "martillo de oro" 9000]) ].

Definition motor_lite : MotorMobileLite.Motor :=
  {| MotorMobileLite.productos :=
       [ {| MotorMobileLite.item_producto := "Martillo de bola";
            MotorMobileLite.item_codigo := "1";
            MotorMobileLite.item_proveedor := "A";
            MotorMobileLite.item_precio_costo := 1000 |} ];
     MotorMobileLite.margenes := ∅;
     MotorMobileLite.margen_default := 30 |}.

(** * Further parts of the engines *)

(** ** Predicates of the further statements *)

(** Two hits name the same product of the same supplier: the test of the
    fuzzy loop against the hits gathered so far. *)
Definition mismo_producto (a b : Hit) : Prop :=
  producto a = producto b /\ proveedor a = proveedor b.

(** No hit of [nuevos] names a product and supplier of a hit before it, in
    [previos] or earlier in [nuevos]. *)
Definition sin_repetir (previos nuevos : list Hit) : Prop :=
  forall (i : nat) (h : Hit),
    nuevos !! i = Some h ->
    Forall (fun h' => ~ mismo_producto h' h) (previos ++ take i nuevos).

(** The hit stands for a row of the catalog. *)
Definition hit_del_catalogo (m : Motor) (h : Hit) : Prop :=
  exists (df : list Fila) (row : Fila),
    (proveedor h, df) ∈ proveedores m /\ row ∈ df /\
    producto h = Producto row /\ codigo h = Codigo row /\
    precio_costo h = Precio_de_Costo row.

(** ** Loading the catalog *)

(** [s.endswith(suf)] *)
Definition endswith (suf s : string) : bool :=
  Texto.startswith (String.rev suf) (String.rev s).

(** [f.lower().endswith((".xlsx", ".xls", ".csv", ".pdf"))] *)
Definition extension_de_proveedor (f : string) : bool :=
  let l := Texto.lower f in
  endswith ".xlsx" l || endswith ".xls" l || endswith ".csv" l || endswith ".pdf" l.

(** [os.path.splitext(archivo)[0]] for a name without directory part: the
    text before the last dot, unless only dots stand before it. *)
Definition splitext_0 (archivo : string) : string :=
  let dot := Texto.rfind "." archivo in
  if 0 <? dot then
    let antes := String.substring 0 (Z.to_nat dot) archivo in
    if Texto.any (fun c => negb (Ascii.eqb c ".")) antes then antes else archivo
  else archivo.

(** What the loader finds for one entry of the directory: the name and the
    modification time of the file, what its reader returns ([None] when it
    raises), the companion mapping when there is a readable one, and the
    cache file when there is one: its modification time and what
    unpickling it returns ([None] when it raises). *)
Record Archivo : Type := {
  archivo : string;
  mtime_org : Q;
  lectura : option DataFrame;
  mapeo_json : option Mapeo;
  cache : option (Q * option (list Fila))
}.

(** The part of [procesar_un_archivo] after the cache check. *)
Definition procesar_sin_cache (a : Archivo) : option (string * list Fila) :=
  df ← lectura a;
  df_final ← _procesar_dataframe_inteligente df (mapeo_json a);
  if bool_decide (df_final = []) then None else Some (splitext_0 (archivo a), df_final).

(** [procesar_un_archivo(archivo)]: the supplier name and its table, or
    [None]. *)
Definition procesar_un_archivo (a : Archivo) : option (string * list Fila) :=
  match cache a with
  | Some (mtime_cache, Some df_cached) =>
      if Qgtb mtime_cache (mtime_org a) then Some (splitext_0 (archivo a), df_cached)
      else procesar_sin_cache a
  | Some (_, None) | None => procesar_sin_cache a
  end.

(** [d[k] = v] on a dict kept in insertion order: a present key keeps its
    place and takes the new value, a new key goes last. *)
Fixpoint dict_set {V} (k : string) (v : V) (d : list (string * V)) : list (string * V) :=
  match d with
  | [] => [(k, v)]
  | (k', v') :: d' => if String.eqb k' k then (k, v) :: d' else (k', v') :: dict_set k v d'
  end.

(** The dict that [_cargar_proveedores] fills from the results of the
    files, in the order of the listing. *)
Definition catalogo_de (directorio : list Archivo) : list (string * list Fila) :=
  foldl (fun d res => match res with
                      | Some (nombre, df) => dict_set nombre df d
                      | None => d
                      end)
        []
        (procesar_un_archivo <$>
           filter (fun a => extension_de_proveedor (archivo a) = true) directorio).

(** [_cargar_proveedores()] *)
Definition _cargar_proveedores (directorio : list Archivo) (m : Motor) : Motor :=
  con_proveedores m (catalogo_de directorio).

(** [recargar()] *)
Definition recargar (fs : gmap string Contenido) (directorio : list Archivo) (m : Motor)
  : Motor :=
  _cargar_proveedores directorio
    (_cargar_margenes fs (con_margenes (con_proveedores m []) ∅)).

(** [listar_proveedores()] *)
Definition listar_proveedores (m : Motor) : list string := (proveedores m).*1.

(** [obtener_total_productos()] *)
Definition obtener_total_productos (m : Motor) : nat :=
  foldr (fun p n => length p.2 + n)%nat O (proveedores m).


(** The configuration that [actualizar_margen] leaves for the supplier:
    the three values when a discount is positive, else the markup alone. *)
Definition config_guardada (margen desc1 desc2 : Q) : gmap string Q :=
  if Qgtb desc1 0 || Qgtb desc2 0 then config_de margen desc1 desc2
  else config_de margen 0 0.

(** The tables that the files of a listing yield, in order. *)
Definition resultados_de (directorio : list Archivo) : list (string * list Fila) :=
  omap procesar_un_archivo
    (filter (fun a => extension_de_proveedor (archivo a) = true) directorio).

(** Where a table of the catalog comes from: a cache file newer than its
    source, or the inference on what the reader returned. *)
Definition tabla_de_archivo (a : Archivo) (t : list Fila) : Prop :=
  (exists mtime_cache : Q,
      cache a = Some (mtime_cache, Some t) /\ (mtime_org a < mtime_cache)%Q) \/
  (t <> [] /\ Forall fila_valida t /\
   exists df : DataFrame,
     lectura a = Some df /\
     _procesar_dataframe_inteligente df (mapeo_json a) = Some t).

(** A listing with two files of the same name up to the extension, the
    second with a cache file newer than itself, and a file that is not a
    price list. *)
Definition directorio_acme : list Archivo :=
  [ {| archivo := "ACME.csv"; mtime_org := 10;
       lectura := Some grilla_codigo_producto_precio; mapeo_json := None;
       cache := None |};
    {| archivo := "notas.txt"; mtime_org := 3;
       lectura := Some grilla_codigo_producto_precio; mapeo_json := None;
       cache := None |};
    {| archivo := "ACME.PDF"; mtime_org := 5;
       lectura := None; mapeo_json := None;
       cache := Some (7%Q, Some [ {| Codigo := "1"; Producto := "Del cache";
                                     Precio_de_Costo := 1 |} ]) |} ].

(** A mapping for the grid of code, description and price: the price is
    the last column, and the first row is skipped. *)
Definition mapeo_completo : Mapeo :=
  {| col_producto := Some 1; col_precio := Some (-1); col_codigo := Some 0;
     skip_rows := Some 1 |}.

(** The test of the mobile search on one item, for a lowered and trimmed
    query. *)
Definition coincide_lite (consulta : string) (p : MotorMobileLite.Item) : bool :=
  Texto.contains consulta (Texto.lower (MotorMobileLite.item_producto p))
  || Texto.contains consulta (Texto.lower (MotorMobileLite.item_codigo p))
  || Texto.contains consulta (Texto.lower (MotorMobileLite.item_proveedor p)).

(** ** Reading a PDF

    What the PDF library extracts from a page is given: the tables found
    with the default settings, those found with the text strategy, and the
    text.  A table is a list of rows of cells; a cell is a text or [None].
    A cell that the frame constructor fills in for a short row is [None];
    the filters treat it as they treat a cell that reads "None" or "nan".
    Texts are ASCII, as everywhere in this model, so the keywords written
    with an accent occur in none of them. *)

Definition Tabla : Type := list (list (option string)).

Record Pagina : Type := {
  extract_tables : list Tabla;
  extract_tables_texto : list Tabla;
  extract_text : option string
}.

(** [str(v)] of a cell. *)
Definition str_celda (v : option string) : string := default "None" v.

Definition salto_de_linea : string := String "010" "".

(** *** The El Taller extractor *)

Definition basura : list string :=
  [ "luis"; "estela"; "gmail"; "hidrolavadoras"; "lijadoras"; "página"; "precio";
    "ofert"; "cod."; "o. c"; "oferta" ].

(** One row of a table through the loop of [_leer_pdf_taller]: the product
    and the price kept, or [None] when the row is skipped. *)
Definition fila_taller (row : list (option string)) : option (string * string) :=
  if (length row <? 2)%nat then None
  else
    let row := (fun c => Texto.strip (Texto.replace salto_de_linea " " c)) <$> omap id row in
    match row with
    | prod :: prec :: resto =>
        let prec :=
          match resto with
          | r2 :: _ =>
              if negb (Texto.any Texto.isdigit prec) || negb (Texto.contains "$" prec)
              then r2 else prec
          | [] => prec
          end in
        if (String.length prod <? 5)%nat
           || bool_decide (Texto.lower prec ∈ ["none"; ""; "nan"])
        then None
        else if existsb (fun b => Texto.contains b (Texto.lower prod)) basura then None
        else Some (prod, prec)
    | _ => None
    end.

(** [_leer_pdf_taller(pdf)] *)
Definition _leer_pdf_taller (pdf : list Pagina) : DataFrame :=
  {| columnas := [ETxt "Producto"; ETxt "Precio de Costo"];
     filas := (fun pq => [pq.1; pq.2]) <$>
                omap fila_taller (concat (concat (extract_tables <$> pdf))) |}.

(** *** The general extractor: tables *)

Definition KEYWORDS_HEADER : list string :=
  [ "codigo"; "descripcion"; "descripción"; "producto"; "precio";
    "$ lista"; "$lista"; "lista"; "costo"; "art"; "articulo";
    "artículo"; "detalle"; "importe"; "p.lista"; "p. lista";
    "cod"; "code"; "item"; "ref"; "referencia" ].

(** [str(v).strip() not in ("", "None", "nan")] *)
Definition con_contenido (v : option string) : bool :=
  negb (bool_decide (Texto.strip (str_celda v) ∈ [""; "None"; "nan"])).

(** [any(kw in c for kw in KEYWORDS_HEADER)] *)
Definition tiene_keyword (c : string) : bool :=
  existsb (fun kw => Texto.contains kw c) KEYWORDS_HEADER.

(** The cells that the header test looks at: trimmed, lowered, the empty
    ones left out. *)
Definition celdas_de (row : list (option string)) : list string :=
  (fun v => Texto.lower (Texto.strip (str_celda v))) <$>
    filter (fun v => Texto.strip (str_celda v) <> "") row.

(** The row is a repeated header: at least half of its cells hold a
    keyword. *)
Definition es_encabezado (row : list (option string)) : bool :=
  let celdas := celdas_de row in
  (length celdas <=? 2 * contar tiene_keyword celdas)%nat.

(** The row is a section title: a single cell with content, short and
    without digits, in a table of three columns or more. *)
Definition es_titulo (n_cols : nat) (row : list (option string)) : bool :=
  match filter (fun v => con_contenido v = true) row with
  | [v] =>
      (3 <=? n_cols)%nat &&
      let texto := Texto.strip (str_celda v) in
      (String.length texto <? 50)%nat && negb (Texto.any Texto.isdigit texto)
  | _ => false
  end.

(** The row goes into [filas_a_eliminar]. *)
Definition fila_a_eliminar (n_cols : nat) (row : list (option string)) : bool :=
  bool_decide (celdas_de row = []) || es_encabezado row || es_titulo n_cols row.

(** [pd.DataFrame(tabla)]: the rows, each filled with [None] up to the
    longest. *)
Definition ancho (tabla : Tabla) : nat := foldr Nat.max O (length <$> tabla).

Definition rellenar {A} (x : A) (n : nat) (row : list A) : list A :=
  row ++ replicate (n - length row) x.

(** One table through the filters; the reference column count comes in and
    goes out.  [None] when the table is discarded. *)
Definition filtrar_tabla (num_cols_referencia : nat) (tabla : Tabla)
  : nat * option Tabla :=
  match tabla with
  | [] => (num_cols_referencia, None)
  | _ :: _ =>
      let n_cols := ancho tabla in
      let df_temp := rellenar None n_cols <$> tabla in
      if (n_cols <? 2)%nat || (length df_temp <? 1)%nat then (num_cols_referencia, None)
      else
        let df_temp := filter (fun row => existsb con_contenido row = true) df_temp in
        match df_temp with
        | [] => (num_cols_referencia, None)
        | _ :: _ =>
            let df_temp := filter (fun row => fila_a_eliminar n_cols row = false) df_temp in
            if (length df_temp <? 1)%nat then (num_cols_referencia, None)
            else
              let num_cols_referencia :=
                if (num_cols_referencia =? 0)%nat then n_cols else num_cols_referencia in
              if (0 <? num_cols_referencia)%nat && (2 * n_cols <? num_cols_referencia)%nat
              then (num_cols_referencia, None)
              else (num_cols_referencia, Some df_temp)
        end
  end.

(** The tables of a page that the loop works on. *)
Definition tablas_de_pagina (page : Pagina) : list Tabla :=
  match extract_tables page with
  | [] => extract_tables_texto page
  | _ :: _ => extract_tables page
  end.

(** The loop over the pages and their tables: the accepted tables, in
    order. *)
Fixpoint filtrar_tablas (num_cols_referencia : nat) (tablas : list Tabla) : list Tabla :=
  match tablas with
  | [] => []
  | tabla :: resto =>
      let '(ref, r) := filtrar_tabla num_cols_referencia tabla in
      match r with
      | Some df_temp => df_temp :: filtrar_tablas ref resto
      | None => filtrar_tablas ref resto
      end
  end.

Definition tablas_aceptadas (pdf : list Pagina) : list Tabla :=
  filtrar_tablas O (concat (tablas_de_pagina <$> pdf)).

(** *** The general extractor: text *)

(** The three compiled patterns are given by what [match] returns on a
    line: the groups, or [None]. *)
Section Rescate.

Variable patron_producto : string -> option (string * string * string).
Variable patron_numerico : string -> option (string * string * string).
Variable patron_sin_codigo : string -> option (string * string).

Definition precio_nulo (precio : string) : bool :=
  bool_decide (precio ∈ ["0,00"; "0,0"; "0"]).

(** One line of text through the loop: the row appended to [filas_raw],
    or [None]. *)
Definition rescatar_linea (linea : string) : option (list string) :=
  let linea := Texto.strip linea in
  if String.eqb linea "" || (String.length linea <? 10)%nat then None
  else
    match patron_producto linea with
    | Some (codigo, g2, precio) =>
        let desc := Texto.strip g2 in
        if String.eqb precio "0" || (String.length desc <? 3)%nat then None
        else if bool_decide (precio ∈ ["0,00"; "0,0"]) then None
        else Some [codigo; desc; precio]
    | None =>
        match patron_numerico linea with
        | Some (g1, g2, precio) =>
            if precio_nulo precio then None
            else Some [g1; Texto.strip g2; precio]
        | None =>
            match patron_sin_codigo linea with
            | Some (g1, precio) =>
                let desc := Texto.strip g1 in
                if tiene_keyword (Texto.lower desc) then None
                else if (String.length desc <? 5)%nat || precio_nulo precio then None
                else Some [""; desc; precio]
            | None => None
            end
        end
    end.

Definition lineas_de_pagina (page : Pagina) : list string :=
  match extract_text page with
  | None | Some EmptyString => []
  | Some texto => Texto.split "010" texto
  end.

Definition filas_raw (pdf : list Pagina) : list (list string) :=
  omap rescatar_linea (concat (lineas_de_pagina <$> pdf)).

(** *** The general extractor: choice of the source and concatenation *)

Definition total_filas_tablas (dfs : list Tabla) : nat :=
  foldr Nat.add O (length <$> dfs).

(** The frames kept once the text has been read. *)
Definition elegir_fuente (dfs : list Tabla) (raw : list (list string)) : list Tabla :=
  match raw with
  | [] => dfs
  | _ :: _ =>
      let df_raw : Tabla := (fun fila : list string => Some <$> fila) <$> raw in
      if (total_filas_tablas dfs <? length raw)%nat then [df_raw] else dfs ++ [df_raw]
  end.

(** The frames brought to [max_cols] columns, labelled [0 .. max_cols-1]
    and stacked; as the caller sees it after [astype(str)]. *)
Definition concatenar (dfs : list Tabla) : DataFrame :=
  match dfs with
  | [] => {| columnas := []; filas := [] |}
  | _ :: _ =>
      let max_cols := foldr Nat.max O (ancho <$> dfs) in
      {| columnas := (fun c => EInt (Z.of_nat c)) <$> seq 0 max_cols;
         filas := concat ((fun df : Tabla =>
                     (fun row => rellenar "" max_cols (str_celda <$> row)) <$> df) <$> dfs) |}
  end.

Definition upper_char (c : ascii) : ascii :=
  if Texto.islower c then ascii_of_N (N_of_ascii c - 32) else c.

Fixpoint upper (s : string) : string :=
  match s with
  | EmptyString => EmptyString
  | String c s' => String (upper_char c) (upper s')
  end.

(** [_leer_pdf(ruta_archivo)] on a file that opens. *)
Definition _leer_pdf (ruta_archivo : string) (pdf : list Pagina) : DataFrame :=
  if Texto.contains "EL TALLER" (upper ruta_archivo) then _leer_pdf_taller pdf
  else concatenar (elegir_fuente (tablas_aceptadas pdf) (filas_raw pdf)).

End Rescate.

(** Every row is as long as the list of the labels. *)
Definition rectangular (df : DataFrame) : Prop :=
  Forall (fun fila => length fila = length (columnas df)) (filas df).

(** *** Sample pages

    The outcome of a pattern that is known on one line only. *)
Definition patron_de {G} (linea : string) (grupos : G) : string -> option G :=
  fun l => if String.eqb l linea then Some grupos else None.

(** A pattern that matches no line. *)
Definition sin_patron {G} : string -> option G := fun _ => None.

(** Two pages of a price list: a grid with its header, a product, a
    section title and an empty row; then two tables found by the text
    strategy. *)
Definition pdf_lista : list Pagina :=
  [ {| extract_tables :=
         [ [ [Some "Codigo"; Some "Descripcion"; Some "Precio"];
             [Some "A1"; Some "Martillo"; Some "1.250,50"];
             [Some "HERRAMIENTAS"; None; None];
             [None; None] ] ];
       extract_tables_texto := [];
       extract_text := None |};
    {| extract_tables := [];
       extract_tables_texto := [ [ [Some "Clavo"; Some "10,5"] ]; [ [Some "Pie de pagina"] ] ];
       extract_text := None |} ].

(** A page whose only table is a header and whose text holds a product
    line and a line with a null price. *)
Definition pdf_texto : list Pagina :=
  [ {| extract_tables := [ [ [Some "Precio"; Some "Lista"] ] ];
       extract_tables_texto := [];
       extract_text := Some ("Lista de precios" +:+ salto_de_linea +:+
                             "AB123 Martillo de bola 1.250,50" +:+ salto_de_linea +:+
                             "AB124 Oferta 0,00") |} ].

(** The pattern with an alphanumeric code on the lines of the sample
    pages. *)
Definition patron_producto_ejemplo : string -> option (string * string * string) :=
  fun l =>
    match patron_de "AB123 Martillo de bola 1.250,50" ("AB123", "Martillo de bola", "1.250,50") l with
    | Some g => Some g
    | None => patron_de "AB124 Oferta 0,00" ("AB124", "Oferta", "0,00") l
    end.

(** A page where the grid and the text hold the same product. *)
Definition pdf_mixto : list Pagina :=
  [ {| extract_tables := [ [ [Some "AB123"; Some "Martillo de bola"; Some "1.250,50"] ] ];
       extract_tables_texto := [];
       extract_text := Some "AB123 Martillo de bola 1.250,50" |} ].


(** ** Data of the pricing and catalog statements *)

(** The price formula as the specification words it, in exact
    arithmetic: the product of the cost, the two discount factors and the
    markup factor. *)
Definition spec_precio_exacto (c m d1 d2 : Q) : Q :=
  (c * (1 - d1 / 100) * (1 - d2 / 100) * (1 + m / 100))%Q.

(** That product rounded to two decimal places, the nearest hundredth
    with ties to the even one, as the float that holds it. *)
Definition spec_calcular_precio_final (c m d1 d2 : Q) : Binary64.t :=
  Binary64.redondear (redondear_par (spec_precio_exacto c m d1 d2 * 100) # 100).

(** The renaming dict of the manual and of the automatic branch: the
    product and the price column, then the code column when one was
    chosen. *)
Definition mapa_de (col_producto col_precio : etiqueta) (col_codigo : option etiqueta)
  : list (etiqueta * string) :=
  [(col_producto, "Producto"); (col_precio, "Precio de Costo")]
  ++ match col_codigo with Some c => [(c, "Codigo")] | None => [] end.

(** A listing whose only file has a cache file newer than itself, holding
    a row with a zero cost and a one-letter product. *)
Definition directorio_cache_ajeno : list Archivo :=
  [ {| archivo := "ACME.csv"; mtime_org := 5;
       lectura := Some grilla_codigo_producto_precio; mapeo_json := None;
       cache := Some (7%Q, Some [ {| Codigo := ""; Producto := "X";
                                     Precio_de_Costo := 0 |} ]) |} ].

(** The same file without a cache. *)
Definition directorio_sin_cache : list Archivo :=
  [ {| archivo := "ACME.csv"; mtime_org := 5;
       lectura := Some grilla_codigo_producto_precio; mapeo_json := None;
       cache := None |} ].
(** * Properties *)

(** ** The normaliser *)

Lemma app_vacio (s : string) : "" +:+ s = s.
Proof. reflexivity. Qed.

Lemma replace_quita_caracter (c : ascii) (s : string) :
  Texto.contains (String c "") (Texto.replace (String c "") "" s) = false.
Proof.
  unfold Texto.replace.
  induction s as [|a s IH]; [reflexivity|].
  cbn [Texto.replace_go Texto.startswith String.length Nat.pred].
  destruct (Ascii.eqb c a) eqn:E.
  - destruct s; rewrite app_vacio; exact IH.
  - cbn [Texto.contains Texto.startswith]. rewrite E. exact IH.
Qed.

Lemma solo_positivo_Some (f g : Q) : solo_positivo f = Some g -> f = g /\ (0 < g)%Q.
Proof.
  unfold solo_positivo. destruct (Qlt_le_dec 0 f); [|discriminate].
  intros [= <-]. split; [reflexivity | assumption].
Qed.

Lemma limpiar_precio_positivo (v : string) (f : Q) :
  limpiar_precio v = Some f -> (0 < f)%Q.
Proof.
  unfold limpiar_precio. intros H.
  destruct (PyFloat.float _) as [g|]; [|discriminate].
  apply (solo_positivo_Some g f H).
Qed.

Lemma split_go_no_vacio (sep : ascii) (s cur : string) :
  (1 <= length (Texto.split_go sep cur s))%nat.
Proof.
  revert cur. induction s as [|a s IH]; intros cur; cbn [Texto.split_go].
  - cbn. lia.
  - destruct (Ascii.eqb a sep); [cbn; lia | apply IH].
Qed.

Lemma split_go_con_separador (sep : ascii) (s cur : string) :
  Texto.contains (String sep "") s = true ->
  (1 < length (Texto.split_go sep cur s))%nat.
Proof.
  revert cur. induction s as [|a s IH]; intros cur Hp; [discriminate|].
  cbn [Texto.split_go]. cbn [Texto.contains Texto.startswith] in Hp.
  rewrite Ascii.eqb_sym in Hp.
  destruct (Ascii.eqb a sep) eqn:E.
  - pose proof (split_go_no_vacio sep s "") as Hl. cbn [length]. lia.
  - apply IH. exact Hp.
Qed.

Lemma split_con_separador (sep : ascii) (s : string) :
  Texto.contains (String sep "") s = true ->
  (1 <? length (Texto.split sep s))%nat = true.
Proof.
  intros Hp. apply Nat.ltb_lt. apply split_go_con_separador. exact Hp.
Qed.

Lemma normalizar_solo_punto (val : string) :
  Texto.contains "," val = false -> Texto.contains "." val = true ->
  normalizar_separadores val =
    if (String.length (Texto.ultimo (Texto.split "." val)) =? 3)%nat
    then Texto.replace "." "" val else val.
Proof.
  intros Hc Hp. unfold normalizar_separadores. rewrite Hc, Hp. cbn [andb].
  rewrite (split_con_separador "." val Hp). reflexivity.
Qed.

Lemma app_cons (a : ascii) (s t : string) : String a s +:+ t = String a (s +:+ t).
Proof. reflexivity. Qed.

Lemma app_vacio_r (s : string) : s +:+ "" = s.
Proof. induction s as [|a s IH]; [reflexivity|]. rewrite app_cons, IH. reflexivity. Qed.

Lemma rev_app_app (s t u : string) :
  String.rev_app s t +:+ u = String.rev_app s (t +:+ u).
Proof.
  revert t. induction s as [|a s IH]; intros t; cbn [String.rev_app]; [reflexivity|].
  rewrite IH, app_cons. reflexivity.
Qed.

Lemma contains_caracter (sep a : ascii) (s : string) :
  Texto.contains (String sep "") (String a s) =
    Ascii.eqb a sep || Texto.contains (String sep "") s.
Proof.
  cbn [Texto.contains Texto.startswith]. rewrite (Ascii.eqb_sym sep a).
  destruct (Ascii.eqb a sep); reflexivity.
Qed.

(** The last piece of [split] is the text after the last separator. *)
Lemma split_go_ultimo (sep : ascii) (s cur : string) :
  let seg := Texto.ultimo (Texto.split_go sep cur s) in
  (Texto.contains (String sep "") s = false -> seg = String.rev cur +:+ s) /\
  (Texto.contains (String sep "") s = true ->
     Texto.contains (String sep "") seg = false /\
     exists pre : string, s = pre +:+ String sep seg).
Proof.
  revert cur. induction s as [|a s IH]; intros cur; cbn zeta.
  - cbn [Texto.split_go]. split; [|discriminate].
    intros _. unfold Texto.ultimo. cbn [List.last]. symmetry. apply app_vacio_r.
  - cbn [Texto.split_go]. rewrite contains_caracter.
    destruct (Ascii.eqb a sep) eqn:E; cbn [orb].
    + apply Ascii.eqb_eq in E. subst a. split; [discriminate|]. intros _.
      assert (Hu : Texto.ultimo (String.rev cur :: Texto.split_go sep "" s) =
                   Texto.ultimo (Texto.split_go sep "" s)).
      { pose proof (split_go_no_vacio sep s "") as Hl. unfold Texto.ultimo.
        destruct (Texto.split_go sep "" s); [cbn in Hl; lia | reflexivity]. }
      rewrite Hu. destruct (IH "") as [Hf Ht]. cbn zeta in Hf, Ht.
      destruct (Texto.contains (String sep "") s) eqn:Ec.
      * destruct (Ht eq_refl) as (Hn & pre & Hp).
        split; [exact Hn|]. exists (String sep pre). rewrite app_cons, <- Hp. reflexivity.
      * rewrite (Hf eq_refl). change (String.rev "" +:+ s) with s.
        split; [exact Ec|]. exists "". reflexivity.
    + destruct (IH (String a cur)) as [Hf Ht]. cbn zeta in Hf, Ht. split.
      * intros Hc. rewrite (Hf Hc). unfold String.rev. cbn [String.rev_app].
        rewrite !rev_app_app. reflexivity.
      * intros Hc. destruct (Ht Hc) as (Hn & pre & Hp).
        split; [exact Hn|]. exists (String a pre). rewrite app_cons, <- Hp. reflexivity.
Qed.

(** C2 (as the code has it).  For a token that, once blanks and currency
    markers are gone, holds a dot and no comma: the dots are thousand
    separators, all removed, exactly when the segment after the last dot is
    three characters long, whatever the characters and whatever stands
    before; otherwise the text is parsed as it is, the dot being the decimal
    point.  The three tokens of the scenario normalise to 108200, 1234.56
    and 100.50, and no token yields a value that is not strictly positive. *)
Theorem limpiar_precio_regla_del_punto :
  (forall v : string,
      Texto.contains "," (quitar_moneda v) = false ->
      Texto.contains "." (quitar_moneda v) = true ->
      let val := quitar_moneda v in
      let seg := Texto.ultimo (Texto.split "." val) in
      (exists pre : string, val = pre +:+ String "." seg) /\
      Texto.contains "." seg = false /\
      ((String.length seg = 3)%nat ->
         Texto.contains "." (Texto.replace "." "" val) = false /\
         limpiar_precio v = PyFloat.float (Texto.replace "." "" val) ≫= solo_positivo) /\
      ((String.length seg <> 3)%nat ->
         limpiar_precio v = PyFloat.float val ≫= solo_positivo)) /\
  limpiar_precio "108.200" = Some (108200 # 1) /\
  limpiar_precio "1.234,56" = Some (Qred (123456 # 100)) /\
  limpiar_precio "100.50" = Some (Qred (10050 # 100)) /\
  (forall (v : string) (f : Q), limpiar_precio v = Some f -> (0 < f)%Q).
Proof.
  split; [|repeat split; try (vm_compute; reflexivity); apply limpiar_precio_positivo].
  intros v Hc Hp val seg. unfold limpiar_precio.
  rewrite (normalizar_solo_punto _ Hc Hp). fold val. fold seg.
  destruct (split_go_ultimo "." val "") as [_ Hseg].
  destruct (Hseg Hp) as (Hn & Hpre).
  split; [exact Hpre|]. split; [exact Hn|]. split.
  - intros ->. split; [apply replace_quita_caracter | reflexivity].
  - intros Hne. apply Nat.eqb_neq in Hne. rewrite Hne. reflexivity.
Qed.

Lemma limpiar_precio_regla_del_punto_witness :
  limpiar_precio "108.200" = PyFloat.float "108200" ≫= solo_positivo /\
  limpiar_precio "100.50" = PyFloat.float "100.50" ≫= solo_positivo /\
  (0 < 108200 # 1)%Q.
Proof.
  destruct limpiar_precio_regla_del_punto as (Hregla & H1 & _ & _ & Hpos).
  split; [|split].
  - apply (Hregla "108.200" eq_refl eq_refl). reflexivity.
  - apply (Hregla "100.50" eq_refl eq_refl). vm_compute. discriminate.
  - apply (Hpos "108.200"). exact H1.
Defined.

(** C2 (as the specification words it) fails: ".200" has no digit group
    before its dot and "1.5e3" has no three digits after it, so the worded
    rule keeps the dot as the decimal point (0.2 and 1500); the code removes
    it (200 and 15000). *)
Lemma limpiar_precio_regla_del_punto_counterexample :
  spec_punto_es_miles ".200" = false /\
  spec_limpiar_precio_solo_punto ".200" = Some (1 # 5) /\
  limpiar_precio ".200" = Some (200 # 1) /\
  spec_punto_es_miles "1.5e3" = false /\
  spec_limpiar_precio_solo_punto "1.5e3" = Some (1500 # 1) /\
  limpiar_precio "1.5e3" = Some (15000 # 1) /\
  limpiar_precio ".200" <> spec_limpiar_precio_solo_punto ".200".
Proof. repeat split; vm_compute; (reflexivity || discriminate). Qed.

(** ** The final cleanup *)

Lemma lstrip_idem (s : string) : Texto.lstrip (Texto.lstrip s) = Texto.lstrip s.
Proof.
  induction s as [|c s IH]; [reflexivity|].
  cbn [Texto.lstrip]. destruct (Texto.isspace c) eqn:E; [exact IH|].
  cbn [Texto.lstrip]. rewrite E. reflexivity.
Qed.

Lemma rstrip_idem (s : string) : Texto.rstrip (Texto.rstrip s) = Texto.rstrip s.
Proof.
  induction s as [|c s IH]; [reflexivity|].
  cbn [Texto.rstrip]. destruct (Texto.rstrip s) as [|d r] eqn:E.
  - destruct (Texto.isspace c) eqn:Ec; [reflexivity|].
    cbn [Texto.rstrip]. rewrite Ec. reflexivity.
  - change (Texto.rstrip (String c (String d r)))
      with (match Texto.rstrip (String d r) with
            | EmptyString => if Texto.isspace c then EmptyString else String c EmptyString
            | String _ _ as r' => String c r'
            end).
    rewrite IH. reflexivity.
Qed.

(** A text that does not start with a blank keeps its start under
    [rstrip]. *)
Lemma lstrip_rstrip (s : string) :
  Texto.lstrip s = s -> Texto.lstrip (Texto.rstrip s) = Texto.rstrip s.
Proof.
  destruct s as [|c s]; [reflexivity|].
  cbn [Texto.lstrip]. destruct (Texto.isspace c) eqn:E.
  - intros H. exfalso.
    assert (Hl : forall t, (String.length (Texto.lstrip t) <= String.length t)%nat).
    { induction t as [|a t IHt]; cbn [Texto.lstrip]; [lia|].
      destruct (Texto.isspace a); cbn [String.length]; lia. }
    specialize (Hl s). rewrite H in Hl. cbn [String.length] in Hl. lia.
  - intros _. cbn [Texto.rstrip]. destruct (Texto.rstrip s); rewrite ?E;
      cbn [Texto.lstrip]; rewrite E; reflexivity.
Qed.

Lemma strip_idem (s : string) : Texto.strip (Texto.strip s) = Texto.strip s.
Proof.
  unfold Texto.strip.
  rewrite (lstrip_rstrip (Texto.lstrip s) (lstrip_idem s)).
  apply rstrip_idem.
Qed.

Lemma limpiar_fila_valida (i_cod i_prod i_precio : nat) (fila : list string) (r : Fila) :
  limpiar_fila i_cod i_prod i_precio fila = Some r ->
  limpiar_precio (celda i_precio fila) = Some (Precio_de_Costo r) /\
  Producto r = Texto.strip (celda i_prod fila) /\
  fila_valida r.
Proof.
  unfold limpiar_fila. intros H.
  destruct (limpiar_precio (celda i_precio fila)) as [precio|] eqn:Hp; [|discriminate].
  cbn [mbind option_bind] in H.
  destruct (1 <? String.length (Texto.strip (celda i_prod fila)))%nat eqn:Hl; [|discriminate].
  injection H as <-. cbn [Precio_de_Costo Producto].
  split; [reflexivity|]. split; [reflexivity|]. split; cbn [Precio_de_Costo Producto].
  - apply (limpiar_precio_positivo _ _ Hp).
  - rewrite strip_idem. apply Nat.ltb_lt. exact Hl.
Qed.

Lemma _limpieza_final_valida (df : DataFrame) (t : list Fila) :
  _limpieza_final df = Some t -> Forall fila_valida t.
Proof.
  unfold _limpieza_final. intros H.
  destruct (get_loc (ETxt "Precio de Costo") (columnas df)) as [ip|]; [|discriminate].
  destruct (get_loc (ETxt "Producto") (columnas df)) as [ipr|]; [|discriminate].
  destruct (get_loc (ETxt "Codigo") (columnas df)) as [ic|]; [|discriminate].
  cbn in H. injection H as <-.
  apply Forall_forall. intros r Hr.
  apply list_elem_of_omap in Hr as (fila & _ & Hf).
  apply (limpiar_fila_valida _ _ _ _ _ Hf).
Qed.

Lemma modo_manual_valida (df : DataFrame) (m : Mapeo) (t : list Fila) :
  modo_manual df m = Devuelve t -> Forall fila_valida t.
Proof.
  unfold modo_manual.
  set (df1 := if 0 <? default 0 (skip_rows m) then _ else df).
  destruct (_ || _); [intros [= <-]; constructor|].
  destruct (py_index _ _); [|discriminate].
  destruct (py_index _ _); [|discriminate].
  destruct (_limpieza_final _) as [t'|] eqn:Hl; [|discriminate].
  intros [= <-]. apply (_limpieza_final_valida _ _ Hl).
Qed.

Lemma modo_automatico_valida (df : DataFrame) (n : nat) (t : list Fila) :
  modo_automatico df n = Some t -> Forall fila_valida t.
Proof.
  unfold modo_automatico.
  destruct (puntuar_columnas df n) as [[|s scores]|]; cbn;
    [intros [= <-]; constructor | | discriminate].
  destruct (elegir_columnas _ _) as [[[cp cpr] cc]|]; [|intros [= <-]; constructor].
  destruct (_ || _); [intros [= <-]; constructor|].
  apply _limpieza_final_valida.
Qed.

Lemma limpiar_fila_None (i_cod i_prod i_precio : nat) (fila : list string) :
  limpiar_fila i_cod i_prod i_precio fila = None <->
  limpiar_precio (celda i_precio fila) = None \/
  (String.length (Texto.strip (celda i_prod fila)) <= 1)%nat.
Proof.
  unfold limpiar_fila.
  destruct (limpiar_precio (celda i_precio fila)) as [precio|]; cbn [mbind option_bind].
  - destruct (1 <? String.length (Texto.strip (celda i_prod fila)))%nat eqn:Hl.
    + apply Nat.ltb_lt in Hl. split; [discriminate|]. intros [H|H]; [discriminate | lia].
    + apply Nat.ltb_ge in Hl. split; [right; exact Hl | reflexivity].
  - split; [left|]; reflexivity.
Qed.

Lemma _procesar_dataframe_inteligente_valida
  (df : DataFrame) (mapeo_manual : option Mapeo) (t : list Fila) :
  _procesar_dataframe_inteligente df mapeo_manual = Some t -> Forall fila_valida t.
Proof.
  unfold _procesar_dataframe_inteligente.
  destruct (_ && _); [apply _limpieza_final_valida|].
  destruct (_ =? _)%nat; [intros [= <-]; constructor|].
  destruct mapeo_manual as [m|]; [|apply modo_automatico_valida].
  destruct (mapeo_presente m); [|apply modo_automatico_valida].
  destruct (modo_manual df m) as [t'|df'] eqn:Hm.
  - intros [= <-]. apply (modo_manual_valida _ _ _ Hm).
  - apply modo_automatico_valida.
Qed.

(** ** The manual mapping *)

Lemma columnas_tras_skip (df : DataFrame) (m : Mapeo) :
  columnas (tras_skip df m) = columnas df.
Proof. unfold tras_skip. destruct (0 <? _); reflexivity. Qed.

(** C5 (as the code has it).  On a grid that is not already labelled and
    has rows, with a mapping present: when the product or the price index
    exceeds the last column index the function returns the empty table,
    which rejects the file; the automatic inference is not run.  The
    automatic inference is run as a fallback when applying the mapping
    raises, as it does for an index below minus the number of columns. *)
Theorem mapeo_fuera_de_rango :
  forall (df : DataFrame) (m : Mapeo),
    tiene_columna (ETxt "Producto") df && tiene_columna (ETxt "Precio de Costo") df = false ->
    filas df <> [] ->
    mapeo_presente m = true ->
    let n := Z.of_nat (length (columnas df)) in
    let idx_prod := default (-1) (col_producto m) in
    let idx_precio := default (-1) (col_precio m) in
    ((n - 1 < idx_prod \/ n - 1 < idx_precio) ->
       _procesar_dataframe_inteligente df (Some m) = Some []) /\
    ((idx_prod <= n - 1 /\ idx_precio <= n - 1) ->
     (idx_prod < - n \/ idx_precio < - n) ->
       _procesar_dataframe_inteligente df (Some m) =
         modo_automatico (tras_skip df m) (length (filas df))).
Proof.
  intros df m Hcols Hfilas Hm n idx_prod idx_precio.
  unfold _procesar_dataframe_inteligente. rewrite Hcols, Hm.
  destruct (filas df) as [|f fs] eqn:Ef; [contradiction|].
  cbn [length Nat.eqb].
  unfold modo_manual. fold (tras_skip df m). rewrite columnas_tras_skip.
  fold n. fold idx_prod. fold idx_precio.
  split.
  - intros Hr.
    assert (Hb : (n - 1 <? idx_prod) || (n - 1 <? idx_precio) = true).
    { apply orb_true_iff. destruct Hr; [left | right]; apply Z.ltb_lt; assumption. }
    rewrite Hb. reflexivity.
  - intros [H1 H2] Hneg.
    assert (Hb : (n - 1 <? idx_prod) || (n - 1 <? idx_precio) = false).
    { apply orb_false_iff. split; apply Z.ltb_ge; assumption. }
    rewrite Hb.
    assert (Hi : forall i, i < - n -> py_index (columnas df) i = None).
    { intros i Hi. unfold py_index. fold n.
      destruct (0 <=? i) eqn:E0; [apply Z.leb_le in E0; lia|].
      destruct (- n <=? i) eqn:E1; [apply Z.leb_le in E1; lia | reflexivity]. }
    destruct Hneg as [Hn|Hn]; rewrite (Hi _ Hn).
    + reflexivity.
    + destruct (py_index (columnas df) idx_prod); reflexivity.
Qed.

Lemma mapeo_fuera_de_rango_witness :
  _procesar_dataframe_inteligente grilla_codigo_producto_precio (Some mapeo_columna_5) = Some [] /\
  _procesar_dataframe_inteligente grilla_codigo_producto_precio (Some mapeo_columna_menos_7) =
    modo_automatico grilla_codigo_producto_precio 3.
Proof.
  split.
  - apply (mapeo_fuera_de_rango grilla_codigo_producto_precio mapeo_columna_5);
      [reflexivity | discriminate | reflexivity | left; reflexivity].
  - apply (mapeo_fuera_de_rango grilla_codigo_producto_precio mapeo_columna_menos_7);
      [reflexivity | discriminate | reflexivity | split; discriminate | left; reflexivity].
Defined.

(** C5 (as the specification words it) fails: with the product index 5 on
    a three-column grid the function returns the empty table, although the
    automatic inference on the same grid finds its three rows. *)
Lemma mapeo_fuera_de_rango_counterexample :
  _procesar_dataframe_inteligente grilla_codigo_producto_precio (Some mapeo_columna_5) = Some [] /\
  fmap (M := option) (fmap (M := list) Producto)
    (_procesar_dataframe_inteligente grilla_codigo_producto_precio None) =
    Some ["Martillo de bola"; "Taladro percutor"; "Maza de goma"] /\
  _procesar_dataframe_inteligente grilla_codigo_producto_precio (Some mapeo_columna_5) <>
  modo_automatico grilla_codigo_producto_precio 3.
Proof. repeat split; vm_compute; (reflexivity || discriminate). Qed.

(** ** Pricing *)

Lemma Qgtb_true (a b : Q) : Qgtb a b = true <-> (b < a)%Q.
Proof.
  unfold Qgtb. rewrite negb_true_iff, <- not_true_iff_false, Qle_bool_iff.
  split; [apply Qnot_le_lt | apply Qlt_not_le].
Qed.

Lemma Qgtb_false (a b : Q) : Qgtb a b = false <-> (a <= b)%Q.
Proof. unfold Qgtb. rewrite negb_false_iff. apply Qle_bool_iff. Qed.

Lemma redondear_par_comp (x y : Q) : (x == y)%Q -> redondear_par x = redondear_par y.
Proof.
  intros E. unfold redondear_par.
  rewrite (Qfloor_comp x y E).
  assert (E' : (x - inject_Z (Qfloor y) == y - inject_Z (Qfloor y))%Q) by (rewrite E; reflexivity).
  rewrite (Qcompare_comp _ _ E' (1 # 2) (1 # 2) (Qeq_refl _)). reflexivity.
Qed.

(** The nearest integer is within one half. *)
Lemma redondear_par_cerca (x : Q) :
  (inject_Z (redondear_par x) - (1 # 2) <= x)%Q /\ (x <= inject_Z (redondear_par x) + (1 # 2))%Q.
Proof.
  unfold redondear_par.
  pose proof (Qfloor_le x) as Hlo. pose proof (Qlt_floor x) as Hhi.
  rewrite inject_Z_plus in Hhi. change (inject_Z 1) with 1%Q in Hhi.
  destruct (x - inject_Z (Qfloor x) ?= 1 # 2)%Q eqn:E.
  - apply Qeq_alt in E. destruct (Z.even (Qfloor x)).
    + split; lra.
    + rewrite inject_Z_plus. change (inject_Z 1) with 1%Q. split; lra.
  - apply Qlt_alt in E. split; lra.
  - apply Qgt_alt in E. rewrite inject_Z_plus. change (inject_Z 1) with 1%Q. split; lra.
Qed.

Lemma redondear_par_Z (k : Z) : redondear_par (inject_Z k) = k.
Proof.
  unfold redondear_par. rewrite Qfloor_Z.
  assert (E : (inject_Z k - inject_Z k ?= 1 # 2)%Q = Lt).
  { apply (proj1 (Qlt_alt _ _)). generalize (inject_Z k). intros q. lra. }
  rewrite E. reflexivity.
Qed.

Lemma redondear_par_desde (a : Z) (x : Q) :
  (inject_Z a <= x)%Q -> a <= redondear_par x.
Proof.
  intros H. destruct (redondear_par_cerca x) as [_ Hhi].
  assert (Hq : (inject_Z (a + -1) < inject_Z (redondear_par x))%Q).
  { rewrite inject_Z_plus. change (inject_Z (-1)) with (-1)%Q. lra. }
  rewrite <- Zlt_Qlt in Hq. lia.
Qed.

Lemma redondear_par_hasta (b : Z) (x : Q) :
  (x <= inject_Z b)%Q -> redondear_par x <= b.
Proof.
  intros H. destruct (redondear_par_cerca x) as [Hlo _].
  assert (Hq : (inject_Z (redondear_par x) < inject_Z (b + 1))%Q).
  { rewrite inject_Z_plus. change (inject_Z 1) with 1%Q. lra. }
  rewrite <- Zlt_Qlt in Hq. lia.
Qed.

(** *** Binary64 arithmetic *)

Section Binary64Facts.
Import Binary64.

Lemma dos_positivo (e : Z) : (0 < 2 ^ e)%Q.
Proof. apply Qpower_0_lt. reflexivity. Qed.

Lemma dos_suma (a b : Z) : (2 ^ (a + b) == 2 ^ a * 2 ^ b)%Q.
Proof. apply Qpower_plus. discriminate. Qed.

Lemma dos_Z (k : Z) : 0 <= k -> (inject_Z (2 ^ k) == 2 ^ k)%Q.
Proof. intros H. apply (Zpower_Qpower 2 k H). Qed.

Lemma dos_lt (a b : Z) : a < b -> (2 ^ a < 2 ^ b)%Q.
Proof. intros H. apply Qpower_lt_compat_l; [exact H|reflexivity]. Qed.

Lemma dos_le (a b : Z) : a <= b -> (2 ^ a <= 2 ^ b)%Q.
Proof. intros H. apply Qpower_le_compat_l; [exact H|discriminate]. Qed.

Lemma dos_lt_inv (a b : Z) : (2 ^ a < 2 ^ b)%Q -> a < b.
Proof. intros H. apply (Qpower_lt_compat_l_inv 2); [exact H|reflexivity]. Qed.

(** Bounds of a positive integer by the powers of two around it. *)
Lemma log2_cotas (n : Z) :
  0 < n -> (2 ^ Z.log2 n <= inject_Z n)%Q /\ (inject_Z n < 2 ^ (Z.log2 n + 1))%Q.
Proof.
  intros Hn. destruct (Z.log2_spec n Hn) as [Hlo Hhi].
  pose proof (Z.log2_nonneg n) as Hl.
  split.
  - rewrite <- dos_Z by exact Hl. rewrite <- Zle_Qle. exact Hlo.
  - rewrite <- dos_Z by lia. rewrite <- Zlt_Qlt. exact Hhi.
Qed.

Lemma piso_log2_spec (x : Q) :
  (0 < x)%Q -> (2 ^ piso_log2 x <= x)%Q /\ (x < 2 ^ (piso_log2 x + 1))%Q.
Proof.
  intros Hx. unfold piso_log2.
  destruct x as [n d]. cbn [Qnum Qden].
  assert (Hn : 0 < n). { unfold Qlt in Hx. cbn in Hx. lia. }
  destruct (log2_cotas n Hn) as [Hn1 Hn2].
  destruct (log2_cotas (Zpos d) (Pos2Z.is_pos d)) as [Hd1 Hd2].
  set (ln := Z.log2 n) in *. set (ld := Z.log2 (Zpos d)) in *.
  assert (Ex : (n # d == inject_Z n / inject_Z (Zpos d))%Q) by apply Qmake_Qdiv.
  assert (HD : (0 < inject_Z (Zpos d))%Q) by (rewrite <- (Zlt_Qlt 0); lia).
  pose proof (dos_positivo (ln - ld)) as Pa.
  pose proof (dos_positivo (ln - ld - 1)) as Pa1.
  pose proof (dos_positivo (ln - ld + 1)) as Pa2.
  pose proof (dos_positivo ld) as Pd.
  assert (Hhi : (n # d < 2 ^ (ln - ld + 1))%Q).
  { rewrite Ex. apply Qlt_shift_div_r; [exact HD|].
    assert (E : (2 ^ (ln + 1) == 2 ^ (ln - ld + 1) * 2 ^ ld)%Q).
    { rewrite <- dos_suma. replace (ln - ld + 1 + ld) with (ln + 1) by lia. reflexivity. }
    rewrite E in Hn2. nra. }
  assert (Hlo : (2 ^ (ln - ld - 1) <= n # d)%Q).
  { rewrite Ex. apply Qle_shift_div_l; [exact HD|].
    assert (E : (2 ^ ln == 2 ^ (ln - ld - 1) * 2 ^ (ld + 1))%Q).
    { rewrite <- dos_suma. replace (ln - ld - 1 + (ld + 1)) with ln by lia. reflexivity. }
    rewrite E in Hn1. nra. }
  destruct (Qle_bool (2 ^ (ln - ld)) (n # d)) eqn:E.
  - apply Qle_bool_iff in E. split; assumption.
  - replace (ln - ld - 1 + 1) with (ln - ld) by lia. split; [exact Hlo|].
    apply Qnot_le_lt. intros H. apply Qle_bool_iff in H. congruence.
Qed.

Lemma piso_log2_unico (x : Q) (a : Z) :
  (2 ^ a <= x)%Q -> (x < 2 ^ (a + 1))%Q -> piso_log2 x = a.
Proof.
  intros Hlo Hhi.
  assert (Hx : (0 < x)%Q) by (pose proof (dos_positivo a); lra).
  destruct (piso_log2_spec x Hx) as [Plo Phi].
  assert (H1 : piso_log2 x < a + 1) by (apply dos_lt_inv; lra).
  assert (H2 : a < piso_log2 x + 1) by (apply dos_lt_inv; lra).
  lia.
Qed.

Lemma exponente_cota (x : Q) : -1074 <= exponente x.
Proof. unfold exponente. lia. Qed.

(** The scaled magnitude lies below [2^53], and from [2^52] on unless the
    exponent is the least one. *)
Lemma escala_cotas (x : Q) :
  ~ (x == 0)%Q ->
  (Qabs x / 2 ^ exponente x < inject_Z (2 ^ 53))%Q /\
  (exponente x = -1074 \/ (inject_Z (2 ^ 52) <= Qabs x / 2 ^ exponente x)%Q).
Proof.
  intros Hx.
  assert (Hpos : (0 < Qabs x)%Q).
  { pose proof (Qabs_nonneg x) as H0. destruct (Qle_lt_or_eq _ _ H0) as [H|H]; [exact H|].
    exfalso. apply Hx. revert H. apply Qabs_case; intros H1 H2; lra. }
  destruct (piso_log2_spec (Qabs x) Hpos) as [Plo Phi].
  unfold exponente. set (p := piso_log2 (Qabs x)) in *.
  set (e := Z.max (p - 52) (-1074)).
  pose proof (dos_positivo e) as Pe.
  rewrite (dos_Z 53) by lia. rewrite (dos_Z 52) by lia.
  split.
  - apply Qlt_shift_div_r; [exact Pe|].
    rewrite <- dos_suma.
    assert (H : (2 ^ (p + 1) <= 2 ^ (53 + e))%Q) by (apply dos_le; lia).
    lra.
  - destruct (Z.eq_dec e (-1074)) as [E|E]; [left; exact E|right].
    assert (Ee : e = p - 52) by lia.
    apply Qle_shift_div_l; [exact Pe|].
    rewrite <- dos_suma. replace (52 + e) with p by lia. exact Plo.
Qed.

Lemma piso_log2_comp (x y : Q) :
  (0 < x)%Q -> (x == y)%Q -> piso_log2 x = piso_log2 y.
Proof.
  intros Hx E. destruct (piso_log2_spec x Hx) as [Plo Phi].
  symmetry. apply piso_log2_unico; rewrite <- E; assumption.
Qed.

Lemma Qabs_positivo (x : Q) : ~ (x == 0)%Q -> (0 < Qabs x)%Q.
Proof.
  intros Hx. pose proof (Qabs_nonneg x) as H0.
  destruct (Qle_lt_or_eq _ _ H0) as [H|H]; [exact H|].
  exfalso. apply Hx. revert H. apply Qabs_case; intros H1 H2; lra.
Qed.

Lemma exponente_comp (x y : Q) :
  ~ (x == 0)%Q -> (x == y)%Q -> exponente x = exponente y.
Proof.
  intros Hx E. unfold exponente.
  rewrite (piso_log2_comp (Qabs x) (Qabs y)); [reflexivity| |].
  - apply Qabs_positivo. exact Hx.
  - rewrite E. reflexivity.
Qed.

Lemma cercano_comp (x y : Q) : (x == y)%Q -> cercano x = cercano y.
Proof.
  intros E. unfold cercano.
  destruct (Qeq_bool x 0) eqn:Ex.
  - apply Qeq_bool_iff in Ex.
    assert (Ey : Qeq_bool y 0 = true) by (apply Qeq_bool_iff; rewrite <- E; exact Ex).
    rewrite Ey. reflexivity.
  - assert (Hx : ~ (x == 0)%Q) by (apply Qeq_bool_neq; exact Ex).
    assert (Ey : Qeq_bool y 0 = false).
    { destruct (Qeq_bool y 0) eqn:Ey; [|reflexivity].
      apply Qeq_bool_iff in Ey. exfalso. apply Hx. rewrite E. exact Ey. }
    rewrite Ey. rewrite <- (exponente_comp x y Hx E).
    generalize (exponente x). intros e.
    apply Qred_complete.
    rewrite (redondear_par_comp (x / 2 ^ e) (y / 2 ^ e)); [reflexivity|].
    rewrite E. reflexivity.
Qed.

(** What [cercano] returns for a number other than zero: an integer of at
    most 53 bits, and of exactly 53 unless the exponent is the least one,
    times the unit in the last place. *)
Lemma cercano_forma (x : Q) :
  ~ (x == 0)%Q ->
  exists m : Z,
    cercano x = Qred (inject_Z m * 2 ^ exponente x) /\
    Z.abs m <= 2 ^ 53 /\
    (exponente x = -1074 \/ 2 ^ 52 <= Z.abs m) /\
    ((0 <= x)%Q -> 0 <= m) /\ ((x <= 0)%Q -> m <= 0).
Proof.
  intros Hx. exists (redondear_par (x / 2 ^ exponente x)).
  destruct (escala_cotas x Hx) as [Hhi Hlo].
  pose proof (dos_positivo (exponente x)) as Pe.
  set (e := exponente x) in *. set (t := (x / 2 ^ e)%Q).
  assert (Hpos : (0 <= x)%Q -> (0 <= t)%Q).
  { intros H. unfold t. apply Qle_shift_div_l; [exact Pe|]. lra. }
  assert (Hneg : (x <= 0)%Q -> (t <= 0)%Q).
  { intros H. unfold t. apply Qle_shift_div_r; [exact Pe|]. lra. }
  assert (Habs : (Qabs x / 2 ^ e == Qabs t)%Q).
  { unfold t, Qdiv. rewrite Qabs_Qmult, Qabs_Qinv.
    rewrite (Qabs_pos (2 ^ e)) by lra. reflexivity. }
  rewrite Habs in Hhi. 
  assert (Hlo' : e = -1074 \/ (inject_Z (2 ^ 52) <= Qabs t)%Q).
  { destruct Hlo as [H|H]; [left; exact H|right]. rewrite <- Habs. exact H. }
  clear Hlo Habs.
  split.
  { unfold cercano. destruct (Qeq_bool x 0) eqn:Ex; [|reflexivity].
    apply Qeq_bool_iff in Ex. contradiction. }
  assert (S1 : (0 <= x)%Q -> 0 <= redondear_par t).
  { intros H. apply redondear_par_desde. exact (Hpos H). }
  assert (S2 : (x <= 0)%Q -> redondear_par t <= 0).
  { intros H. apply redondear_par_hasta. exact (Hneg H). }
  destruct (Qlt_le_dec x 0) as [Hs|Hs].
  - assert (Ht : (t <= 0)%Q) by (apply Hneg; lra).
    specialize (S2 ltac:(lra)).
    rewrite (Qabs_neg t Ht) in Hhi.
    assert (B1 : - 2 ^ 53 <= redondear_par t).
    { apply redondear_par_desde. rewrite inject_Z_opp. lra. }
    split; [lia|]. split; [|split; [intros; lra | intros; exact S2]].
    destruct Hlo' as [H|H]; [left; exact H|right].
    rewrite (Qabs_neg t Ht) in H.
    assert (B2 : redondear_par t <= - 2 ^ 52).
    { apply redondear_par_hasta. rewrite inject_Z_opp. lra. }
    lia.
  - assert (Ht : (0 <= t)%Q) by (apply Hpos; exact Hs).
    specialize (S1 Hs).
    rewrite (Qabs_pos t Ht) in Hhi.
    assert (B1 : redondear_par t <= 2 ^ 53).
    { apply redondear_par_hasta. lra. }
    split; [lia|]. split; [|split; [intros; exact S1 | intros H; apply S2; exact H]].
    destruct Hlo' as [H|H]; [left; exact H|right].
    rewrite (Qabs_pos t Ht) in H.
    assert (B2 : 2 ^ 52 <= redondear_par t).
    { apply redondear_par_desde. exact H. }
    lia.
Qed.

Lemma Qabs_inject_Z (m : Z) : (Qabs (inject_Z m) == inject_Z (Z.abs m))%Q.
Proof. reflexivity. Qed.

Lemma piso_log2_entero (m e : Z) :
  m <> 0 -> piso_log2 (Qabs (inject_Z m * 2 ^ e)) = Z.log2 (Z.abs m) + e.
Proof.
  intros Hm. pose proof (dos_positivo e) as Pe.
  assert (Ha : (Qabs (inject_Z m * 2 ^ e) == inject_Z (Z.abs m) * 2 ^ e)%Q).
  { rewrite Qabs_Qmult, (Qabs_pos (2 ^ e)) by lra. reflexivity. }
  destruct (log2_cotas (Z.abs m) ltac:(lia)) as [Hlo Hhi].
  apply piso_log2_unico; rewrite Ha.
  - rewrite dos_suma. nra.
  - replace (Z.log2 (Z.abs m) + e + 1) with (Z.log2 (Z.abs m) + 1 + e) by lia.
    rewrite dos_suma. nra.
Qed.

(** A number of that shape is its own nearest number. *)
Lemma cercano_fijo (m e : Z) :
  -1074 <= e -> Z.abs m <= 2 ^ 53 -> (e = -1074 \/ 2 ^ 52 <= Z.abs m) ->
  cercano (inject_Z m * 2 ^ e) = Qred (inject_Z m * 2 ^ e).
Proof.
  intros He Hm Hn. pose proof (dos_positivo e) as Pe.
  destruct (Z.eq_dec m 0) as [->|Hm0].
  { rewrite (cercano_comp (inject_Z 0 * 2 ^ e) 0) by ring.
    symmetry. apply (Qred_complete (inject_Z 0 * 2 ^ e) 0). ring. }
  set (y := (inject_Z m * 2 ^ e)%Q).
  assert (Hy : ~ (y == 0)%Q).
  { unfold y. intros H. apply Qmult_integral in H as [H|H]; [|lra].
    apply Hm0. apply (inject_Z_injective m 0). exact H. }
  assert (HL : Z.log2 (Z.abs m) <= 53).
  { change 53 with (Z.log2 (2 ^ 53)). apply Z.log2_le_mono. exact Hm. }
  assert (HL' : 2 ^ 52 <= Z.abs m -> 52 <= Z.log2 (Z.abs m)).
  { intros H. change 52 with (Z.log2 (2 ^ 52)). apply Z.log2_le_mono. exact H. }
  assert (Hexp : exponente y = Z.max (Z.log2 (Z.abs m) + e - 52) (-1074)).
  { unfold exponente, y. rewrite piso_log2_entero by exact Hm0. reflexivity. }
  assert (Hk : exists k : Z, (y / 2 ^ exponente y == inject_Z k)%Q /\
                             (inject_Z k * 2 ^ exponente y == y)%Q).
  { destruct (Z.eq_dec (Z.log2 (Z.abs m)) 53) as [E53|E53].
    - assert (Em : Z.abs m = 2 ^ 53).
      { destruct (Z.log2_spec (Z.abs m) ltac:(lia)) as [Hlo _]. rewrite E53 in Hlo. lia. }
      assert (Ee : exponente y = e + 1) by (rewrite Hexp; lia).
      rewrite Ee. pose proof (dos_positivo (e + 1)) as Pe1.
      assert (E2 : (2 ^ (e + 1) == 2 ^ e * 2)%Q) by (rewrite dos_suma; reflexivity).
      exists (m / 2).
      assert (Emk : m = 2 * (m / 2)).
      { destruct (Z.abs_eq_or_opp m) as [H|H]; rewrite H in Em.
        - rewrite Em. reflexivity.
        - assert (m = - 2 ^ 53) by lia. subst m. reflexivity. }
      assert (Eq : (inject_Z m == 2 * inject_Z (m / 2))%Q).
      { rewrite Emk at 1. rewrite inject_Z_mult. reflexivity. }
      unfold y. split.
      + rewrite Eq, E2. field. lra.
      + rewrite Eq, E2. ring.
    - assert (Ee : exponente y = e).
      { rewrite Hexp. destruct Hn as [H|H]; [lia|]. specialize (HL' H). lia. }
      rewrite Ee. exists m. unfold y. split; [field; lra | reflexivity]. }
  destruct Hk as (k & Hk1 & Hk2).
  unfold cercano. destruct (Qeq_bool y 0) eqn:Ey.
  { apply Qeq_bool_iff in Ey. contradiction. }
  apply Qred_complete.
  rewrite (redondear_par_comp _ _ Hk1), redondear_par_Z. exact Hk2.
Qed.

Lemma Qred_idem (x : Q) : Qred (Qred x) = Qred x.
Proof. apply Qred_complete, Qred_correct. Qed.

(** The nearest number of a binary64 number is itself. *)
Lemma cercano_idem (x : Q) : cercano (cercano x) = cercano x.
Proof.
  destruct (Qeq_dec x 0) as [E|Hx].
  { rewrite (cercano_comp x 0 E). reflexivity. }
  destruct (cercano_forma x Hx) as (m & -> & Hm & Hn & _).
  rewrite (cercano_comp _ _ (Qred_correct _)).
  apply cercano_fijo; [apply exponente_cota|exact Hm|exact Hn].
Qed.

Lemma cercano_signo (x : Q) :
  ((0 <= x)%Q -> (0 <= cercano x)%Q) /\ ((x <= 0)%Q -> (cercano x <= 0)%Q).
Proof.
  destruct (Qeq_dec x 0) as [E|Hx].
  { rewrite (cercano_comp x 0 E). split; intros _; discriminate. }
  destruct (cercano_forma x Hx) as (m & -> & _ & _ & Hp & Hn).
  pose proof (dos_positivo (exponente x)) as Pe.
  rewrite Qred_correct. split; intros H.
  - specialize (Hp H). rewrite (Zle_Qle 0 m) in Hp. change (inject_Z 0) with 0%Q in Hp. nra.
  - specialize (Hn H). rewrite (Zle_Qle m 0) in Hn. change (inject_Z 0) with 0%Q in Hn. nra.
Qed.

Lemma cercano_cero (x : Q) : (cercano x == 0)%Q -> cercano x = 0%Q.
Proof.
  intros E. rewrite <- cercano_idem. rewrite (cercano_comp _ 0 E). reflexivity.
Qed.

Lemma redondear_canonico (x : Q) : canonico (redondear x).
Proof.
  unfold redondear. destruct (Qle_bool (2 ^ 1024) (Qabs (cercano x))) eqn:E; [exact I|].
  split; [apply cercano_idem|].
  apply Qnot_le_lt. intros H. apply Qle_bool_iff in H. congruence.
Qed.

Lemma redondear_fijo (x : Q) : canonico (Finito x) -> redondear x = Finito x.
Proof.
  intros [Hc Hr]. unfold redondear. rewrite Hc.
  destruct (Qle_bool (2 ^ 1024) (Qabs x)) eqn:E; [|reflexivity].
  apply Qle_bool_iff in E. lra.
Qed.

Lemma redondear_comp (x y : Q) : (x == y)%Q -> redondear x = redondear y.
Proof. intros E. unfold redondear. rewrite (cercano_comp x y E). reflexivity. Qed.

Lemma producto_canonico (a b : t) : canonico (producto a b).
Proof.
  destruct a as [x|s|], b as [y|s'|]; cbn [producto]; try exact I.
  - apply redondear_canonico.
  - destruct (Qeq_bool x 0); exact I.
  - destruct (Qeq_bool y 0); exact I.
Qed.

(** Multiplying by one changes nothing. *)
Lemma producto_uno (a : t) : canonico a -> producto a uno = a.
Proof.
  destruct a as [x|s|]; intros Hc; cbn [producto uno].
  - rewrite (redondear_comp (x * 1) x) by ring. apply redondear_fijo. exact Hc.
  - destruct s; reflexivity.
  - reflexivity.
Qed.

(** A number that is zero or less is no positive float. *)
Lemma no_positivo (d : Q) : (d <= 0)%Q -> mayor_que_cero (redondear d) = false.
Proof.
  intros Hd. destruct (cercano_signo d) as [_ Hs]. specialize (Hs Hd).
  unfold redondear. destruct (Qle_bool (2 ^ 1024) (Qabs (cercano d))) eqn:E; cbn [mayor_que_cero].
  - unfold negativo. apply negb_false_iff, negb_true_iff.
    destruct (Qle_bool 0 (cercano d)) eqn:E0; [|reflexivity].
    apply Qle_bool_iff in E0. apply Qle_bool_iff in E.
    assert (Ez : (cercano d == 0)%Q) by lra.
    rewrite Ez in E. exfalso. revert E. apply Qlt_not_le. reflexivity.
  - apply negb_false_iff, Qle_bool_iff. exact Hs.
Qed.

(** A number that is zero or more, and no positive float, is the float
    zero. *)
Lemma no_negativo_no_positivo (d : Q) :
  (0 <= d)%Q -> mayor_que_cero (redondear d) = false -> redondear d = Finito 0.
Proof.
  intros Hd. destruct (cercano_signo d) as [Hs _]. specialize (Hs Hd).
  unfold redondear. destruct (Qle_bool (2 ^ 1024) (Qabs (cercano d))) eqn:E; cbn [mayor_que_cero].
  - unfold negativo. intros H. apply negb_false_iff, negb_true_iff in H.
    apply Qle_bool_iff in Hs. congruence.
  - intros H. apply negb_false_iff, Qle_bool_iff in H.
    f_equal. apply cercano_cero. lra.
Qed.

(** The factor of a zero discount is one. *)
Lemma factor_nulo : resta uno (entre_cien (Finito 0)) = uno.
Proof. vm_compute. reflexivity. Qed.

End Binary64Facts.


Lemma config_de_get (margen desc1 desc2 : Q) :
  config_get (config_de margen desc1 desc2) "margen" = margen /\
  config_get (config_de margen desc1 desc2) "desc1" = desc1 /\
  config_get (config_de margen desc1 desc2) "desc2" = desc2.
Proof. repeat split. Qed.

(** The price with the dict spelled out: a discount enters only as a
    positive float. *)
Lemma calcular_precio_final_config_de (c m d1 d2 : Q) :
  calcular_precio_final c (config_de m d1 d2) =
    let neto1 :=
      if Binary64.mayor_que_cero (Binary64.redondear d1)
      then Binary64.producto (Binary64.redondear c)
             (Binary64.resta Binary64.uno (Binary64.entre_cien (Binary64.redondear d1)))
      else Binary64.redondear c in
    let neto2 :=
      if Binary64.mayor_que_cero (Binary64.redondear d2)
      then Binary64.producto neto1
             (Binary64.resta Binary64.uno (Binary64.entre_cien (Binary64.redondear d2)))
      else neto1 in
    round2 (Binary64.producto neto2
              (Binary64.suma Binary64.uno (Binary64.entre_cien (Binary64.redondear m)))).
Proof.
  unfold calcular_precio_final.
  destruct (config_de_get m d1 d2) as (-> & -> & ->). reflexivity.
Qed.

Lemma cero_no_positivo : Binary64.mayor_que_cero (Binary64.redondear 0) = false.
Proof. vm_compute. reflexivity. Qed.

Lemma round2_centesimos (v : Q) :
  exists k : Z,
    round2 (Binary64.Finito v) = Binary64.redondear (k # 100) /\
    ((k # 100) - (1 # 200) <= v)%Q /\ (v <= (k # 100) + (1 # 200))%Q.
Proof.
  exists (redondear_par (v * 100)). split; [reflexivity|].
  destruct (redondear_par_cerca (v * 100)) as [Hlo Hhi].
  assert (Ek : (redondear_par (v * 100) # 100 == inject_Z (redondear_par (v * 100)) / 100)%Q).
  { rewrite Qmake_Qdiv. reflexivity. }
  rewrite Ek. clear Ek.
  generalize dependent (inject_Z (redondear_par (v * 100))). intros q Hlo Hhi.
  change (q / 100)%Q with (q * (1 # 100))%Q. split; lra.
Qed.

(** The price of the search-ranking scenario: cost 1000, markup 50. *)
Example calcular_precio_final_1500 :
  calcular_precio_final 1000 (config_de 50 0 0) = Binary64.Finito (1500 # 1).
Proof. vm_compute. reflexivity. Qed.

(** C10.  A supplier whose entry is a record gets, for each of the fields
    "margen", "desc1" and "desc2", the value of the record or 0 when the
    record lacks it; the default markup plays no part.  A supplier whose
    entry is a bare number gets it as markup, with zero discounts.  The
    default markup, with zero discounts, is the configuration of a supplier
    without entry; with an entry, the configuration does not depend on the
    default markup. *)
Theorem obtener_info_config_por_caso :
  forall (m : Motor) (proveedor : string),
    (forall raw : gmap string Q,
        margenes m !! proveedor = Some (Registro raw) ->
        obtener_info_config m proveedor =
          config_de (config_get raw "margen") (config_get raw "desc1") (config_get raw "desc2") /\
        (raw !! "margen" = None -> config_get (obtener_info_config m proveedor) "margen" = 0%Q) /\
        (raw !! "desc1" = None -> config_get (obtener_info_config m proveedor) "desc1" = 0%Q) /\
        (raw !! "desc2" = None -> config_get (obtener_info_config m proveedor) "desc2" = 0%Q)) /\
    (forall raw : Q,
        margenes m !! proveedor = Some (Escalar raw) ->
        obtener_info_config m proveedor = config_de raw 0 0) /\
    (margenes m !! proveedor = None ->
        obtener_info_config m proveedor = config_de (margen_default m) 0 0) /\
    (forall m' : Motor,
        margenes m' = margenes m -> is_Some (margenes m !! proveedor) ->
        obtener_info_config m' proveedor = obtener_info_config m proveedor).
Proof.
  intros m proveedor. unfold obtener_info_config. repeat split.
  - rewrite H. reflexivity.
  - intros Hn. rewrite H. destruct (config_de_get (config_get raw "margen")
      (config_get raw "desc1") (config_get raw "desc2")) as (E & _ & _).
    unfold config_de in E. rewrite E. unfold config_get. rewrite Hn. reflexivity.
  - intros Hn. rewrite H. destruct (config_de_get (config_get raw "margen")
      (config_get raw "desc1") (config_get raw "desc2")) as (_ & E & _).
    unfold config_de in E. rewrite E. unfold config_get. rewrite Hn. reflexivity.
  - intros Hn. rewrite H. destruct (config_de_get (config_get raw "margen")
      (config_get raw "desc1") (config_get raw "desc2")) as (_ & _ & E).
    unfold config_de in E. rewrite E. unfold config_get. rewrite Hn. reflexivity.
  - intros raw ->. reflexivity.
  - intros ->. reflexivity.
  - intros m' -> [e He]. rewrite He. destruct e; reflexivity.
Qed.

Lemma obtener_info_config_por_caso_witness :
  obtener_info_config motor_con_registro "ACME" = config_de 0 10 0 /\
  obtener_info_config motor_con_carpeta "OTRO" = config_de 20 0 0.
Proof.
  destruct (obtener_info_config_por_caso motor_con_registro "ACME") as (Hreg & _).
  destruct (obtener_info_config_por_caso motor_con_carpeta "OTRO") as (_ & _ & Hnone & _).
  split.
  - destruct (Hreg {[ "desc1" := 10%Q ]} eq_refl) as (H & _). exact H.
  - apply Hnone. reflexivity.
Defined.

(** ** The configuration store *)

Lemma _guardar_margenes_final (m : Motor) (fs : gmap string Contenido) :
  estado_final fs (_guardar_margenes m fs) =
    <[archivo_margenes m := Json (config_a_guardar m)]> fs.
Proof.
  unfold estado_final, _guardar_margenes. cbn [List.last].
  apply insert_insert_eq.
Qed.

(** C6 (as the code has it).  After [actualizar_margen] the configuration
    file holds the per-supplier map with the new entry, the default markup,
    the fuzzy threshold and the currency of the engine; reading it back
    gives these four values again, and saving what was read writes the
    same document.  No other path is touched.  The save opens the target
    itself for writing, which leaves it empty until the document is
    written into it: there is no temporary file and no replace step. *)
Theorem actualizar_margen_persistencia :
  forall (m m0 : Motor) (fs : gmap string Contenido) (proveedor : string)
         (margen desc1 desc2 : Q),
    archivo_margenes m0 = archivo_margenes m ->
    let m' := (actualizar_margen m fs proveedor margen desc1 desc2).1 in
    let pasos := (actualizar_margen m fs proveedor margen desc1 desc2).2 in
    let fs' := estado_final fs pasos in
    let leido := _cargar_margenes fs' m0 in
    is_Some (margenes m' !! proveedor) /\
    (forall p : string, p <> proveedor -> margenes m' !! p = margenes m !! p) /\
    fs' !! archivo_margenes m = Some (Json (config_a_guardar m')) /\
    margenes leido = margenes m' /\
    margen_default leido = margen_default m /\
    umbral_fuzzy leido = umbral_fuzzy m /\
    moneda leido = moneda m /\
    config_a_guardar leido = config_a_guardar m' /\
    (forall p : string, p <> archivo_margenes m -> fs' !! p = fs !! p) /\
    (exists fs1 fs2 : gmap string Contenido,
        pasos = [fs1; fs2] /\ fs1 !! archivo_margenes m = Some Vacio).
Proof.
  intros m m0 fs proveedor margen desc1 desc2 Ha m' pasos fs' leido.
  assert (Hfs : fs' = <[archivo_margenes m := Json (config_a_guardar m')]> fs).
  { unfold fs', pasos. cbn [actualizar_margen snd].
    rewrite _guardar_margenes_final. reflexivity. }
  assert (Hl : fs' !! archivo_margenes m = Some (Json (config_a_guardar m'))).
  { rewrite Hfs. apply lookup_insert_eq. }
  assert (Hleido : leido =
    {| archivo_margenes := archivo_margenes m0; proveedores := proveedores m0;
       margenes := margenes m'; margen_default := margen_default m;
       umbral_fuzzy := umbral_fuzzy m; moneda := moneda m; drive_folder_id := "" |}).
  { unfold leido, _cargar_margenes. rewrite Ha, Hl. reflexivity. }
  repeat split.
  - unfold m'. cbn [actualizar_margen fst con_margenes margenes].
    rewrite lookup_insert_eq. eauto.
  - intros p Hp. unfold m'. cbn [actualizar_margen fst con_margenes margenes].
    apply lookup_insert_ne. congruence.
  - exact Hl.
  - rewrite Hleido. reflexivity.
  - rewrite Hleido. reflexivity.
  - rewrite Hleido. reflexivity.
  - rewrite Hleido. reflexivity.
  - rewrite Hleido. reflexivity.
  - intros p Hp. rewrite Hfs. apply lookup_insert_ne. congruence.
  - eexists _, _. split; [reflexivity|]. apply lookup_insert_eq.
Qed.

Lemma actualizar_margen_persistencia_witness :
  let r := actualizar_margen motor_con_carpeta fs_con_carpeta "ACME" 30 10 0 in
  margenes (_cargar_margenes (estado_final fs_con_carpeta r.2) (motor_inicial "margenes.json"))
    = margenes r.1 /\
  margen_default (_cargar_margenes (estado_final fs_con_carpeta r.2) (motor_inicial "margenes.json"))
    = margen_default motor_con_carpeta.
Proof.
  intros r.
  destruct (actualizar_margen_persistencia motor_con_carpeta (motor_inicial "margenes.json")
              fs_con_carpeta "ACME" 30 10 0 eq_refl) as (_ & _ & _ & H1 & H2 & _).
  split; [exact H1 | exact H2].
Defined.

(** C6 (as the specification words it) fails: the file names a remote
    folder; after one [actualizar_margen] the written document has no
    folder key, so it differs from the document read before, and an engine
    that reads it has an empty folder identifier. *)
Lemma actualizar_margen_persistencia_counterexample :
  let r := actualizar_margen motor_con_carpeta fs_con_carpeta "ACME" 30 0 0 in
  let fs' := estado_final fs_con_carpeta r.2 in
  drive_folder_id motor_con_carpeta = "1AbC" /\
  fs' !! "margenes.json" = Some (Json (config_a_guardar r.1)) /\
  doc_drive_folder_id (config_a_guardar r.1) = None /\
  doc_drive_folder_id documento_con_carpeta = Some "1AbC" /\
  drive_folder_id (_cargar_margenes fs' (motor_inicial "margenes.json")) = "" /\
  drive_folder_id (_cargar_margenes fs' (motor_inicial "margenes.json"))
    <> drive_folder_id motor_con_carpeta.
Proof.
  cbv zeta. repeat split; vm_compute; (reflexivity || discriminate).
Qed.

(** ** Search: ranking and truncation *)

Lemma insertar_orden_Permutation {A} (ge : A -> A -> bool) (x : A) (l : list A) :
  insertar_orden ge x l ≡ₚ x :: l.
Proof.
  induction l as [|y l IH]; cbn [insertar_orden]; [reflexivity|].
  destruct (ge x y); [reflexivity|].
  rewrite IH. apply Permutation_swap.
Qed.

Lemma ordenar_estable_Permutation {A} (ge : A -> A -> bool) (l : list A) :
  ordenar_estable ge l ≡ₚ l.
Proof.
  induction l as [|x l IH]; cbn [ordenar_estable foldr]; [reflexivity|].
  fold (ordenar_estable ge l). rewrite insertar_orden_Permutation, IH. reflexivity.
Qed.

Lemma insertar_orden_ordenada {A} (clave : A -> Z) (x : A) (l : list A) :
  StronglySorted (fun a b => clave b <= clave a) l ->
  StronglySorted (fun a b => clave b <= clave a)
    (insertar_orden (fun a b => clave b <=? clave a) x l).
Proof.
  induction 1 as [|y l Hs IH Hy]; cbn [insertar_orden].
  - repeat constructor.
  - destruct (clave y <=? clave x) eqn:E.
    + apply Z.leb_le in E. constructor; [constructor; assumption|].
      constructor; [exact E|].
      apply Forall_forall. intros z Hz.
      rewrite Forall_forall in Hy. specialize (Hy z Hz). cbn beta in Hy. lia.
    + apply Z.leb_gt in E. constructor; [exact IH|].
      apply Forall_forall. intros z Hz.
      rewrite insertar_orden_Permutation in Hz. apply elem_of_cons in Hz as [->|Hz].
      * lia.
      * rewrite Forall_forall in Hy. apply (Hy z Hz).
Qed.

Lemma ordenar_estable_ordenada {A} (clave : A -> Z) (l : list A) :
  StronglySorted (fun a b => clave b <= clave a)
    (ordenar_estable (fun a b => clave b <=? clave a) l).
Proof.
  induction l as [|x l IH]; cbn [ordenar_estable foldr]; [constructor|].
  apply insertar_orden_ordenada. exact IH.
Qed.

Lemma take_ordenada {A} (R : A -> A -> Prop) (n : nat) (l : list A) :
  StronglySorted R l -> StronglySorted R (take n l).
Proof.
  intros Hs. revert n. induction Hs as [|y l Hs IH Hy]; intros [|n]; cbn [take];
    try constructor.
  - apply IH.
  - apply Forall_forall. intros z Hz. rewrite Forall_forall in Hy.
    apply Hy. apply (subseteq_take n l z Hz).
Qed.

Lemma py_hasta_positivo {A} (n : Z) (l : list A) :
  0 < n -> py_hasta n l = take (Z.to_nat n) l /\ Z.of_nat (length (py_hasta n l)) <= n.
Proof.
  intros Hn. unfold py_hasta.
  destruct (0 <=? n) eqn:E; [|apply Z.leb_gt in E; lia].
  split; [reflexivity|]. rewrite length_take. lia.
Qed.

Lemma py_hasta_subseteq {A} (n : Z) (l : list A) : py_hasta n l ⊆ l.
Proof. unfold py_hasta. destruct (0 <=? n); apply subseteq_take. Qed.

(** ** Search: the two phases *)

Section Fases.
Variable str_contains : string -> option (string -> bool).
Variable scorer : string -> string -> Z.
Variable m : Motor.
Variable consulta : string.
Variable limite : Z.
Variable proveedor_target : option string.

Local Abbreviation exacta := (fase_exacta str_contains m consulta limite proveedor_target).
Local Abbreviation fuzzy := (fase_fuzzy scorer m consulta proveedor_target).
Local Abbreviation agregar := (agregar_fuzzy m).

(** The first phase only appends, and what it appends has score 100. *)
Lemma fase_exacta_agrega (provs : list (string * list Fila)) (resultados : list Hit) :
  exists nuevos : list Hit,
    exacta provs resultados = resultados ++ nuevos /\
    Forall (fun h => score_busqueda h = 100) nuevos.
Proof.
  revert resultados. induction provs as [|[nom_prov df] resto IH]; intros resultados.
  - exists []. split; [symmetry; apply app_nil_r | constructor].
  - cbn [fase_exacta].
    destruct (otro_proveedor proveedor_target nom_prov); [apply IH|].
    destruct (bool_decide (df = [])); [apply IH|].
    destruct (df_exact str_contains consulta limite df) as [rows|]; [|apply IH].
    set (hits := (fun row => hit_de m nom_prov row 100) <$> rows).
    assert (Hh : Forall (fun h => score_busqueda h = 100) hits).
    { apply Forall_fmap. apply Forall_forall. intros; reflexivity. }
    destruct (limite * 2 <=? Z.of_nat (length (resultados ++ hits))).
    + exists hits. split; [reflexivity | exact Hh].
    + destruct (IH (resultados ++ hits)) as (nuevos & -> & Hn).
      exists (hits ++ nuevos). split; [symmetry; apply app_assoc|].
      apply Forall_app. split; assumption.
Qed.

Lemma agregar_fuzzy_agrega (nom_prov : string) (df : list Fila)
  (matches : list (string * Z)) (resultados : list Hit) :
  Forall (fun ms => ms.2 = scorer consulta ms.1) matches ->
  exists nuevos : list Hit,
    agregar nom_prov df matches resultados = resultados ++ nuevos /\
    Forall (hit_fuzzy scorer m consulta) nuevos.
Proof.
  intros Hm. revert resultados.
  induction Hm as [|[m_str score] resto Hs Hm IH]; intros resultados.
  - exists []. split; [symmetry; apply app_nil_r | constructor].
  - cbn [agregar_fuzzy]. cbn [fst snd] in Hs.
    destruct (score <? umbral_fuzzy m) eqn:Eu; [apply IH|].
    destruct (existsb _ resultados); [apply IH|].
    destruct (List.find _ df) as [row|] eqn:Ef; [|apply IH].
    destruct (IH (resultados ++ [hit_de m nom_prov row score])) as (nuevos & -> & Hn).
    exists (hit_de m nom_prov row score :: nuevos).
    split; [rewrite <- app_assoc; reflexivity|].
    constructor; [|exact Hn].
    apply find_some in Ef as [_ Ef]. apply String.eqb_eq in Ef.
    apply Z.ltb_ge in Eu.
    split; cbn [score_busqueda producto hit_de]; [exact Eu | congruence].
Qed.

Lemma process_extract_scores (pool : list string) :
  Forall (fun ms => ms.2 = scorer consulta ms.1) (process_extract scorer consulta pool).
Proof.
  unfold process_extract. apply Forall_take.
  rewrite ordenar_estable_Permutation.
  apply Forall_fmap. apply Forall_forall. intros; reflexivity.
Qed.

Lemma fase_fuzzy_agrega (provs : list (string * list Fila)) (resultados : list Hit) :
  exists nuevos : list Hit,
    fuzzy provs resultados = resultados ++ nuevos /\
    Forall (hit_fuzzy scorer m consulta) nuevos.
Proof.
  revert resultados. induction provs as [|[nom_prov df] resto IH]; intros resultados.
  - exists []. split; [symmetry; apply app_nil_r | constructor].
  - cbn [fase_fuzzy].
    destruct (otro_proveedor proveedor_target nom_prov); [apply IH|].
    destruct (bool_decide (df = [])); [apply IH|].
    destruct (agregar_fuzzy_agrega nom_prov df
                (process_extract scorer consulta (Producto <$> df)) resultados
                (process_extract_scores _)) as (n1 & -> & H1).
    destruct (IH (resultados ++ n1)) as (n2 & -> & H2).
    exists (n1 ++ n2). split; [symmetry; apply app_assoc|].
    apply Forall_app. split; assumption.
Qed.

(** Once a processed supplier brings the count to twice the limit, the
    first phase stops: the suppliers after it play no part. *)
Lemma fase_exacta_corte (pre post : list (string * list Fila)) (resultados : list Hit) :
  Z.of_nat (length resultados) < limite * 2 ->
  limite * 2 <= Z.of_nat (length (exacta pre resultados)) ->
  exacta (pre ++ post) resultados = exacta pre resultados.
Proof.
  revert resultados. induction pre as [|[nom_prov df] pre IH]; intros resultados Hlt Hge.
  - cbn [fase_exacta] in Hge. lia.
  - cbn [fase_exacta app] in *.
    destruct (otro_proveedor proveedor_target nom_prov); [apply IH; assumption|].
    destruct (bool_decide (df = [])); [apply IH; assumption|].
    destruct (df_exact str_contains consulta limite df) as [rows|]; [|apply IH; assumption].
    destruct (limite * 2 <=? Z.of_nat (length (resultados ++ _))) eqn:E; [reflexivity|].
    apply Z.leb_gt in E. apply IH; assumption.
Qed.
End Fases.

(** ** Pricing: the formula and the hits

    Every hit is built by [hit_de]: a property of all such dicts holds of
    all the hits of a search. *)
Lemma buscar_producto_hit_de
  (str_contains : string -> option (string -> bool)) (scorer : string -> string -> Z)
  (m : Motor) (consulta : string) (limite : Z) (proveedor_target : option string)
  (P : Hit -> Prop) :
  (forall (nom_prov : string) (row : Fila) (score : Z), P (hit_de m nom_prov row score)) ->
  Forall P (buscar_producto str_contains scorer m consulta limite proveedor_target).
Proof.
  intros HP. apply Forall_forall. intros h Hh.
  unfold buscar_producto, buscar_ya_normalizada in Hh.
  apply py_hasta_subseteq in Hh. rewrite ordenar_estable_Permutation in Hh.
  revert h Hh. apply Forall_forall.
  set (q := Texto.strip (Texto.lower consulta)).
  assert (He : forall provs res, Forall P res ->
            Forall P (fase_exacta str_contains m q limite proveedor_target provs res)).
  { induction provs as [|[nom_prov df] resto IH]; intros res Hres; [exact Hres|].
    cbn [fase_exacta].
    destruct (otro_proveedor _ _); [apply IH; exact Hres|].
    destruct (bool_decide _); [apply IH; exact Hres|].
    destruct (df_exact _ _ _ _) as [rows|]; [|apply IH; exact Hres].
    assert (Hn : Forall P (res ++ ((fun row => hit_de m nom_prov row 100) <$> rows))).
    { apply Forall_app. split; [exact Hres|].
      apply Forall_fmap, Forall_forall. intros row _. apply HP. }
    destruct (_ <=? _); [exact Hn | apply IH; exact Hn]. }
  assert (Ha : forall nom_prov df matches res, Forall P res ->
            Forall P (agregar_fuzzy m nom_prov df matches res)).
  { induction matches as [|[m_str score] resto IH]; intros res Hres; [exact Hres|].
    cbn [agregar_fuzzy].
    destruct (_ <? _); [apply IH; exact Hres|].
    destruct (existsb _ _); [apply IH; exact Hres|].
    destruct (List.find _ _) as [row|]; [|apply IH; exact Hres].
    apply IH. apply Forall_app. split; [exact Hres|]. constructor; [apply HP | constructor]. }
  assert (Hf : forall provs res, Forall P res ->
            Forall P (fase_fuzzy scorer m q proveedor_target provs res)).
  { induction provs as [|[nom_prov df] resto IH]; intros res Hres; [exact Hres|].
    cbn [fase_fuzzy].
    destruct (otro_proveedor _ _); [apply IH; exact Hres|].
    destruct (bool_decide _); [apply IH; exact Hres|].
    apply IH, Ha. exact Hres. }
  unfold resultados_sin_ordenar. fold q.
  destruct (_ && _); [apply Hf|]; apply He; constructor.
Qed.

(** ** Search: the returned list *)

(** C8.  For a positive limit the search returns at most [limite] hits, in
    descending order of score: the returned list is the first [limite]
    entries of a descending rearrangement of all the hits of the two
    phases. *)
Theorem buscar_producto_acotada_y_ordenada :
  forall (str_contains : string -> option (string -> bool))
         (scorer : string -> string -> Z)
         (m : Motor) (consulta : string) (limite : Z) (proveedor_target : option string),
    0 < limite ->
    let res := buscar_producto str_contains scorer m consulta limite proveedor_target in
    Z.of_nat (length res) <= limite /\
    StronglySorted (fun a b => score_busqueda b <= score_busqueda a) res /\
    exists ordenados : list Hit,
      ordenados ≡ₚ resultados_sin_ordenar str_contains scorer m
                     (Texto.strip (Texto.lower consulta)) limite proveedor_target /\
      StronglySorted (fun a b => score_busqueda b <= score_busqueda a) ordenados /\
      res = take (Z.to_nat limite) ordenados.
Proof.
  intros str_contains scorer m consulta limite proveedor_target Hl res.
  unfold res, buscar_producto, buscar_ya_normalizada.
  set (todos := resultados_sin_ordenar _ _ _ _ _ _).
  destruct (py_hasta_positivo limite (ordenar_estable por_score todos) Hl) as [E Hlen].
  pose proof (ordenar_estable_ordenada score_busqueda todos) as Hs.
  split; [exact Hlen|]. split.
  - rewrite E. apply take_ordenada. exact Hs.
  - exists (ordenar_estable por_score todos).
    split; [apply ordenar_estable_Permutation|]. split; [exact Hs | exact E].
Qed.

Lemma buscar_producto_acotada_y_ordenada_witness :
  Z.of_nat (length (buscar_producto contiene_literal Fuzz.partial_token_sort_ratio
                      motor_dos_proveedores "martillo" 1 None)) <= 1 /\
  StronglySorted (fun a b => score_busqueda b <= score_busqueda a)
    (buscar_producto contiene_literal Fuzz.partial_token_sort_ratio
       motor_dos_proveedores "martillo" 20 None) /\
  producto <$> buscar_producto contiene_literal Fuzz.partial_token_sort_ratio
                 motor_dos_proveedores "martillo" 20 None =
    ["Martillo de bola"; "Martilo de carpintero"].
Proof.
  split; [|split].
  - apply (buscar_producto_acotada_y_ordenada contiene_literal Fuzz.partial_token_sort_ratio
             motor_dos_proveedores "martillo" 1 None). reflexivity.
  - apply (buscar_producto_acotada_y_ordenada contiene_literal Fuzz.partial_token_sort_ratio
             motor_dos_proveedores "martillo" 20 None). reflexivity.
  - vm_compute. reflexivity.
Defined.

(** C7 (as the code has it).  The hits before ranking are the hits of the
    substring phase followed by those of the fuzzy phase.  Every hit of the
    substring phase has score 100.  Every hit of the fuzzy phase has the
    score that the scorer gives to the query and its product, and that
    score is at least the configured threshold; nothing keeps it below
    100.  Every returned hit is one of these. *)
Theorem buscar_producto_scores :
  forall (str_contains : string -> option (string -> bool))
         (scorer : string -> string -> Z)
         (m : Motor) (consulta : string) (limite : Z) (proveedor_target : option string),
    let q := Texto.strip (Texto.lower consulta) in
    let exactos := fase_exacta str_contains m q limite proveedor_target (proveedores m) [] in
    let todos := resultados_sin_ordenar str_contains scorer m q limite proveedor_target in
    let difusos := drop (length exactos) todos in
    todos = exactos ++ difusos /\
    Forall (fun h => score_busqueda h = 100) exactos /\
    Forall (hit_fuzzy scorer m q) difusos /\
    (forall h : Hit,
        h ∈ buscar_producto str_contains scorer m consulta limite proveedor_target ->
        h ∈ exactos \/ h ∈ difusos).
Proof.
  intros str_contains scorer m consulta limite proveedor_target q exactos todos difusos.
  assert (Hd : todos = exactos ++ difusos /\ Forall (hit_fuzzy scorer m q) difusos).
  { unfold difusos, todos, resultados_sin_ordenar. fold exactos.
    destruct (_ && _).
    - destruct (fase_fuzzy_agrega scorer m q proveedor_target (proveedores m) exactos)
        as (nuevos & -> & Hn).
      rewrite drop_app_length. split; [reflexivity | exact Hn].
    - rewrite drop_all, app_nil_r. split; [reflexivity | constructor]. }
  destruct Hd as [Ht Hf].
  split; [exact Ht|]. split; [|split; [exact Hf|]].
  - destruct (fase_exacta_agrega str_contains m q limite proveedor_target (proveedores m) [])
      as (nuevos & E & Hn).
    unfold exactos. rewrite E. exact Hn.
  - intros h Hh. unfold buscar_producto, buscar_ya_normalizada in Hh.
    apply py_hasta_subseteq in Hh. rewrite ordenar_estable_Permutation in Hh.
    fold q in Hh. fold todos in Hh. rewrite Ht in Hh.
    apply elem_of_app in Hh. exact Hh.
Qed.

(** C7 (as the specification words it) fails: the product "martillo bola"
    does not contain the query "bola martillo", so the substring phase
    finds nothing; the fuzzy phase sorts the words of both and scores the
    pair 100, and the hit is returned with score 100, not below it. *)
Lemma buscar_producto_scores_counterexample :
  fase_exacta contiene_literal motor_martillo_bola "bola martillo" 20 None
    (proveedores motor_martillo_bola) [] = [] /\
  (fun h => (producto h, score_busqueda h)) <$>
    buscar_producto contiene_literal Fuzz.partial_token_sort_ratio
      motor_martillo_bola "bola martillo" 20 None = [("martillo bola", 100)] /\
  ~ (forall h : Hit,
       h ∈ buscar_producto contiene_literal Fuzz.partial_token_sort_ratio
             motor_martillo_bola "bola martillo" 20 None ->
       score_busqueda h < 100).
Proof.
  assert (H : (fun h => (producto h, score_busqueda h)) <$>
    buscar_producto contiene_literal Fuzz.partial_token_sort_ratio
      motor_martillo_bola "bola martillo" 20 None = [("martillo bola", 100)])
    by (vm_compute; reflexivity).
  split; [vm_compute; reflexivity|]. split; [exact H|].
  intros Hall.
  destruct (buscar_producto _ _ _ _ _ _) as [|h l] eqn:E; [discriminate|].
  rewrite fmap_cons in H. injection H as _ Hs _.
  specialize (Hall h (list_elem_of_here h l)). lia.
Qed.

Lemma fase_exacta_con_proveedores
  (str_contains : string -> option (string -> bool)) (m : Motor)
  (consulta : string) (limite : Z) (proveedor_target : option string)
  (otros provs : list (string * list Fila)) (resultados : list Hit) :
  fase_exacta str_contains (con_proveedores m otros) consulta limite proveedor_target
    provs resultados =
  fase_exacta str_contains m consulta limite proveedor_target provs resultados.
Proof.
  revert resultados. induction provs as [|[nom_prov df] resto IH]; intros resultados;
    [reflexivity|].
  cbn [fase_exacta]. rewrite !IH.
  destruct (otro_proveedor _ _); [reflexivity|].
  destruct (bool_decide _); [reflexivity|].
  destruct (df_exact _ _ _ _) as [rows|]; [|reflexivity].
  change (hit_de (con_proveedores m otros)) with (hit_de m).
  rewrite IH. reflexivity.
Qed.

(** C9.  In the substring phase, whatever the query and the limit: when
    the hits of a supplier bring the list to twice the limit or more, the
    loop exits and the suppliers after it are not examined.  Hence, for a
    positive limit, once the hits gathered from the suppliers [pre] number
    at least twice the limit, the phase gives the same list whatever
    suppliers [post] follow in the catalog, though their tables may hold
    rows that contain the query.  When that list has five hits or more the
    fuzzy phase is not entered either, and the whole search returns the
    same for the catalog [pre ++ post] as for [pre]. *)
Theorem fase_exacta_salida_temprana :
  forall (str_contains : string -> option (string -> bool))
         (scorer : string -> string -> Z)
         (m : Motor) (consulta : string) (limite : Z) (proveedor_target : option string),
    let q := Texto.strip (Texto.lower consulta) in
    (forall (nom_prov : string) (df rows : list Fila)
            (resto : list (string * list Fila)) (resultados : list Hit),
        otro_proveedor proveedor_target nom_prov = false ->
        df <> [] ->
        df_exact str_contains q limite df = Some rows ->
        let nuevos := resultados ++ ((fun row => hit_de m nom_prov row 100) <$> rows) in
        limite * 2 <= Z.of_nat (length nuevos) ->
        fase_exacta str_contains m q limite proveedor_target
          ((nom_prov, df) :: resto) resultados = nuevos) /\
    (forall pre post : list (string * list Fila),
        0 < limite ->
        let exactos := fase_exacta str_contains m q limite proveedor_target pre [] in
        limite * 2 <= Z.of_nat (length exactos) ->
        fase_exacta str_contains m q limite proveedor_target (pre ++ post) [] = exactos /\
        ((5 <= length exactos)%nat ->
           buscar_producto str_contains scorer (con_proveedores m (pre ++ post))
             consulta limite proveedor_target =
           buscar_producto str_contains scorer (con_proveedores m pre)
             consulta limite proveedor_target)).
Proof.
  intros str_contains scorer m consulta limite proveedor_target q. split.
  - intros nom_prov df rows resto resultados Ho Hd He nuevos Hge.
    cbn [fase_exacta]. rewrite Ho, He.
    rewrite bool_decide_eq_false_2 by exact Hd.
    fold nuevos. apply Z.leb_le in Hge. rewrite Hge. reflexivity.
  - intros pre post Hl exactos Hge.
    assert (Hc : fase_exacta str_contains m q limite proveedor_target (pre ++ post) []
                 = exactos).
    { apply fase_exacta_corte; [cbn [length]; lia | exact Hge]. }
    split; [exact Hc|].
    intros H5. unfold buscar_producto, buscar_ya_normalizada, resultados_sin_ordenar.
    fold q. cbn [proveedores con_proveedores].
    rewrite !fase_exacta_con_proveedores, Hc. fold exactos.
    assert (E : (length exactos <? 5)%nat = false) by (apply Nat.ltb_ge; exact H5).
    rewrite E. reflexivity.
Qed.

Lemma fase_exacta_salida_temprana_witness :
  df_exact contiene_literal "martillo" 3 [fila "9" "martillo de oro" 9000] =
    Some [fila "9" "martillo de oro" 9000] /\
  proveedor <$> fase_exacta contiene_literal (motor_de []) "martillo" 3 None
                  (proveedores_a_b ++ proveedores_c) [] = ["A"; "A"; "A"; "B"; "B"; "B"] /\
  buscar_producto contiene_literal Fuzz.partial_token_sort_ratio
    (con_proveedores (motor_de []) (proveedores_a_b ++ proveedores_c)) "Martillo " 3 None =
  buscar_producto contiene_literal Fuzz.partial_token_sort_ratio
    (con_proveedores (motor_de []) proveedores_a_b) "Martillo " 3 None /\
  fase_exacta contiene_literal (motor_de []) "martillo" 0 None
    (proveedores_a_b ++ proveedores_c) [] = [].
Proof.
  destruct (fase_exacta_salida_temprana contiene_literal Fuzz.partial_token_sort_ratio
              (motor_de []) "Martillo " 3 None) as [_ Hpre].
  destruct (Hpre proveedores_a_b proveedores_c) as [H1 H2];
    [reflexivity | vm_compute; discriminate |].
  destruct (fase_exacta_salida_temprana contiene_literal Fuzz.partial_token_sort_ratio
              (motor_de []) "martillo" 0 None) as [Hpaso _].
  split; [vm_compute; reflexivity|]. split; [|split].
  - change "martillo" with (Texto.strip (Texto.lower "Martillo ")).
    rewrite H1. vm_compute. reflexivity.
  - apply H2. vm_compute. lia.
  - apply (Hpaso "A" (tabla_martillos "A") [] _ []);
      [reflexivity | discriminate | reflexivity | vm_compute; discriminate].
Defined.

(** ** Search: the empty query *)

(** C4 fails on [MotorPrecios.buscar_producto]: the empty pattern is found
    in every cell, so an empty query (or one of blanks only) returns the
    first [limite] rows of each supplier with score 100.  The mobile
    engine's [buscar_producto] has the guard: there an empty query returns
    the empty list. *)
Theorem buscar_producto_consulta_vacia :
  (forall scorer : string -> string -> Z,
      (fun h => (proveedor h, producto h, score_busqueda h)) <$>
        buscar_producto contiene_literal scorer motor_dos_proveedores "" 20 None =
      [ ("A", "Martillo de bola", 100); ("A", "Pinza universal", 100);
        ("B", "Martilo de carpintero", 100) ]) /\
  (forall scorer : string -> string -> Z,
      length (buscar_producto contiene_literal scorer motor_dos_proveedores "   " 20 None)
      = 3%nat) /\
  (forall (m : MotorMobileLite.Motor) (consulta : string) (limite : Z),
      Texto.strip (Texto.lower consulta) = "" ->
      MotorMobileLite.buscar_producto m consulta limite = []).
Proof.
  split; [|split].
  - intros scorer. vm_compute. reflexivity.
  - intros scorer. vm_compute. reflexivity.
  - intros m consulta limite H. unfold MotorMobileLite.buscar_producto.
    rewrite H. reflexivity.
Qed.

Lemma buscar_producto_consulta_vacia_witness :
  MotorMobileLite.buscar_producto motor_lite "  " 50 = [] /\
  length (MotorMobileLite.buscar_producto motor_lite "martillo" 50) = 1%nat.
Proof.
  destruct buscar_producto_consulta_vacia as (_ & _ & H).
  split; [apply (H motor_lite "  " 50); reflexivity | vm_compute; reflexivity].
Defined.

(** * Further properties *)

(** ** Search: where the hits come from *)

Lemma py_hasta_filter_subseteq {A} (P : A -> Prop) `{!forall x, Decision (P x)}
  (n : Z) (l : list A) : py_hasta n (filter P l) ⊆ l.
Proof.
  intros x Hx. apply py_hasta_subseteq in Hx.
  apply list_elem_of_filter in Hx as [_ Hx]. exact Hx.
Qed.

Lemma df_exact_subseteq (str_contains : string -> option (string -> bool))
  (consulta : string) (limite : Z) (df rows : list Fila) :
  df_exact str_contains consulta limite df = Some rows -> rows ⊆ df.
Proof.
  unfold df_exact. destruct (str_contains consulta) as [busca|]; [|discriminate].
  cbn [mbind option_bind]. intros [= <-]. apply py_hasta_filter_subseteq.
Qed.

(** A property of every hit built for a row of a table of the catalog
    whose supplier passes the filter holds of every hit of a search. *)
Lemma buscar_producto_procedencia
  (str_contains : string -> option (string -> bool)) (scorer : string -> string -> Z)
  (m : Motor) (consulta : string) (limite : Z) (proveedor_target : option string)
  (P : Hit -> Prop) :
  (forall (nom_prov : string) (df : list Fila) (row : Fila) (score : Z),
      (nom_prov, df) ∈ proveedores m ->
      otro_proveedor proveedor_target nom_prov = false ->
      row ∈ df ->
      P (hit_de m nom_prov row score)) ->
  Forall P (buscar_producto str_contains scorer m consulta limite proveedor_target).
Proof.
  intros HP. apply Forall_forall. intros h Hh.
  unfold buscar_producto, buscar_ya_normalizada in Hh.
  apply py_hasta_subseteq in Hh. rewrite ordenar_estable_Permutation in Hh.
  revert h Hh. apply Forall_forall.
  set (q := Texto.strip (Texto.lower consulta)).
  assert (He : forall provs res, provs ⊆ proveedores m -> Forall P res ->
            Forall P (fase_exacta str_contains m q limite proveedor_target provs res)).
  { induction provs as [|[nom_prov df] resto IH]; intros res Hsub Hres; [exact Hres|].
    assert (Hin : (nom_prov, df) ∈ proveedores m) by (apply Hsub; left).
    assert (Hsub' : resto ⊆ proveedores m) by (intros x Hx; apply Hsub; right; exact Hx).
    cbn [fase_exacta].
    destruct (otro_proveedor _ _) eqn:Ho; [apply IH; assumption|].
    destruct (bool_decide _); [apply IH; assumption|].
    destruct (df_exact _ _ _ _) as [rows|] eqn:Ed; [|apply IH; assumption].
    assert (Hn : Forall P (res ++ ((fun row => hit_de m nom_prov row 100) <$> rows))).
    { apply Forall_app. split; [exact Hres|].
      apply Forall_fmap, Forall_forall. intros row Hrow.
      apply (HP nom_prov df row 100 Hin Ho).
      apply (df_exact_subseteq _ _ _ _ _ Ed). exact Hrow. }
    destruct (_ <=? _); [exact Hn | apply IH; assumption]. }
  assert (Ha : forall nom_prov df matches res,
            (nom_prov, df) ∈ proveedores m ->
            otro_proveedor proveedor_target nom_prov = false ->
            Forall P res -> Forall P (agregar_fuzzy m nom_prov df matches res)).
  { induction matches as [|[m_str score] resto IH]; intros res Hin Ho Hres; [exact Hres|].
    cbn [agregar_fuzzy].
    destruct (_ <? _); [apply IH; assumption|].
    destruct (existsb _ _); [apply IH; assumption|].
    destruct (List.find _ _) as [row|] eqn:Ef; [|apply IH; assumption].
    apply IH; [assumption..|]. apply Forall_app. split; [exact Hres|].
    constructor; [|constructor].
    apply (HP nom_prov df row score Hin Ho).
    apply find_some in Ef as [Ef _]. apply list_elem_of_In. exact Ef. }
  assert (Hf : forall provs res, provs ⊆ proveedores m -> Forall P res ->
            Forall P (fase_fuzzy scorer m q proveedor_target provs res)).
  { induction provs as [|[nom_prov df] resto IH]; intros res Hsub Hres; [exact Hres|].
    assert (Hin : (nom_prov, df) ∈ proveedores m) by (apply Hsub; left).
    assert (Hsub' : resto ⊆ proveedores m) by (intros x Hx; apply Hsub; right; exact Hx).
    cbn [fase_fuzzy].
    destruct (otro_proveedor _ _) eqn:Ho; [apply IH; assumption|].
    destruct (bool_decide _); [apply IH; assumption|].
    apply IH; [assumption|]. apply Ha; assumption. }
  unfold resultados_sin_ordenar. fold q.
  destruct (_ && _); [apply Hf; [reflexivity|]|]; apply He; (reflexivity || constructor).
Qed.

(** X1.  Every hit that a search returns stands for a row of the catalog:
    its supplier is a key of the catalog, and its product, code and cost
    are those of one row of that supplier's table. *)
Theorem buscar_producto_del_catalogo :
  forall (str_contains : string -> option (string -> bool))
         (scorer : string -> string -> Z)
         (m : Motor) (consulta : string) (limite : Z) (proveedor_target : option string),
    Forall (hit_del_catalogo m)
      (buscar_producto str_contains scorer m consulta limite proveedor_target).
Proof.
  intros. apply buscar_producto_procedencia.
  intros nom_prov df row score Hin _ Hrow.
  exists df, row. repeat split; assumption.
Qed.

(** X2.  With a non-empty supplier filter every returned hit belongs to
    that supplier. *)
Theorem buscar_producto_filtro_proveedor :
  forall (str_contains : string -> option (string -> bool))
         (scorer : string -> string -> Z)
         (m : Motor) (consulta : string) (limite : Z) (t : string),
    t <> "" ->
    Forall (fun h => proveedor h = t)
      (buscar_producto str_contains scorer m consulta limite (Some t)).
Proof.
  intros str_contains scorer m consulta limite t Ht.
  apply buscar_producto_procedencia.
  intros nom_prov df row score _ Ho _. cbn [proveedor hit_de].
  unfold otro_proveedor in Ho.
  apply andb_false_iff in Ho as [Ho|Ho]; apply negb_false_iff in Ho;
    apply String.eqb_eq in Ho; [contradiction | exact Ho].
Qed.

Lemma buscar_producto_filtro_proveedor_witness :
  Forall (fun h => proveedor h = "B")
    (buscar_producto contiene_literal Fuzz.partial_token_sort_ratio
       motor_dos_proveedores "mart" 20 (Some "B")) /\
  producto <$> buscar_producto contiene_literal Fuzz.partial_token_sort_ratio
                 motor_dos_proveedores "mart" 20 (Some "B") = ["Martilo de carpintero"].
Proof.
  split.
  - apply (buscar_producto_filtro_proveedor contiene_literal Fuzz.partial_token_sort_ratio
             motor_dos_proveedores "mart" 20 "B"). discriminate.
  - vm_compute. reflexivity.
Defined.

(** ** Search: the second phase and the ranking *)

(** X3.  A query of at most three characters, once lowered and trimmed,
    never enters the fuzzy phase: the scorer plays no part in the result and
    every returned hit has score 100. *)
Theorem buscar_producto_consulta_corta :
  forall (str_contains : string -> option (string -> bool))
         (scorer scorer' : string -> string -> Z)
         (m : Motor) (consulta : string) (limite : Z) (proveedor_target : option string),
    (String.length (Texto.strip (Texto.lower consulta)) <= 3)%nat ->
    buscar_producto str_contains scorer m consulta limite proveedor_target =
      buscar_producto str_contains scorer' m consulta limite proveedor_target /\
    Forall (fun h => score_busqueda h = 100)
      (buscar_producto str_contains scorer m consulta limite proveedor_target).
Proof.
  intros str_contains scorer scorer' m consulta limite proveedor_target Hq.
  assert (E : forall sc, resultados_sin_ordenar str_contains sc m
                (Texto.strip (Texto.lower consulta)) limite proveedor_target =
              fase_exacta str_contains m (Texto.strip (Texto.lower consulta)) limite
                proveedor_target (proveedores m) []).
  { intros sc. unfold resultados_sin_ordenar.
    assert (E3 : (3 <? String.length (Texto.strip (Texto.lower consulta)))%nat = false)
      by (apply Nat.ltb_ge; exact Hq).
    rewrite E3, andb_false_r. reflexivity. }
  unfold buscar_producto, buscar_ya_normalizada. rewrite !E. split; [reflexivity|].
  apply Forall_forall. intros h Hh.
  apply py_hasta_subseteq in Hh. rewrite ordenar_estable_Permutation in Hh.
  destruct (fase_exacta_agrega str_contains m (Texto.strip (Texto.lower consulta)) limite
              proveedor_target (proveedores m) []) as (nuevos & En & Hn).
  rewrite En in Hh. rewrite Forall_forall in Hn. apply Hn. exact Hh.
Qed.

Lemma buscar_producto_consulta_corta_witness :
  Forall (fun h => score_busqueda h = 100)
    (buscar_producto contiene_literal Fuzz.partial_token_sort_ratio
       motor_dos_proveedores " MAR " 20 None) /\
  producto <$> buscar_producto contiene_literal Fuzz.partial_token_sort_ratio
                 motor_dos_proveedores " MAR " 20 None =
    ["Martillo de bola"; "Martilo de carpintero"].
Proof.
  split.
  - apply (buscar_producto_consulta_corta contiene_literal Fuzz.partial_token_sort_ratio
             Fuzz.partial_token_sort_ratio motor_dos_proveedores " MAR " 20 None).
    vm_compute. lia.
  - vm_compute. reflexivity.
Defined.

Lemma sin_repetir_nil (previos : list Hit) : sin_repetir previos [].
Proof. intros i h Hi. rewrite lookup_nil in Hi. discriminate. Qed.

Lemma sin_repetir_app (previos n1 n2 : list Hit) :
  sin_repetir previos n1 -> sin_repetir (previos ++ n1) n2 ->
  sin_repetir previos (n1 ++ n2).
Proof.
  intros H1 H2 i h Hi.
  destruct (decide (i < length n1)%nat) as [Hlt|Hge].
  - rewrite lookup_app_l in Hi by exact Hlt.
    rewrite take_app_le by lia. apply (H1 i h Hi).
  - rewrite lookup_app_r in Hi by lia.
    rewrite take_app_ge by lia. rewrite app_assoc. apply (H2 _ h Hi).
Qed.

Lemma agregar_fuzzy_sin_repetir (m : Motor) (nom_prov : string) (df : list Fila)
  (matches : list (string * Z)) (resultados : list Hit) :
  exists nuevos : list Hit,
    agregar_fuzzy m nom_prov df matches resultados = resultados ++ nuevos /\
    sin_repetir resultados nuevos.
Proof.
  revert resultados. induction matches as [|[m_str score] resto IH]; intros resultados.
  - exists []. split; [symmetry; apply app_nil_r | apply sin_repetir_nil].
  - cbn [agregar_fuzzy].
    destruct (score <? umbral_fuzzy m); [apply IH|].
    destruct (existsb _ resultados) eqn:Ee; [apply IH|].
    destruct (List.find _ df) as [row|] eqn:Ef; [|apply IH].
    destruct (IH (resultados ++ [hit_de m nom_prov row score])) as (nuevos & -> & Hn).
    exists ([hit_de m nom_prov row score] ++ nuevos).
    split; [rewrite <- app_assoc; reflexivity|].
    apply sin_repetir_app; [|exact Hn].
    intros i h Hi. destruct i as [|i]; [|rewrite lookup_cons, lookup_nil in Hi; discriminate].
    injection Hi as <-. rewrite take_0, app_nil_r.
    apply Forall_forall. intros h' Hh' [Hp Hv].
    apply find_some in Ef as [_ Ef]. apply String.eqb_eq in Ef.
    cbn [producto proveedor hit_de] in Hp, Hv.
    assert (Hex : existsb (fun r => String.eqb (producto r) m_str
                                    && String.eqb (proveedor r) nom_prov) resultados = true).
    { apply existsb_exists. exists h'. split; [apply list_elem_of_In; exact Hh'|].
      apply andb_true_iff. split; apply String.eqb_eq; congruence. }
    congruence.
Qed.

Lemma fase_fuzzy_sin_repetir (scorer : string -> string -> Z) (m : Motor)
  (consulta : string) (proveedor_target : option string)
  (provs : list (string * list Fila)) (resultados : list Hit) :
  exists nuevos : list Hit,
    fase_fuzzy scorer m consulta proveedor_target provs resultados = resultados ++ nuevos /\
    sin_repetir resultados nuevos.
Proof.
  revert resultados. induction provs as [|[nom_prov df] resto IH]; intros resultados.
  - exists []. split; [symmetry; apply app_nil_r | apply sin_repetir_nil].
  - cbn [fase_fuzzy].
    destruct (otro_proveedor _ _); [apply IH|].
    destruct (bool_decide _); [apply IH|].
    destruct (agregar_fuzzy_sin_repetir m nom_prov df
                (process_extract scorer consulta (Producto <$> df)) resultados)
      as (n1 & -> & H1).
    destruct (IH (resultados ++ n1)) as (n2 & -> & H2).
    exists (n1 ++ n2). split; [symmetry; apply app_assoc|].
    apply sin_repetir_app; assumption.
Qed.

(** X4.  The fuzzy phase never adds a product of a supplier that an earlier
    hit already names: among the hits before ranking, no fuzzy hit has the
    product and supplier of a substring hit or of a fuzzy hit found
    before it. *)
Theorem fase_fuzzy_no_repite :
  forall (str_contains : string -> option (string -> bool))
         (scorer : string -> string -> Z)
         (m : Motor) (consulta : string) (limite : Z) (proveedor_target : option string),
    let exactos := fase_exacta str_contains m consulta limite proveedor_target
                     (proveedores m) [] in
    let todos := resultados_sin_ordenar str_contains scorer m consulta limite
                   proveedor_target in
    sin_repetir exactos (drop (length exactos) todos).
Proof.
  intros str_contains scorer m consulta limite proveedor_target exactos todos.
  unfold todos, resultados_sin_ordenar. fold exactos.
  destruct (_ && _).
  - destruct (fase_fuzzy_sin_repetir scorer m consulta proveedor_target
                (proveedores m) exactos) as (nuevos & -> & Hn).
    rewrite drop_app_length. exact Hn.
  - rewrite drop_all. apply sin_repetir_nil.
Qed.

Lemma fase_exacta_cota (str_contains : string -> option (string -> bool)) (m : Motor)
  (consulta : string) (limite : Z) (proveedor_target : option string)
  (provs : list (string * list Fila)) (resultados : list Hit) :
  0 < limite ->
  Z.of_nat (length resultados) < limite * 2 ->
  Z.of_nat (length (fase_exacta str_contains m consulta limite proveedor_target
                      provs resultados)) < limite * 3.
Proof.
  intros Hl. revert resultados.
  induction provs as [|[nom_prov df] resto IH]; intros resultados Hlt.
  - cbn [fase_exacta]. lia.
  - cbn [fase_exacta].
    destruct (otro_proveedor _ _); [apply IH; exact Hlt|].
    destruct (bool_decide _); [apply IH; exact Hlt|].
    destruct (df_exact _ _ _ _) as [rows|] eqn:Ed; [|apply IH; exact Hlt].
    assert (Hr : Z.of_nat (length rows) <= limite).
    { unfold df_exact in Ed. destruct (str_contains consulta); [|discriminate].
      cbn [mbind option_bind] in Ed. injection Ed as <-.
      apply py_hasta_positivo. exact Hl. }
    destruct (_ <=? _) eqn:E.
    + rewrite length_app, length_fmap. lia.
    + apply Z.leb_gt in E. apply IH. exact E.
Qed.

(** X5.  For a positive limit the substring phase gathers fewer than three
    times the limit: each supplier adds at most [limite] hits and the loop
    stops once twice the limit is reached. *)
Theorem fase_exacta_menos_del_triple :
  forall (str_contains : string -> option (string -> bool)) (m : Motor)
         (consulta : string) (limite : Z) (proveedor_target : option string),
    0 < limite ->
    Z.of_nat (length (fase_exacta str_contains m consulta limite proveedor_target
                        (proveedores m) [])) < limite * 3.
Proof.
  intros str_contains m consulta limite proveedor_target Hl.
  apply fase_exacta_cota; [exact Hl | cbn [length]; lia].
Qed.

Lemma fase_exacta_menos_del_triple_witness :
  Z.of_nat (length (fase_exacta contiene_literal
                      (motor_de (proveedores_a_b ++ proveedores_c)) "martillo" 2 None
                      (proveedores_a_b ++ proveedores_c) [])) < 2 * 3 /\
  length (fase_exacta contiene_literal
            (motor_de (proveedores_a_b ++ proveedores_c)) "martillo" 2 None
            (proveedores_a_b ++ proveedores_c) []) = 4%nat.
Proof.
  split.
  - apply (fase_exacta_menos_del_triple contiene_literal
             (motor_de (proveedores_a_b ++ proveedores_c)) "martillo" 2 None). reflexivity.
  - vm_compute. reflexivity.
Defined.

Lemma insertar_orden_estable {A} (clave : A -> Z) (s : Z) (x : A) (l : list A) :
  filter (fun a => clave a = s) (insertar_orden (fun a b => clave b <=? clave a) x l) =
  filter (fun a => clave a = s) (x :: l).
Proof.
  induction l as [|y l IH]; cbn [insertar_orden]; [reflexivity|].
  destruct (clave y <=? clave x) eqn:E; [reflexivity|].
  apply Z.leb_gt in E.
  rewrite (filter_cons _ y), IH, !filter_cons.
  destruct (decide (clave y = s)) as [Hy|Hy]; destruct (decide (clave x = s)) as [Hx|Hx];
    try reflexivity.
  lia.
Qed.

Lemma ordenar_estable_estable {A} (clave : A -> Z) (s : Z) (l : list A) :
  filter (fun a => clave a = s) (ordenar_estable (fun a b => clave b <=? clave a) l) =
  filter (fun a => clave a = s) l.
Proof.
  induction l as [|x l IH]; [reflexivity|].
  cbn [ordenar_estable foldr]. fold (ordenar_estable (fun a b => clave b <=? clave a) l).
  rewrite insertar_orden_estable, !filter_cons, IH. reflexivity.
Qed.

(** X6.  The ranking is stable: the returned list is cut from a ranking of
    all the hits in which the hits of any one score stand in the order in
    which the two phases found them; so substring hits stand before fuzzy
    hits that score 100, and the hits of a supplier keep their table
    order. *)
Theorem buscar_producto_orden_estable :
  forall (str_contains : string -> option (string -> bool))
         (scorer : string -> string -> Z)
         (m : Motor) (consulta : string) (limite : Z) (proveedor_target : option string),
    let todos := resultados_sin_ordenar str_contains scorer m
                   (Texto.strip (Texto.lower consulta)) limite proveedor_target in
    exists ranking : list Hit,
      buscar_producto str_contains scorer m consulta limite proveedor_target =
        py_hasta limite ranking /\
      ranking ≡ₚ todos /\
      StronglySorted (fun a b => score_busqueda b <= score_busqueda a) ranking /\
      forall s : Z,
        filter (fun h => score_busqueda h = s) ranking =
        filter (fun h => score_busqueda h = s) todos.
Proof.
  intros str_contains scorer m consulta limite proveedor_target todos.
  exists (ordenar_estable por_score todos).
  split; [reflexivity|]. split; [apply ordenar_estable_Permutation|].
  split; [apply (ordenar_estable_ordenada score_busqueda)|].
  intros s. apply (ordenar_estable_estable score_busqueda).
Qed.

(** ** Search: the query *)

Lemma isspace_lower_char (c : ascii) :
  Texto.isspace (Texto.lower_char c) = Texto.isspace c.
Proof. destruct c as [[] [] [] [] [] [] [] []]; reflexivity. Qed.

Lemma lower_char_idem (c : ascii) :
  Texto.lower_char (Texto.lower_char c) = Texto.lower_char c.
Proof. destruct c as [[] [] [] [] [] [] [] []]; reflexivity. Qed.

Lemma lower_idem (s : string) : Texto.lower (Texto.lower s) = Texto.lower s.
Proof.
  induction s as [|c s IH]; [reflexivity|].
  cbn [Texto.lower]. rewrite lower_char_idem, IH. reflexivity.
Qed.

Lemma lower_lstrip (s : string) : Texto.lower (Texto.lstrip s) = Texto.lstrip (Texto.lower s).
Proof.
  induction s as [|c s IH]; [reflexivity|].
  cbn [Texto.lower Texto.lstrip]. rewrite isspace_lower_char.
  destruct (Texto.isspace c); [exact IH | reflexivity].
Qed.

Lemma lower_rstrip (s : string) : Texto.lower (Texto.rstrip s) = Texto.rstrip (Texto.lower s).
Proof.
  induction s as [|c s IH]; [reflexivity|].
  cbn [Texto.lower Texto.rstrip]. rewrite <- IH, isspace_lower_char.
  destruct (Texto.rstrip s); cbn [Texto.lower]; [destruct (Texto.isspace c)|]; reflexivity.
Qed.

Lemma lower_strip (s : string) : Texto.lower (Texto.strip s) = Texto.strip (Texto.lower s).
Proof. unfold Texto.strip. rewrite lower_rstrip, lower_lstrip. reflexivity. Qed.

(** X7.  The search does not depend on the case of the query nor on the
    blanks around it: a query and its lowered, trimmed form return the
    same list. *)
Theorem buscar_producto_consulta_normalizada :
  forall (str_contains : string -> option (string -> bool))
         (scorer : string -> string -> Z)
         (m : Motor) (consulta : string) (limite : Z) (proveedor_target : option string),
    buscar_producto str_contains scorer m (Texto.strip (Texto.lower consulta))
      limite proveedor_target =
    buscar_producto str_contains scorer m consulta limite proveedor_target.
Proof.
  intros. unfold buscar_producto.
  rewrite lower_strip, lower_idem, strip_idem. reflexivity.
Qed.

(** ** The configuration store: what an update leaves *)

Lemma obtener_info_config_insert (m : Motor) (mg : gmap string Entrada)
  (proveedor : string) (margen desc1 desc2 : Q) :
  margenes m = <[proveedor :=
                   if Qgtb desc1 0 || Qgtb desc2 0
                   then Registro {[ "margen" := margen; "desc1" := desc1; "desc2" := desc2 ]}
                   else Escalar margen]> mg ->
  obtener_info_config m proveedor = config_guardada margen desc1 desc2.
Proof.
  intros E. unfold obtener_info_config, config_guardada. rewrite E, lookup_insert_eq.
  destruct (Qgtb desc1 0 || Qgtb desc2 0); [|reflexivity].
  destruct (config_de_get margen desc1 desc2) as (E1 & E2 & E3).
  unfold config_de in E1, E2, E3. rewrite E1, E2, E3. reflexivity.
Qed.

Lemma obtener_info_config_otro (m m' : Motor) (p : string) :
  margenes m' !! p = margenes m !! p -> margen_default m' = margen_default m ->
  obtener_info_config m' p = obtener_info_config m p.
Proof. intros E1 E2. unfold obtener_info_config. rewrite E1, E2. reflexivity. Qed.

(** X8.  After [actualizar_margen], in memory and in an engine that reads
    the written file, the supplier's configuration is the three given
    values when one of the discounts is positive, and otherwise the markup
    with zero discounts (a pair of discounts that are zero or negative is
    not stored).  The configuration of every other supplier is as
    before. *)
Theorem actualizar_margen_ida_y_vuelta :
  forall (m m0 : Motor) (fs : gmap string Contenido) (proveedor : string)
         (margen desc1 desc2 : Q),
    archivo_margenes m0 = archivo_margenes m ->
    let m' := (actualizar_margen m fs proveedor margen desc1 desc2).1 in
    let pasos := (actualizar_margen m fs proveedor margen desc1 desc2).2 in
    let leido := _cargar_margenes (estado_final fs pasos) m0 in
    obtener_info_config m' proveedor = config_guardada margen desc1 desc2 /\
    obtener_info_config leido proveedor = config_guardada margen desc1 desc2 /\
    (forall p : string, p <> proveedor ->
        obtener_info_config m' p = obtener_info_config m p /\
        obtener_info_config leido p = obtener_info_config m p).
Proof.
  intros m m0 fs proveedor margen desc1 desc2 Ha m' pasos leido.
  assert (Hl : estado_final fs pasos !! archivo_margenes m0 =
               Some (Json (config_a_guardar m'))).
  { unfold pasos. cbn [actualizar_margen snd]. rewrite _guardar_margenes_final.
    rewrite Ha. apply lookup_insert_eq. }
  assert (Hmg : margenes leido = margenes m' /\ margen_default leido = margen_default m).
  { unfold leido, _cargar_margenes. rewrite Hl. split; reflexivity. }
  destruct Hmg as [Hmg Hmd].
  assert (Hm' : margenes m' = <[proveedor :=
                   if Qgtb desc1 0 || Qgtb desc2 0
                   then Registro {[ "margen" := margen; "desc1" := desc1; "desc2" := desc2 ]}
                   else Escalar margen]> (margenes m)) by reflexivity.
  split; [|split].
  - apply (obtener_info_config_insert _ _ _ _ _ _ Hm').
  - apply (obtener_info_config_insert _ (margenes m)). rewrite Hmg. exact Hm'.
  - intros p Hp.
    assert (Ho : margenes m' !! p = margenes m !! p).
    { rewrite Hm'. apply lookup_insert_ne. congruence. }
    split; apply obtener_info_config_otro; try reflexivity; try assumption.
    rewrite Hmg. exact Ho.
Qed.

Lemma actualizar_margen_ida_y_vuelta_witness :
  let r := actualizar_margen motor_con_carpeta fs_con_carpeta "ACME" 30 10 0 in
  obtener_info_config
    (_cargar_margenes (estado_final fs_con_carpeta r.2) (motor_inicial "margenes.json"))
    "ACME" = config_de 30 10 0.
Proof.
  intros r.
  destruct (actualizar_margen_ida_y_vuelta motor_con_carpeta (motor_inicial "margenes.json")
              fs_con_carpeta "ACME" 30 10 0 eq_refl) as (_ & H & _).
  exact H.
Defined.

Lemma calcular_precio_final_config_guardada (c margen desc1 desc2 : Q) :
  calcular_precio_final c (config_guardada margen desc1 desc2) =
  calcular_precio_final c (config_de margen desc1 desc2).
Proof.
  unfold config_guardada.
  destruct (Qgtb desc1 0) eqn:E1; destruct (Qgtb desc2 0) eqn:E2; cbn [orb];
    try reflexivity.
  apply Qgtb_false in E1, E2.
  rewrite !calcular_precio_final_config_de.
  rewrite (no_positivo desc1 E1), (no_positivo desc2 E2), cero_no_positivo. reflexivity.
Qed.

(** X9.  Whatever the signs of the given values, the prices after
    [actualizar_margen] are those of the three given values: the stored
    configuration, in memory and read back from the file, prices every
    cost as the configuration (margen, desc1, desc2) does. *)
Theorem actualizar_margen_mismo_precio :
  forall (m m0 : Motor) (fs : gmap string Contenido) (proveedor : string)
         (margen desc1 desc2 c : Q),
    archivo_margenes m0 = archivo_margenes m ->
    let m' := (actualizar_margen m fs proveedor margen desc1 desc2).1 in
    let pasos := (actualizar_margen m fs proveedor margen desc1 desc2).2 in
    let leido := _cargar_margenes (estado_final fs pasos) m0 in
    calcular_precio_final c (obtener_info_config m' proveedor) =
      calcular_precio_final c (config_de margen desc1 desc2) /\
    calcular_precio_final c (obtener_info_config leido proveedor) =
      calcular_precio_final c (config_de margen desc1 desc2).
Proof.
  intros m m0 fs proveedor margen desc1 desc2 c Ha m' pasos leido.
  assert (Hl : estado_final fs pasos !! archivo_margenes m0 =
               Some (Json (config_a_guardar m'))).
  { unfold pasos. cbn [actualizar_margen snd]. rewrite _guardar_margenes_final.
    rewrite Ha. apply lookup_insert_eq. }
  assert (Hmg : margenes leido = margenes m').
  { unfold leido, _cargar_margenes. rewrite Hl. reflexivity. }
  assert (Hm' : margenes m' = <[proveedor :=
                   if Qgtb desc1 0 || Qgtb desc2 0
                   then Registro {[ "margen" := margen; "desc1" := desc1; "desc2" := desc2 ]}
                   else Escalar margen]> (margenes m)) by reflexivity.
  rewrite (obtener_info_config_insert m' (margenes m) _ _ _ _ Hm').
  rewrite (obtener_info_config_insert leido (margenes m) proveedor margen desc1 desc2)
    by (rewrite Hmg; exact Hm').
  split; apply calcular_precio_final_config_guardada.
Qed.

Lemma actualizar_margen_mismo_precio_witness :
  let r := actualizar_margen motor_con_carpeta fs_con_carpeta "ACME" 30 (-5) 0 in
  calcular_precio_final 1000 (obtener_info_config r.1 "ACME") =
    calcular_precio_final 1000 (config_de 30 (-5) 0) /\
  obtener_info_config r.1 "ACME" = config_de 30 0 0.
Proof.
  intros r. split.
  - apply (actualizar_margen_mismo_precio motor_con_carpeta (motor_inicial "margenes.json")
             fs_con_carpeta "ACME" 30 (-5) 0 1000 eq_refl).
  - vm_compute. reflexivity.
Defined.

(** ** Loading the catalog *)

Lemma dict_set_claves {V} (k : string) (v : V) (d : list (string * V)) :
  (dict_set k v d).*1 = if bool_decide (k ∈ d.*1) then d.*1 else d.*1 ++ [k].
Proof.
  induction d as [|[k' v'] d IH]; [reflexivity|].
  cbn [dict_set fmap list_fmap fst].
  destruct (String.eqb k' k) eqn:E.
  - apply String.eqb_eq in E. subst k'.
    rewrite bool_decide_eq_true_2 by (left). reflexivity.
  - apply String.eqb_neq in E. cbn [fmap list_fmap fst]. fold (fmap (M := list) (@fst string V)).
    rewrite IH. destruct (bool_decide (k ∈ d.*1)) eqn:Ed.
    + apply bool_decide_eq_true_1 in Ed.
      rewrite bool_decide_eq_true_2 by (right; exact Ed). reflexivity.
    + apply bool_decide_eq_false_1 in Ed.
      rewrite bool_decide_eq_false_2; [reflexivity|].
      intros Hin. apply elem_of_cons in Hin as [Hin|Hin]; [congruence | contradiction].
Qed.

Lemma dict_set_NoDup {V} (k : string) (v : V) (d : list (string * V)) :
  NoDup d.*1 -> NoDup (dict_set k v d).*1.
Proof.
  intros Hd. rewrite dict_set_claves. destruct (bool_decide (k ∈ d.*1)) eqn:E; [exact Hd|].
  apply bool_decide_eq_false_1 in E.
  apply NoDup_app. split; [exact Hd|]. split; [|apply NoDup_singleton].
  intros x Hx Hx'. apply list_elem_of_singleton in Hx'. subst x. contradiction.
Qed.

Lemma dict_set_elem {V} (k : string) (v : V) (d : list (string * V)) (k0 : string) (v0 : V) :
  NoDup d.*1 ->
  (k0, v0) ∈ dict_set k v d <-> (k0 = k /\ v0 = v) \/ (k0 <> k /\ (k0, v0) ∈ d).
Proof.
  induction d as [|[k' v'] d IH]; intros Hd; cbn [dict_set].
  - rewrite list_elem_of_singleton. split.
    + intros [= -> ->]. left. split; reflexivity.
    + intros [[-> ->]|[_ H]]; [reflexivity | inversion H].
  - cbn [fmap list_fmap fst] in Hd. apply NoDup_cons in Hd as [Hk' Hd].
    destruct (String.eqb k' k) eqn:E.
    + apply String.eqb_eq in E. subst k'. rewrite !elem_of_cons. split.
      * intros [[= -> ->]|H]; [left; split; reflexivity|].
        right. split; [|right; exact H].
        intros ->. apply Hk'. apply (list_elem_of_fmap_2 fst _ _ H).
      * intros [[-> ->]|[Hne [[= -> _]|H]]];
          [left; reflexivity | contradiction | right; exact H].
    + apply String.eqb_neq in E. rewrite !elem_of_cons, (IH Hd). split.
      * intros [[= -> ->]|[[-> ->]|[Hne H]]].
        -- right. split; [exact E | left; reflexivity].
        -- left. split; reflexivity.
        -- right. split; [exact Hne | right; exact H].
      * intros [[-> ->]|[Hne [[= -> ->]|H]]].
        -- right. left. split; reflexivity.
        -- left. reflexivity.
        -- right. right. split; assumption.
Qed.

(** The dict filled by successive assignments. *)
Lemma catalogo_de_foldl (directorio : list Archivo) :
  catalogo_de directorio =
    foldl (fun d kv => dict_set kv.1 kv.2 d) [] (resultados_de directorio).
Proof.
  unfold catalogo_de, resultados_de.
  generalize (filter (fun a => extension_de_proveedor (archivo a) = true) directorio).
  intros l. generalize (@nil (string * list Fila)).
  induction l as [|a l IH]; intros d; [reflexivity|].
  cbn [fmap list_fmap foldl omap list_omap].
  destruct (procesar_un_archivo a) as [[nombre df]|]; cbn [foldl]; apply IH.
Qed.

Lemma foldl_dict_set_NoDup {V} (rs : list (string * V)) :
  NoDup (foldl (fun d kv => dict_set kv.1 kv.2 d) [] rs).*1.
Proof.
  induction rs as [|[k v] rs IH] using rev_ind; [constructor|].
  rewrite foldl_app. cbn [foldl fst snd]. apply dict_set_NoDup. exact IH.
Qed.

Lemma foldl_dict_set_elem {V} (rs : list (string * V)) (n : string) (t : V) :
  (n, t) ∈ foldl (fun d kv => dict_set kv.1 kv.2 d) [] rs <->
  exists pre post, rs = pre ++ (n, t) :: post /\ n ∉ post.*1.
Proof.
  split.
  - induction rs as [|[k v] rs IH] using rev_ind; [intros H; inversion H|].
    rewrite foldl_app. cbn [foldl fst snd].
    rewrite dict_set_elem by apply foldl_dict_set_NoDup.
    intros [[-> ->]|[Hne H]].
    + exists rs, []. split; [reflexivity | apply not_elem_of_nil].
    + destruct (IH H) as (pre & post & -> & Hpost).
      exists pre, (post ++ [(k, v)]). split; [rewrite <- app_assoc; reflexivity|].
      rewrite fmap_app. intros Hin. apply elem_of_app in Hin as [Hin|Hin];
        [contradiction|]. apply list_elem_of_singleton in Hin. contradiction.
  - intros (pre & post & -> & Hpost). revert Hpost.
    induction post as [|[k v] post IH] using rev_ind; intros Hpost.
    + rewrite foldl_app. cbn [foldl fst snd].
      rewrite dict_set_elem by apply foldl_dict_set_NoDup. left. split; reflexivity.
    + rewrite fmap_app in Hpost.
      assert (Hne : n <> k).
      { intros ->. apply Hpost. apply elem_of_app. right. left. }
      assert (Hpost' : n ∉ post.*1).
      { intros Hin. apply Hpost. apply elem_of_app. left. exact Hin. }
      change (pre ++ (n, t) :: post ++ [(k, v)]) with (pre ++ ((n, t) :: post) ++ [(k, v)]).
      rewrite app_assoc, foldl_app. cbn [foldl fst snd].
      rewrite dict_set_elem by apply foldl_dict_set_NoDup.
      right. split; [exact Hne | apply IH; exact Hpost'].
Qed.

(** X10.  The catalog has one table per supplier name, and when several
    files of the listing yield a table under the same name (as two files
    that differ in their extension do) the table of the last one is the one
    kept: a pair is in the catalog exactly when it is the result of a file
    after which no file yields a table under that name. *)
Theorem catalogo_de_ultimo_gana :
  forall (directorio : list Archivo),
    NoDup (catalogo_de directorio).*1 /\
    forall (nombre : string) (df : list Fila),
      (nombre, df) ∈ catalogo_de directorio <->
      exists pre post : list (string * list Fila),
        resultados_de directorio = pre ++ (nombre, df) :: post /\ nombre ∉ post.*1.
Proof.
  intros directorio. rewrite catalogo_de_foldl. split.
  - apply foldl_dict_set_NoDup.
  - intros nombre df. apply foldl_dict_set_elem.
Qed.

Lemma procesar_sin_cache_tabla (a : Archivo) (nombre : string) (t : list Fila) :
  procesar_sin_cache a = Some (nombre, t) ->
  nombre = splitext_0 (archivo a) /\ tabla_de_archivo a t.
Proof.
  unfold procesar_sin_cache. intros H.
  destruct (lectura a) as [df|] eqn:El; [|discriminate]. cbn [mbind option_bind] in H.
  destruct (_procesar_dataframe_inteligente df (mapeo_json a)) as [t'|] eqn:Ep;
    [|discriminate]. cbn [mbind option_bind] in H.
  destruct (bool_decide (t' = [])) eqn:Ee; [discriminate|].
  apply bool_decide_eq_false_1 in Ee. injection H as <- <-.
  split; [reflexivity|]. right. split; [exact Ee|]. split.
  - apply (_procesar_dataframe_inteligente_valida _ _ _ Ep).
  - exists df. split; [exact El | exact Ep].
Qed.

Lemma procesar_un_archivo_tabla (a : Archivo) (nombre : string) (t : list Fila) :
  procesar_un_archivo a = Some (nombre, t) ->
  nombre = splitext_0 (archivo a) /\ tabla_de_archivo a t.
Proof.
  unfold procesar_un_archivo.
  destruct (cache a) as [[mc [tc|]]|] eqn:Ec; try apply procesar_sin_cache_tabla.
  destruct (Qgtb mc (mtime_org a)) eqn:Eg; [|apply procesar_sin_cache_tabla].
  intros [= <- <-]. split; [reflexivity|]. left. exists mc.
  split; [exact Ec | apply Qgtb_true; exact Eg].
Qed.

(** X11.  Every table of the catalog belongs to a file of the listing with
    one of the four extensions, under the name of the file without its
    extension, and either was unpickled from a cache file strictly newer
    than the file, or is what the inference made of the file: not empty,
    every row with a positive cost and a trimmed product longer than one
    character.  A file whose inference gives no row is not in the
    catalog. *)
Theorem catalogo_de_procedencia :
  forall (directorio : list Archivo) (nombre : string) (t : list Fila),
    (nombre, t) ∈ catalogo_de directorio ->
    exists a : Archivo,
      a ∈ directorio /\
      extension_de_proveedor (archivo a) = true /\
      nombre = splitext_0 (archivo a) /\
      tabla_de_archivo a t.
Proof.
  intros directorio nombre t H.
  rewrite catalogo_de_foldl in H. apply foldl_dict_set_elem in H as (pre & post & E & _).
  assert (Hin : (nombre, t) ∈ resultados_de directorio).
  { rewrite E. apply elem_of_app. right. left. }
  unfold resultados_de in Hin. apply list_elem_of_omap in Hin as (a & Ha & Hp).
  apply list_elem_of_filter in Ha as [Hext Ha].
  destruct (procesar_un_archivo_tabla a nombre t Hp) as [Hn Ht].
  exists a. repeat split; assumption.
Qed.

Lemma catalogo_de_procedencia_witness :
  catalogo_de directorio_acme =
    [ ("ACME", [ {| Codigo := "1"; Producto := "Del cache"; Precio_de_Costo := 1 |} ]) ] /\
  exists a : Archivo,
    a ∈ directorio_acme /\
    extension_de_proveedor (archivo a) = true /\
    "ACME" = splitext_0 (archivo a) /\
    tabla_de_archivo a [ {| Codigo := "1"; Producto := "Del cache"; Precio_de_Costo := 1 |} ].
Proof.
  assert (E : catalogo_de directorio_acme =
    [ ("ACME", [ {| Codigo := "1"; Producto := "Del cache"; Precio_de_Costo := 1 |} ]) ])
    by (vm_compute; reflexivity).
  split; [exact E|].
  apply (catalogo_de_procedencia directorio_acme). rewrite E. left.
Defined.

(** X12.  [recargar] empties the per-supplier map before it reads the
    configuration file.  When the file is missing or does not parse, the
    map stays empty while the default markup, the threshold, the currency
    and the folder keep the values they had, so that every supplier is then
    priced with the former default markup and no discount.  When the file
    parses, each value is the one of the file, or the built-in default
    (20, 60, "ARS", no folder) for a key that the file lacks, whatever the
    engine held before.  In both cases the catalog is the one loaded from
    the listing. *)
Theorem recargar_configuracion :
  forall (fs : gmap string Contenido) (directorio : list Archivo) (m : Motor),
    let r := recargar fs directorio m in
    proveedores r = catalogo_de directorio /\
    ((fs !! archivo_margenes m = None \/ fs !! archivo_margenes m = Some Vacio) ->
       margenes r = ∅ /\
       margen_default r = margen_default m /\
       umbral_fuzzy r = umbral_fuzzy m /\
       moneda r = moneda m /\
       drive_folder_id r = drive_folder_id m /\
       forall p : string, obtener_info_config r p = config_de (margen_default m) 0 0) /\
    (forall config : Documento,
       fs !! archivo_margenes m = Some (Json config) ->
       margenes r = default ∅ (doc_margenes_por_proveedor config) /\
       margen_default r = default 20%Q (doc_margen_default config) /\
       umbral_fuzzy r = default 60 (doc_umbral_busqueda_fuzzy config) /\
       moneda r = default "ARS" (doc_moneda config) /\
       drive_folder_id r = default "" (doc_drive_folder_id config)).
Proof.
  intros fs directorio m r. split; [reflexivity|]. split.
  - intros H.
    assert (E : _cargar_margenes fs (con_margenes (con_proveedores m []) ∅) =
                con_margenes (con_proveedores m []) ∅).
    { unfold _cargar_margenes. cbn [archivo_margenes con_margenes con_proveedores].
      destruct H as [-> | ->]; reflexivity. }
    unfold r, recargar. rewrite E.
    split; [reflexivity|]. split; [reflexivity|]. split; [reflexivity|].
    split; [reflexivity|]. split; [reflexivity|].
    intros p. unfold obtener_info_config.
    cbn [margenes _cargar_proveedores con_proveedores con_margenes margen_default].
    rewrite lookup_empty. reflexivity.
  - intros config H. unfold r, recargar, _cargar_margenes.
    cbn [archivo_margenes con_margenes con_proveedores]. rewrite H.
    repeat split.
Qed.

Lemma recargar_configuracion_witness :
  margenes (recargar ∅ directorio_acme motor_con_carpeta) = ∅ /\
  obtener_info_config (recargar ∅ directorio_acme motor_con_carpeta) "ACME" = config_de 20 0 0 /\
  obtener_info_config motor_con_carpeta "ACME" = config_de 25 0 0.
Proof.
  destruct (recargar_configuracion ∅ directorio_acme motor_con_carpeta) as (_ & H & _).
  destruct H as (H1 & _ & _ & _ & _ & H2); [left; reflexivity|].
  split; [exact H1|]. split; [apply H2 | vm_compute; reflexivity].
Defined.

(** ** Column inference: grids that the automatic mode always rejects *)

Lemma get_loc_elem (c : etiqueta) (cols : list etiqueta) :
  c ∈ cols -> is_Some (get_loc c cols).
Proof.
  induction cols as [|c' cols IH]; intros Hc; [inversion Hc|].
  cbn [get_loc]. destruct (decide (c' = c)); [eauto|].
  apply elem_of_cons in Hc as [->|Hc]; [contradiction|].
  destruct (IH Hc) as [i ->]. cbn. eauto.
Qed.

Lemma get_loc_None (c : etiqueta) (cols : list etiqueta) :
  c ∉ cols -> get_loc c cols = None.
Proof.
  induction cols as [|c' cols IH]; intros Hc; [reflexivity|].
  cbn [get_loc]. destruct (decide (c' = c)) as [->|Hne].
  - exfalso. apply Hc. left.
  - rewrite IH; [reflexivity|]. intros Hin. apply Hc. right. exact Hin.
Qed.

Lemma indices_muestra_cota (n i : nat) : i ∈ indices_muestra n -> (i < n)%nat.
Proof.
  unfold indices_muestra. set (step := Nat.max 1 (n / 200)).
  assert (Hs : (1 <= step)%nat) by (unfold step; lia).
  intros Hi. apply list_elem_of_fmap in Hi as (k & -> & Hk).
  apply elem_of_seq in Hk as [_ Hk]. cbn in Hk.
  pose proof (Nat.Div0.mul_div_le (n + step - 1) step) as Hd.
  nia.
Qed.

Lemma mapM_Some_forall {A B} (f : A -> option B) (l : list A) :
  (forall x, x ∈ l -> is_Some (f x)) -> is_Some (mapM f l).
Proof.
  intros H. apply mapM_is_Some. apply Forall_forall. exact H.
Qed.

(** On the rows that were counted, the scoring raises nothing and scores
    every column, in order. *)
Lemma puntuar_columnas_Some (df : DataFrame) :
  exists scores : list (etiqueta * Puntajes),
    puntuar_columnas df (length (filas df)) = Some scores /\ scores.*1 = columnas df.
Proof.
  unfold puntuar_columnas.
  set (f := fun col : etiqueta =>
              (fun mu => (col, puntuar mu)) <$>
              muestra_columna df (indices_muestra (length (filas df))) col).
  assert (Hs : is_Some (mapM f (columnas df))).
  { apply mapM_Some_forall. intros col Hcol. unfold f, muestra_columna.
    destruct (get_loc_elem col (columnas df) Hcol) as [j ->]. cbn [mbind option_bind].
    assert (Hm : is_Some (mapM (fun i => celda j <$> filas df !! i)
                            (indices_muestra (length (filas df))))).
    { apply mapM_Some_forall. intros i Hi. apply indices_muestra_cota in Hi.
      destruct (lookup_lt_is_Some_2 (filas df) i Hi) as [fila ->]. cbn. eauto. }
    destruct Hm as [mu ->]. cbn. eauto. }
  destruct Hs as [scores Hs]. exists scores. split; [exact Hs|].
  apply mapM_Some in Hs. clear -Hs.
  induction Hs as [|col [c p] cols scores Hx Hs IH]; [reflexivity|].
  cbn [fmap list_fmap fst]. f_equal; [|exact IH].
  unfold f in Hx. destruct (muestra_columna _ _ _); [|discriminate].
  cbn in Hx. injection Hx as <- _. reflexivity.
Qed.

(** X13.  A grid without column names that has exactly two columns is never
    accepted by the automatic mode: whichever of the two columns the
    scores choose as product and as price, one of them has the label 0,
    which the final test takes for a missing column. *)
Theorem dos_columnas_sin_nombre_rechazadas :
  forall (df : DataFrame),
    columnas df = [EInt 0; EInt 1] ->
    _procesar_dataframe_inteligente df None = Some [].
Proof.
  intros df Hc. unfold _procesar_dataframe_inteligente, tiene_columna. rewrite Hc.
  rewrite (bool_decide_eq_false_2 (ETxt "Producto" ∈ [EInt 0; EInt 1]))
    by (intros H; repeat (apply elem_of_cons in H as [H|H]; [discriminate|]); inversion H).
  cbn [andb].
  destruct (length (filas df) =? 0)%nat; [reflexivity|].
  unfold modo_automatico.
  destruct (puntuar_columnas_Some df) as (scores & -> & Hk). cbn [mbind option_bind].
  destruct scores as [|s scores]; [reflexivity|].
  rewrite Hc. unfold elegir_columnas.
  destruct (_ && _); [reflexivity|]. destruct (_ && _); reflexivity.
Qed.

Lemma dos_columnas_sin_nombre_rechazadas_witness :
  _procesar_dataframe_inteligente
    {| columnas := [EInt 0; EInt 1];
       filas := [ ["Martillo de bola"; "1.500,50"]; ["Taladro percutor"; "17.684,21"] ] |}
    None = Some [] /\
  fmap (M := option) (fmap (M := list) Producto)
    (_procesar_dataframe_inteligente
       {| columnas := [ETxt "a"; ETxt "b"];
          filas := [ ["Martillo de bola"; "1.500,50"]; ["Taladro percutor"; "17.684,21"] ] |}
       None) = Some ["Martillo de bola"; "Taladro percutor"].
Proof.
  split.
  - apply dos_columnas_sin_nombre_rechazadas. reflexivity.
  - vm_compute. reflexivity.
Defined.

(** X14.  A grid with fewer than two columns (and not already labelled) is
    never accepted by the automatic mode: with no column there is nothing
    to score, and with one column the column chosen as price leaves none
    for the product. *)
Theorem menos_de_dos_columnas_rechazadas :
  forall (df : DataFrame),
    (length (columnas df) < 2)%nat ->
    _procesar_dataframe_inteligente df None = Some [].
Proof.
  intros df Hc. unfold _procesar_dataframe_inteligente.
  assert (Hno : tiene_columna (ETxt "Producto") df &&
                tiene_columna (ETxt "Precio de Costo") df = false).
  { unfold tiene_columna. destruct (columnas df) as [|c [|c' cols]]; cbn [length] in Hc;
      [| |lia].
    - rewrite bool_decide_eq_false_2 by apply not_elem_of_nil. reflexivity.
    - destruct (decide (c = ETxt "Producto")) as [->|Hne].
      + rewrite (bool_decide_eq_false_2 (ETxt "Precio de Costo" ∈ [ETxt "Producto"])).
        * apply andb_false_r.
        * intros H. apply list_elem_of_singleton in H. discriminate.
      + rewrite (bool_decide_eq_false_2 (ETxt "Producto" ∈ [c])); [reflexivity|].
        intros H. apply list_elem_of_singleton in H. congruence. }
  rewrite Hno.
  destruct (length (filas df) =? 0)%nat; [reflexivity|].
  unfold modo_automatico.
  destruct (puntuar_columnas_Some df) as (scores & -> & Hk). cbn [mbind option_bind].
  destruct scores as [|[c p] scores]; [reflexivity|].
  destruct (columnas df) as [|c0 [|c1 cols]] eqn:Ecols; cbn [length] in Hc;
    [discriminate | | lia].
  cbn [fmap list_fmap fst] in Hk. injection Hk as -> Hk.
  destruct scores; [|discriminate].
  unfold elegir_columnas.
  rewrite filter_cons, filter_nil. cbn [fst snd].
  destruct (decide (Qgtb (scores_precio p) (literal (1 # 10)) = true)); [|reflexivity].
  cbn [fmap list_fmap fst ordenar_estable foldr insertar_orden desempatar].
  rewrite filter_cons, filter_nil. cbn [fst].
  destruct (decide (c0 ≠ c0)) as [Hne|_]; [contradiction|].
  rewrite filter_nil. reflexivity.
Qed.

Lemma menos_de_dos_columnas_rechazadas_witness :
  _procesar_dataframe_inteligente
    {| columnas := [EInt 0]; filas := [ ["108.200"]; ["1.234,56"]; ["100.50"] ] |} None
  = Some [].
Proof. apply menos_de_dos_columnas_rechazadas. cbn. lia. Defined.

(** ** Column inference: the manual mapping *)

Lemma py_index_Some_le {A} (l : list A) (i : Z) (x : A) :
  py_index l i = Some x -> i <= Z.of_nat (length l) - 1.
Proof.
  unfold py_index. destruct (0 <=? i) eqn:E; [|apply Z.leb_gt in E; lia].
  intros H. apply lookup_lt_Some in H. apply Z.leb_le in E. lia.
Qed.

Lemma py_index_elem {A} (l : list A) (i : Z) (x : A) : py_index l i = Some x -> x ∈ l.
Proof.
  unfold py_index. destruct (0 <=? i); [|destruct (- _ <=? i); [|discriminate]];
    apply list_elem_of_lookup_2.
Qed.

Lemma get_loc_fmap (f : etiqueta -> etiqueta) (cols : list etiqueta) (c : etiqueta) (i : nat) :
  get_loc c cols = Some i ->
  (forall c', c' ∈ cols -> f c' = f c -> c' = c) ->
  get_loc (f c) (f <$> cols) = Some i.
Proof.
  revert i. induction cols as [|c0 cols IH]; intros i Hg Hinj; [discriminate|].
  cbn [get_loc fmap list_fmap] in *. fold (fmap (M := list) f).
  destruct (decide (c0 = c)) as [->|Hne].
  - injection Hg as <-. rewrite decide_True by reflexivity. reflexivity.
  - rewrite decide_False.
    + destruct (get_loc c cols) as [j|]; [|discriminate]. cbn in Hg. injection Hg as <-.
      rewrite (IH j eq_refl); [reflexivity|].
      intros c' Hc'. apply Hinj. right. exact Hc'.
    + intros Hf. apply Hne. apply Hinj; [left | exact Hf].
Qed.

Lemma get_loc_app_l (c : etiqueta) (l1 l2 : list etiqueta) (i : nat) :
  get_loc c l1 = Some i -> get_loc c (l1 ++ l2) = Some i.
Proof.
  revert i. induction l1 as [|c0 l1 IH]; intros i H; [discriminate|].
  cbn [get_loc app] in *. destruct (decide (c0 = c)); [exact H|].
  destruct (get_loc c l1) as [j|]; [|discriminate]. rewrite (IH j eq_refl). exact H.
Qed.

Lemma get_loc_app_r (c : etiqueta) (l : list etiqueta) :
  c ∉ l -> get_loc c (l ++ [c]) = Some (length l).
Proof.
  induction l as [|c0 l IH]; intros Hc; cbn [get_loc app length].
  - rewrite decide_True by reflexivity. reflexivity.
  - rewrite decide_False by (intros ->; apply Hc; left).
    rewrite IH; [reflexivity|]. intros Hin. apply Hc. right. exact Hin.
Qed.

(** The columns of a frame once renamed by the manual branch. *)
Lemma renombrar_columnas (mapa : list (etiqueta * string)) (df : DataFrame) :
  columnas (renombrar mapa df) =
    (fun c => from_option ETxt c (dict_get c mapa)) <$> columnas df.
Proof. reflexivity. Qed.

Lemma sin_nombre_no_texto (cols : list etiqueta) (s : string) :
  Forall (fun c => exists k, c = EInt k) cols -> ETxt s ∉ cols.
Proof.
  intros H Hin. rewrite Forall_forall in H. destruct (H _ Hin) as [k Hk]. discriminate.
Qed.

Lemma sin_nombre_no_etiquetado (df : DataFrame) :
  Forall (fun c => exists k, c = EInt k) (columnas df) ->
  tiene_columna (ETxt "Producto") df && tiene_columna (ETxt "Precio de Costo") df = false.
Proof.
  intros H. unfold tiene_columna.
  rewrite (bool_decide_eq_false_2 _ (sin_nombre_no_texto _ "Producto" H)). reflexivity.
Qed.

(** X15.  On a grid without column names, a mapping whose product and price
    indices name the same column cannot be applied: the renamed frame has
    no "Producto" column, the cleanup raises, and the function goes on
    with the automatic inference on the rows left after [skip_rows]. *)
Theorem mapeo_misma_columna :
  forall (df : DataFrame) (m : Mapeo) (c : etiqueta),
    Forall (fun c => exists k, c = EInt k) (columnas df) ->
    filas df <> [] ->
    mapeo_presente m = true ->
    py_index (columnas df) (default (-1) (col_producto m)) = Some c ->
    py_index (columnas df) (default (-1) (col_precio m)) = Some c ->
    _procesar_dataframe_inteligente df (Some m) =
      modo_automatico (tras_skip df m) (length (filas df)).
Proof.
  intros df m c Hint Hfilas Hm Hp Hpr.
  unfold _procesar_dataframe_inteligente.
  rewrite (sin_nombre_no_etiquetado df Hint), Hm.
  destruct (filas df) as [|f0 fs] eqn:Ef; [contradiction|]. cbn [length Nat.eqb].
  unfold modo_manual. fold (tras_skip df m). rewrite columnas_tras_skip, Hp, Hpr.
  assert (Hb : (Z.of_nat (length (columnas df)) - 1 <? default (-1) (col_producto m))
               || (Z.of_nat (length (columnas df)) - 1 <? default (-1) (col_precio m))
               = false).
  { apply orb_false_iff. split; apply Z.ltb_ge; eapply py_index_Some_le; eassumption. }
  rewrite Hb. cbv zeta.
  set (mapa := if (0 <=? default (-1) (col_codigo m)) && _ then _ else _).
  assert (Hmapa : forall c', dict_get c' mapa <> Some "Producto").
  { intros c'. unfold mapa.
    destruct ((0 <=? default (-1) (col_codigo m)) && _);
      [destruct (py_index (columnas df) (default (-1) (col_codigo m))) as [cc|]|];
      cbn [dict_get app]; repeat case_decide; discriminate. }
  assert (Hno : ETxt "Producto" ∉ columnas (asegurar_codigo (renombrar mapa (tras_skip df m)))).
  { assert (Hr : ETxt "Producto" ∉ columnas (renombrar mapa (tras_skip df m))).
    { rewrite renombrar_columnas, columnas_tras_skip. intros Hin.
      apply list_elem_of_fmap in Hin as (c' & Hc' & Hin).
      destruct (dict_get c' mapa) as [s|] eqn:Ed; cbn [from_option] in Hc'.
      - injection Hc' as <-. apply (Hmapa c' Ed).
      - subst c'. apply (sin_nombre_no_texto _ _ Hint Hin). }
    unfold asegurar_codigo. destruct (tiene_columna _ _); [exact Hr|].
    cbn [columnas]. intros Hin. apply elem_of_app in Hin as [Hin|Hin]; [contradiction|].
    apply list_elem_of_singleton in Hin. discriminate. }
  unfold _limpieza_final. rewrite (get_loc_None _ _ Hno).
  destruct (get_loc (ETxt "Precio de Costo") _); reflexivity.
Qed.

Lemma mapeo_misma_columna_witness :
  _procesar_dataframe_inteligente grilla_codigo_producto_precio
    (Some {| col_producto := Some 2; col_precio := Some (-1);
             col_codigo := None; skip_rows := None |}) =
  modo_automatico grilla_codigo_producto_precio 3.
Proof.
  change (modo_automatico grilla_codigo_producto_precio 3)
    with (modo_automatico
            (tras_skip grilla_codigo_producto_precio
               {| col_producto := Some 2; col_precio := Some (-1);
                  col_codigo := None; skip_rows := None |})
            (length (filas grilla_codigo_producto_precio))).
  apply (mapeo_misma_columna grilla_codigo_producto_precio _ (EInt 2));
    [ repeat constructor; eexists; reflexivity | discriminate | reflexivity
    | reflexivity | reflexivity ].
Defined.

Lemma _limpieza_final_indices (df : DataFrame) (i_cod i_prod i_precio : nat) :
  get_loc (ETxt "Precio de Costo") (columnas df) = Some i_precio ->
  get_loc (ETxt "Producto") (columnas df) = Some i_prod ->
  get_loc (ETxt "Codigo") (columnas df) = Some i_cod ->
  _limpieza_final df = Some (omap (limpiar_fila i_cod i_prod i_precio) (filas df)).
Proof. intros H1 H2 H3. unfold _limpieza_final. rewrite H1, H2, H3. reflexivity. Qed.

(** X16.  On a grid without column names, with rows, a mapping whose
    product and price indices (negative ones counting from the last
    column, a missing one being -1) name two different columns is applied
    as it stands: the table is the cleanup of the rows left after
    [skip_rows], product and price read from those two columns.  The code
    is read from the column of [col_codigo] when that index lies between 0
    and the last column and names a third column; when it is negative,
    missing or past the last column, a column of empty texts is added and
    read as the code. *)
Theorem mapeo_manual_aplicado :
  forall (df : DataFrame) (m : Mapeo) (cp cpr : etiqueta) (ip ipr : nat),
    Forall (fun c => exists k, c = EInt k) (columnas df) ->
    filas df <> [] ->
    mapeo_presente m = true ->
    py_index (columnas df) (default (-1) (col_producto m)) = Some cp ->
    py_index (columnas df) (default (-1) (col_precio m)) = Some cpr ->
    cp <> cpr ->
    get_loc cp (columnas df) = Some ip ->
    get_loc cpr (columnas df) = Some ipr ->
    let idx_cod := default (-1) (col_codigo m) in
    let n := length (columnas df) in
    (forall (cc : etiqueta) (ic : nat),
        0 <= idx_cod ->
        columnas df !! Z.to_nat idx_cod = Some cc ->
        cc <> cp -> cc <> cpr ->
        get_loc cc (columnas df) = Some ic ->
        _procesar_dataframe_inteligente df (Some m) =
          Some (omap (limpiar_fila ic ip ipr) (filas (tras_skip df m)))) /\
    ((idx_cod < 0 \/ Z.of_nat n <= idx_cod) ->
        _procesar_dataframe_inteligente df (Some m) =
          Some (omap (limpiar_fila n ip ipr)
                  ((fun fila => fila ++ [""]) <$> filas (tras_skip df m)))).
Proof.
  intros df m cp cpr ip ipr Hint Hfilas Hm Hp Hpr Hne Hip Hipr idx_cod n.
  assert (Hstart :
    _procesar_dataframe_inteligente df (Some m) =
      match _limpieza_final (asegurar_codigo (renombrar
              (let mapa0 := [(cp, "Producto"); (cpr, "Precio de Costo")] in
               if (0 <=? idx_cod) && (idx_cod <=? Z.of_nat n - 1)
               then match py_index (columnas df) idx_cod with
                    | Some col_nombre_cod => mapa0 ++ [(col_nombre_cod, "Codigo")]
                    | None => mapa0
                    end
               else mapa0) (tras_skip df m))) with
      | Some t => Some t
      | None => modo_automatico (tras_skip df m) (length (filas df))
      end).
  { unfold _procesar_dataframe_inteligente.
    rewrite (sin_nombre_no_etiquetado df Hint), Hm.
    destruct (filas df) as [|f0 fs] eqn:Ef; [contradiction|]. cbn [length Nat.eqb].
    unfold modo_manual. fold (tras_skip df m). rewrite columnas_tras_skip, Hp, Hpr.
    assert (Hb : (Z.of_nat (length (columnas df)) - 1 <? default (-1) (col_producto m))
                 || (Z.of_nat (length (columnas df)) - 1 <? default (-1) (col_precio m))
                 = false).
    { apply orb_false_iff. split; apply Z.ltb_ge; eapply py_index_Some_le; eassumption. }
    rewrite Hb. cbv zeta. fold idx_cod. fold n.
    destruct (_limpieza_final _); reflexivity. }
  rewrite Hstart. clear Hstart. cbv zeta.
  assert (Hcp : cp ∈ columnas df) by (eapply py_index_elem; eassumption).
  assert (Hcpr : cpr ∈ columnas df) by (eapply py_index_elem; eassumption).
  assert (HnoT : forall s, ETxt s ∉ columnas df)
    by (intros s; apply sin_nombre_no_texto; exact Hint).
  split.
  - intros cc ic H0 Hcc Hc1 Hc2 Hic.
    assert (Hle : idx_cod <= Z.of_nat n - 1).
    { apply lookup_lt_Some in Hcc. unfold n. lia. }
    assert (Hb : (0 <=? idx_cod) && (idx_cod <=? Z.of_nat n - 1) = true).
    { apply andb_true_iff. split; apply Z.leb_le; assumption. }
    rewrite Hb.
    assert (Hpy : py_index (columnas df) idx_cod = Some cc).
    { unfold py_index. apply Z.leb_le in H0. rewrite H0. exact Hcc. }
    rewrite Hpy. cbn [app].
    set (mapa := [(cp, "Producto"); (cpr, "Precio de Costo"); (cc, "Codigo")]).
    set (f := fun c => from_option ETxt c (dict_get c mapa)).
    assert (Hf : forall c', c' ∈ columnas df ->
              f c' = (if decide (c' = cc) then ETxt "Codigo"
                      else if decide (c' = cpr) then ETxt "Precio de Costo"
                      else if decide (c' = cp) then ETxt "Producto" else c')).
    { intros c' _. unfold f, mapa. cbn [dict_get].
      repeat case_decide; subst; try congruence; reflexivity. }
    assert (Hcols : columnas (renombrar mapa (tras_skip df m)) = f <$> columnas df).
    { rewrite renombrar_columnas, columnas_tras_skip. reflexivity. }
    assert (Hcc' : cc ∈ columnas df) by (eapply list_elem_of_lookup_2; eassumption).
    assert (Hinj : forall c0 c', c0 ∈ columnas df -> c' ∈ columnas df ->
              (c0 = cp \/ c0 = cpr \/ c0 = cc) -> f c' = f c0 -> c' = c0).
    { intros c0 c' Hc0 Hc' Hcase. rewrite (Hf c' Hc'), (Hf c0 Hc0).
      destruct (Forall_forall (fun c => exists k, c = EInt k) (columnas df)) as [Hall _].
      destruct (Hall Hint c' Hc') as [k' ->].
      destruct Hcase as [-> | [-> | ->]]; repeat case_decide; subst;
        try congruence; try discriminate. }
    assert (G1 : get_loc (ETxt "Producto") (f <$> columnas df) = Some ip).
    { replace (ETxt "Producto") with (f cp).
      - apply get_loc_fmap; [exact Hip|]. intros c' Hc'. apply Hinj; auto.
      - rewrite (Hf cp Hcp). repeat case_decide; congruence. }
    assert (G2 : get_loc (ETxt "Precio de Costo") (f <$> columnas df) = Some ipr).
    { replace (ETxt "Precio de Costo") with (f cpr).
      - apply get_loc_fmap; [exact Hipr|]. intros c' Hc'. apply Hinj; auto.
      - rewrite (Hf cpr Hcpr). repeat case_decide; congruence. }
    assert (G3 : get_loc (ETxt "Codigo") (f <$> columnas df) = Some ic).
    { replace (ETxt "Codigo") with (f cc).
      - apply get_loc_fmap; [exact Hic|]. intros c' Hc'. apply Hinj; auto.
      - rewrite (Hf cc Hcc'). repeat case_decide; congruence. }
    assert (Has : asegurar_codigo (renombrar mapa (tras_skip df m)) =
                  renombrar mapa (tras_skip df m)).
    { unfold asegurar_codigo, tiene_columna. rewrite Hcols.
      rewrite bool_decide_eq_true_2; [reflexivity|].
      destruct (get_loc (ETxt "Codigo") (f <$> columnas df)) eqn:E; [|discriminate].
      destruct (decide (ETxt "Codigo" ∈ f <$> columnas df)) as [Hin|Hnin]; [exact Hin|].
      rewrite (get_loc_None _ _ Hnin) in E. discriminate. }
    rewrite Has.
    rewrite (_limpieza_final_indices (renombrar mapa (tras_skip df m)) ic ip ipr);
      [reflexivity | rewrite Hcols; exact G2 | rewrite Hcols; exact G1
      | rewrite Hcols; exact G3].
  - intros Hout.
    assert (Hb : (0 <=? idx_cod) && (idx_cod <=? Z.of_nat n - 1) = false).
    { apply andb_false_iff. destruct Hout as [H|H];
        [left; apply Z.leb_gt; exact H | right; apply Z.leb_gt; lia]. }
    rewrite Hb.
    set (mapa := [(cp, "Producto"); (cpr, "Precio de Costo")]).
    set (f := fun c => from_option ETxt c (dict_get c mapa)).
    assert (Hf : forall c', c' ∈ columnas df ->
              f c' = (if decide (c' = cpr) then ETxt "Precio de Costo"
                      else if decide (c' = cp) then ETxt "Producto" else c')).
    { intros c' _. unfold f, mapa. cbn [dict_get].
      repeat case_decide; subst; try congruence; reflexivity. }
    assert (Hcols : columnas (renombrar mapa (tras_skip df m)) = f <$> columnas df).
    { rewrite renombrar_columnas, columnas_tras_skip. reflexivity. }
    assert (Hinj : forall c0 c', c0 ∈ columnas df -> c' ∈ columnas df ->
              (c0 = cp \/ c0 = cpr) -> f c' = f c0 -> c' = c0).
    { intros c0 c' Hc0 Hc' Hcase. rewrite (Hf c' Hc'), (Hf c0 Hc0).
      destruct (Forall_forall (fun c => exists k, c = EInt k) (columnas df)) as [Hall _].
      destruct (Hall Hint c' Hc') as [k' ->].
      destruct Hcase as [-> | ->]; repeat case_decide; subst;
        try congruence; try discriminate. }
    assert (G1 : get_loc (ETxt "Producto") (f <$> columnas df) = Some ip).
    { replace (ETxt "Producto") with (f cp).
      - apply get_loc_fmap; [exact Hip|]. intros c' Hc'. apply Hinj; auto.
      - rewrite (Hf cp Hcp). repeat case_decide; congruence. }
    assert (G2 : get_loc (ETxt "Precio de Costo") (f <$> columnas df) = Some ipr).
    { replace (ETxt "Precio de Costo") with (f cpr).
      - apply get_loc_fmap; [exact Hipr|]. intros c' Hc'. apply Hinj; auto.
      - rewrite (Hf cpr Hcpr). repeat case_decide; congruence. }
    assert (Hnc : ETxt "Codigo" ∉ f <$> columnas df).
    { intros Hin. apply list_elem_of_fmap in Hin as (c' & Hc' & Hin).
      rewrite (Hf c' Hin) in Hc'.
      repeat case_decide; try discriminate. subst c'. apply (HnoT _ Hin). }
    assert (Has : asegurar_codigo (renombrar mapa (tras_skip df m)) =
                  {| columnas := (f <$> columnas df) ++ [ETxt "Codigo"];
                     filas := (fun fila => fila ++ [""]) <$> filas (tras_skip df m) |}).
    { unfold asegurar_codigo, tiene_columna. rewrite Hcols.
      rewrite bool_decide_eq_false_2 by exact Hnc. reflexivity. }
    rewrite Has.
    rewrite (_limpieza_final_indices _ n ip ipr); [reflexivity | | |]; cbn [columnas].
    + apply get_loc_app_l. exact G2.
    + apply get_loc_app_l. exact G1.
    + rewrite (get_loc_app_r _ _ Hnc), length_fmap. reflexivity.
Qed.

Lemma mapeo_manual_aplicado_witness :
  _procesar_dataframe_inteligente grilla_codigo_producto_precio (Some mapeo_completo) =
    Some (omap (limpiar_fila 0 1 2) (filas (tras_skip grilla_codigo_producto_precio mapeo_completo))) /\
  fmap (M := option) (fmap (M := list) (fun r => (Codigo r, Producto r)))
    (_procesar_dataframe_inteligente grilla_codigo_producto_precio (Some mapeo_completo)) =
    Some [("1002", "Taladro percutor"); ("1003", "Maza de goma")].
Proof.
  split.
  - destruct (mapeo_manual_aplicado grilla_codigo_producto_precio mapeo_completo
                (EInt 1) (EInt 2) 1 2) as [H _];
      [ repeat constructor; eexists; reflexivity | discriminate | reflexivity
      | reflexivity | reflexivity | discriminate | reflexivity | reflexivity | ].
    apply (H (EInt 0) 0%nat); [cbn; lia | reflexivity | discriminate | discriminate | reflexivity].
  - vm_compute. reflexivity.
Defined.

(** ** The final cleanup: its error and its code cells *)

Lemma get_loc_Some_iff (c : etiqueta) (cols : list etiqueta) :
  is_Some (get_loc c cols) <-> c ∈ cols.
Proof.
  split; [|apply get_loc_elem].
  intros [i Hi]. destruct (decide (c ∈ cols)) as [H|H]; [exact H|].
  rewrite (get_loc_None _ _ H) in Hi. discriminate.
Qed.

Lemma omap_length_le {A B} (f : A -> option B) (l : list A) :
  (length (omap f l) <= length l)%nat.
Proof.
  induction l as [|x l IH]; [reflexivity|].
  cbn [omap list_omap]. fold (omap f l).
  destruct (f x); cbn [length]; lia.
Qed.

(** X17.  [_limpieza_final] raises exactly when the frame lacks one of the
    columns "Precio de Costo", "Producto" and "Codigo"; the content of the
    rows never makes it raise, and it returns at most as many rows as it is
    given. *)
Theorem _limpieza_final_error :
  forall (df_final : DataFrame),
    (_limpieza_final df_final = None <->
       ~ (ETxt "Precio de Costo" ∈ columnas df_final /\
          ETxt "Producto" ∈ columnas df_final /\
          ETxt "Codigo" ∈ columnas df_final)) /\
    (forall t : list Fila,
       _limpieza_final df_final = Some t -> (length t <= length (filas df_final))%nat).
Proof.
  intros df. unfold _limpieza_final.
  pose proof (get_loc_Some_iff (ETxt "Precio de Costo") (columnas df)) as H1.
  pose proof (get_loc_Some_iff (ETxt "Producto") (columnas df)) as H2.
  pose proof (get_loc_Some_iff (ETxt "Codigo") (columnas df)) as H3.
  destruct (get_loc (ETxt "Precio de Costo") (columnas df)) as [ip|];
    cbn [mbind option_bind].
  2:{ split; [|discriminate]. split; [|reflexivity].
      intros _ (H & _). apply H1 in H. destruct H; discriminate. }
  destruct (get_loc (ETxt "Producto") (columnas df)) as [ipr|]; cbn [mbind option_bind].
  2:{ split; [|discriminate]. split; [|reflexivity].
      intros _ (_ & H & _). apply H2 in H. destruct H; discriminate. }
  destruct (get_loc (ETxt "Codigo") (columnas df)) as [ic|]; cbn [mbind option_bind].
  2:{ split; [|discriminate]. split; [|reflexivity].
      intros _ (_ & _ & H). apply H3 in H. destruct H; discriminate. }
  split.
  - split; [discriminate|]. intros H. exfalso. apply H.
    split; [apply H1; eauto | split; [apply H2; eauto | apply H3; eauto]].
  - intros t [= <-]. apply omap_length_le.
Qed.

Lemma _limpieza_final_error_witness :
  _limpieza_final {| columnas := [ETxt "Producto"; ETxt "Precio de Costo"];
                     filas := [ ["Martillo de bola"; "1.500,50"] ] |} = None /\
  (length [ {| Codigo := ""; Producto := "Amoladora angular"; Precio_de_Costo := 108200 # 1 |};
            {| Codigo := ""; Producto := "Pinza universal"; Precio_de_Costo := 30864 # 25 |} ]
   <= length (filas (asegurar_codigo tabla_taller)))%nat.
Proof.
  split.
  - apply (_limpieza_final_error {| columnas := [ETxt "Producto"; ETxt "Precio de Costo"];
                                    filas := [ ["Martillo de bola"; "1.500,50"] ] |}).
    intros (_ & _ & H). repeat (apply elem_of_cons in H as [H|H]; [discriminate|]).
    inversion H.
  - apply (_limpieza_final_error (asegurar_codigo tabla_taller)). vm_compute. reflexivity.
Defined.

Lemma limpiar_codigo_limpio (c : string) :
  limpiar_codigo c <> "nan" /\ Texto.strip (limpiar_codigo c) = limpiar_codigo c.
Proof.
  unfold limpiar_codigo. destruct (String.eqb (Texto.strip c) "nan") eqn:E.
  - split; [discriminate | reflexivity].
  - apply String.eqb_neq in E. split; [exact E | apply strip_idem].
Qed.

(** X18.  In every table that the inference returns, whatever the path,
    the code of a row is trimmed and is never the text "nan": a cell that
    reads "nan" once trimmed gives the empty code. *)
Theorem codigo_limpio :
  forall (df : DataFrame) (mapeo_manual : option Mapeo) (t : list Fila),
    _procesar_dataframe_inteligente df mapeo_manual = Some t ->
    Forall (fun r => Codigo r <> "nan" /\ Texto.strip (Codigo r) = Codigo r) t.
Proof.
  assert (Hl : forall df t, _limpieza_final df = Some t ->
            Forall (fun r => Codigo r <> "nan" /\ Texto.strip (Codigo r) = Codigo r) t).
  { intros df t. unfold _limpieza_final.
    destruct (get_loc (ETxt "Precio de Costo") _) as [ip|]; [|discriminate].
    destruct (get_loc (ETxt "Producto") _) as [ipr|]; [|discriminate].
    destruct (get_loc (ETxt "Codigo") _) as [ic|]; [|discriminate].
    cbn [mbind option_bind].
    intros [= <-]. apply Forall_forall. intros r Hr.
    apply list_elem_of_omap in Hr as (fila & _ & Hf). unfold limpiar_fila in Hf.
    destruct (limpiar_precio _); [|discriminate]. cbn [mbind option_bind] in Hf.
    destruct (_ <? _)%nat; [|discriminate]. injection Hf as <-. cbn [Codigo].
    apply limpiar_codigo_limpio. }
  assert (Ha : forall df n t, modo_automatico df n = Some t ->
            Forall (fun r => Codigo r <> "nan" /\ Texto.strip (Codigo r) = Codigo r) t).
  { intros df n t. unfold modo_automatico.
    destruct (puntuar_columnas df n) as [[|s scores]|]; cbn [mbind option_bind];
      [intros [= <-]; constructor | | discriminate].
    destruct (elegir_columnas _ _) as [[[cp cpr] cc]|]; [|intros [= <-]; constructor].
    destruct (_ || _); [intros [= <-]; constructor|]. apply Hl. }
  intros df mapeo_manual t. unfold _procesar_dataframe_inteligente.
  destruct (_ && _); [apply Hl|].
  destruct (_ =? _)%nat; [intros [= <-]; constructor|].
  destruct mapeo_manual as [m|]; [|apply Ha].
  destruct (mapeo_presente m); [|apply Ha].
  destruct (modo_manual df m) as [t'|df'] eqn:Em; [|apply Ha].
  intros [= <-]. unfold modo_manual in Em.
  destruct (_ || _); [injection Em as <-; constructor|].
  destruct (py_index _ _); [|discriminate].
  destruct (py_index _ _); [|discriminate].
  destruct (_limpieza_final _) as [t''|] eqn:El; [|discriminate].
  injection Em as <-. apply (Hl _ _ El).
Qed.

Lemma codigo_limpio_witness :
  fmap (M := option) (fmap (M := list) Codigo)
    (_procesar_dataframe_inteligente
       {| columnas := [ETxt "Codigo"; ETxt "Producto"; ETxt "Precio de Costo"];
          filas := [ ["nan"; "Martillo de bola"; "1.500,50"];
                     [" A-17 "; "Taladro percutor"; "17.684,21"] ] |} None)
    = Some [""; "A-17"] /\
  Forall (fun r => Codigo r <> "nan" /\ Texto.strip (Codigo r) = Codigo r)
    [ {| Codigo := ""; Producto := "Amoladora angular"; Precio_de_Costo := 108200 # 1 |};
      {| Codigo := ""; Producto := "Pinza universal"; Precio_de_Costo := 30864 # 25 |} ].
Proof.
  split; [vm_compute; reflexivity|].
  apply (codigo_limpio tabla_taller None). vm_compute. reflexivity.
Defined.

(** ** The normaliser: no comma reaches the parser *)

Lemma contains_caracter_any (d : ascii) (s : string) :
  Texto.contains (String d "") s = Texto.any (fun a => Ascii.eqb a d) s.
Proof.
  induction s as [|a s IH]; [reflexivity|].
  rewrite contains_caracter, IH. reflexivity.
Qed.

Lemma any_app (p : ascii -> bool) (s t : string) :
  Texto.any p (s +:+ t) = Texto.any p s || Texto.any p t.
Proof.
  induction s as [|a s IH]; [reflexivity|].
  rewrite app_cons. cbn [Texto.any]. rewrite IH. apply orb_assoc.
Qed.

(** Replacing one character brings in only the characters of the new
    text. *)
Lemma any_replace_caracter (p : ascii -> bool) (c : ascii) (new s : string) :
  Texto.any p new = false ->
  Texto.any (fun a => p a && negb (Ascii.eqb a c)) s = false ->
  Texto.any p (Texto.replace (String c "") new s) = false.
Proof.
  intros Hn. unfold Texto.replace.
  induction s as [|a s IH]; intros Hs; [reflexivity|].
  cbn [Texto.any] in Hs. apply orb_false_iff in Hs as [Ha Hs].
  cbn [Texto.replace_go Texto.startswith String.length Nat.pred].
  destruct (Ascii.eqb c a) eqn:E.
  - assert (Hr : Texto.any p (new +:+ Texto.replace_go (String c "") new 0 s) = false).
    { rewrite any_app, Hn, (IH Hs). reflexivity. }
    destruct s; exact Hr.
  - cbn [Texto.any]. rewrite (IH Hs), orb_false_r.
    rewrite Ascii.eqb_sym, E in Ha. cbn [negb] in Ha. rewrite andb_true_r in Ha. exact Ha.
Qed.

Lemma any_and_false_l (p q : ascii -> bool) (s : string) :
  Texto.any p s = false -> Texto.any (fun a => p a && q a) s = false.
Proof.
  induction s as [|a s IH]; [reflexivity|]. cbn [Texto.any].
  intros H. apply orb_false_iff in H as [Ha Hs]. rewrite Ha, (IH Hs). reflexivity.
Qed.

Lemma any_eqb_neg (c : ascii) (s : string) :
  Texto.any (fun a => Ascii.eqb a c && negb (Ascii.eqb a c)) s = false.
Proof.
  induction s as [|a s IH]; [reflexivity|]. cbn [Texto.any].
  rewrite IH. destruct (Ascii.eqb a c); reflexivity.
Qed.

(** X19.  Whatever the token, the text that [limpiar_precio] hands to
    [float] holds no comma: every comma is either removed as a thousand
    separator or turned into the decimal point. *)
Theorem normalizar_separadores_sin_coma :
  forall (val : string),
    Texto.contains "," (normalizar_separadores val) = false.
Proof.
  intros val. rewrite contains_caracter_any. unfold normalizar_separadores.
  destruct (Texto.contains "," val) eqn:Ec; cbn [andb].
  - destruct (Texto.contains "." val); [destruct (_ >? _)|];
      apply any_replace_caracter; try reflexivity; apply any_eqb_neg.
  - rewrite contains_caracter_any in Ec.
    destruct (Texto.contains "." val); [|exact Ec].
    destruct (_ && _); [|exact Ec].
    apply any_replace_caracter; [reflexivity|]. apply any_and_false_l. exact Ec.
Qed.

(** ** The mobile engine: its search *)

Lemma recorrer_primeros (m : MotorMobileLite.Motor) (consulta : string) (limite : Z)
  (ps : list MotorMobileLite.Item) (resultados : list (MotorMobileLite.Item * Binary64.t)) :
  (length resultados < Z.to_nat (Z.max 1 limite))%nat ->
  MotorMobileLite.recorrer m consulta limite ps resultados =
    resultados ++
    ((fun p => (p, MotorMobileLite._calcular_precio_final m p)) <$>
       take (Z.to_nat (Z.max 1 limite) - length resultados)
         (filter (fun p => coincide_lite consulta p = true) ps)).
Proof.
  revert resultados. induction ps as [|p ps IH]; intros resultados Hlt.
  - cbn [MotorMobileLite.recorrer]. rewrite filter_nil, take_nil. cbn.
    symmetry. apply app_nil_r.
  - cbn [MotorMobileLite.recorrer]. rewrite filter_cons.
    fold (coincide_lite consulta p).
    destruct (coincide_lite consulta p) eqn:E.
    + rewrite decide_True by reflexivity.
      destruct (Z.to_nat (Z.max 1 limite) - length resultados)%nat as [|k] eqn:Ek; [lia|].
      cbn [take fmap list_fmap].
      destruct (limite <=? Z.of_nat (length (resultados ++ [_]))) eqn:El.
      * apply Z.leb_le in El. rewrite length_app in El. cbn [length] in El.
        assert (k = 0)%nat as -> by lia. rewrite take_0. reflexivity.
      * apply Z.leb_gt in El. rewrite length_app in El. cbn [length] in El.
        rewrite IH by (rewrite length_app; cbn [length]; lia).
        replace (Z.to_nat (Z.max 1 limite) - length (resultados ++ [(p, MotorMobileLite._calcular_precio_final m p)]))%nat
          with k by (rewrite length_app; cbn [length]; lia).
        rewrite <- app_assoc. reflexivity.
    + rewrite decide_False by discriminate. apply IH. exact Hlt.
Qed.

(** X20.  For a query that is not empty once lowered and trimmed, the
    mobile search returns, in database order and each with its current
    price, the first [limite] items that hold the query in their product,
    code or supplier; for a limit of zero or less it still returns the
    first such item. *)
Theorem buscar_producto_lite_primeros :
  forall (m : MotorMobileLite.Motor) (consulta : string) (limite : Z),
    Texto.strip (Texto.lower consulta) <> "" ->
    MotorMobileLite.buscar_producto m consulta limite =
      (fun p => (p, MotorMobileLite._calcular_precio_final m p)) <$>
        take (Z.to_nat (Z.max 1 limite))
          (filter (fun p => coincide_lite (Texto.strip (Texto.lower consulta)) p = true)
             (MotorMobileLite.productos m)).
Proof.
  intros m consulta limite Hq. unfold MotorMobileLite.buscar_producto.
  apply String.eqb_neq in Hq. rewrite Hq.
  rewrite recorrer_primeros by (cbn [length]; lia).
  cbn [app length]. rewrite Nat.sub_0_r. reflexivity.
Qed.

Lemma buscar_producto_lite_primeros_witness :
  MotorMobileLite.buscar_producto motor_lite "MARTILLO" 0 =
    (fun p => (p, MotorMobileLite._calcular_precio_final motor_lite p)) <$>
      take 1 (filter (fun p => coincide_lite "martillo" p = true)
                (MotorMobileLite.productos motor_lite)) /\
  length (MotorMobileLite.buscar_producto motor_lite "MARTILLO" 0) = 1%nat.
Proof.
  split.
  - apply (buscar_producto_lite_primeros motor_lite "MARTILLO" 0). discriminate.
  - vm_compute. reflexivity.
Defined.

(** ** Reading a PDF *)

Lemma fila_taller_Some (row : list (option string)) (prod prec : string) :
  fila_taller row = Some (prod, prec) ->
  Texto.strip prod = prod /\ (5 <= String.length prod)%nat /\
  Forall (fun b => Texto.contains b (Texto.lower prod) = false) basura /\
  Texto.lower prec ∉ ["none"; ""; "nan"].
Proof.
  unfold fila_taller. intros H.
  destruct (length row <? 2)%nat; [discriminate|].
  destruct (omap id row) as [|c0 [|c1 resto]] eqn:E; cbn [fmap list_fmap] in H; try discriminate.
  set (p := Texto.strip (Texto.replace salto_de_linea " " c0)) in *.
  match type of H with
  | (if (_ || bool_decide (Texto.lower ?q ∈ _)) then _ else _) = _ => set (pr := q) in *
  end.
  destruct (String.length p <? 5)%nat eqn:El; [discriminate|].
  cbn [orb] in H. case_bool_decide as Hn; [discriminate|].
  destruct (existsb _ basura) eqn:Eb; [discriminate|].
  injection H as <- <-.
  split; [apply strip_idem|]. split; [apply Nat.ltb_ge in El; exact El|].
  split; [|exact Hn].
  apply Forall_forall. intros b Hb.
  destruct (Texto.contains b (Texto.lower p)) eqn:Ec; [|reflexivity].
  assert (existsb (fun b => Texto.contains b (Texto.lower p)) basura = true) as Ht.
  { apply existsb_exists. exists b. split; [|exact Ec]. apply list_elem_of_In, Hb. }
  rewrite Ht in Eb. discriminate.
Qed.

(** X21.  The El Taller extractor followed by the inference: whatever the
    pages hold and whatever manual mapping accompanies the file, the
    inference returns (it takes the labelled-frame short cut and never
    looks at the mapping), and every row of the table has a positive
    price, an empty code, a product of five characters or more and no
    noise word of [basura] in its lowered product. *)
Theorem _leer_pdf_taller_procesado (pdf : list Pagina) :
  exists t : list Fila,
    (forall mapeo_manual : option Mapeo,
       _procesar_dataframe_inteligente (_leer_pdf_taller pdf) mapeo_manual = Some t) /\
    Forall (fun f => (0 < Precio_de_Costo f)%Q /\ Codigo f = "" /\
                     (5 <= String.length (Producto f))%nat /\
                     Forall (fun b => Texto.contains b (Texto.lower (Producto f)) = false) basura) t.
Proof.
  set (pares := omap fila_taller (concat (concat (extract_tables <$> pdf)))).
  exists (omap (limpiar_fila 2 0 1)
            ((fun fila => fila ++ [""]) <$> ((fun pq : string * string => [pq.1; pq.2]) <$> pares))).
  split.
  - intros mapeo_manual. reflexivity.
  - apply Forall_forall. intros f Hf.
    apply list_elem_of_omap in Hf as (fila & Hfila & Hf).
    apply list_elem_of_fmap in Hfila as (fila' & -> & Hfila).
    apply list_elem_of_fmap in Hfila as ([p q] & -> & Hpq).
    apply list_elem_of_omap in Hpq as (row & _ & Hrow).
    apply fila_taller_Some in Hrow as (Hs & Hl & Hb & _).
    cbn [fst snd app] in Hf. unfold limpiar_fila in Hf. cbn [celda nth] in Hf.
    destruct (limpiar_precio q) as [precio|] eqn:Ep; [|discriminate].
    cbn [mbind option_bind] in Hf. rewrite Hs in Hf.
    destruct (1 <? String.length p)%nat; [|discriminate].
    injection Hf as <-. cbn [Precio_de_Costo Codigo Producto].
    split; [exact (limpiar_precio_positivo q precio Ep)|].
    split; [reflexivity|]. split; assumption.
Qed.

(** ** The general PDF extractor *)

Lemma ancho_cota (tabla : Tabla) (row : list (option string)) :
  row ∈ tabla -> (length row <= ancho tabla)%nat.
Proof.
  unfold ancho. induction tabla as [|r tabla IH]; intros Hin.
  - apply elem_of_nil in Hin. contradiction.
  - rewrite fmap_cons. cbn [foldr]. apply elem_of_cons in Hin as [-> | Hin]; [lia|].
    specialize (IH Hin). lia.
Qed.

Lemma ancho_constante (tabla : Tabla) (n : nat) :
  tabla <> [] -> Forall (fun row => length row = n) tabla -> ancho tabla = n.
Proof.
  unfold ancho. intros Hne Hall. induction Hall as [|r tabla Hr Hall IH]; [contradiction|].
  rewrite fmap_cons. cbn [foldr]. destruct tabla as [|r' tabla].
  - cbn. lia.
  - assert (H : r' :: tabla <> []) by discriminate. specialize (IH H). lia.
Qed.

Lemma length_rellenar {A} (x : A) (n : nat) (row : list A) :
  (length row <= n)%nat -> length (rellenar x n row) = n.
Proof. unfold rellenar. intros H. rewrite length_app, length_replicate. lia. Qed.

Lemma filtrar_tabla_None (ref ref' : nat) (tabla : Tabla) :
  filtrar_tabla ref tabla = (ref', None) -> ref' = ref.
Proof.
  unfold filtrar_tabla. destruct tabla as [|r0 tabla]; [congruence|].
  set (n := ancho (r0 :: tabla)).
  destruct (_ || _); [congruence|].
  destruct (filter _ _) as [|f0 fs]; [congruence|].
  destruct (length _ <? 1)%nat; [congruence|].
  destruct (ref =? 0)%nat eqn:E0.
  - destruct (0 <? n)%nat; cbn [andb]; [|discriminate].
    destruct (2 * n <? n)%nat eqn:E; [|discriminate].
    apply Nat.ltb_lt in E. lia.
  - destruct (_ && _); congruence.
Qed.

Lemma filtrar_tabla_Some (ref ref' : nat) (tabla df : Tabla) :
  filtrar_tabla ref tabla = (ref', Some df) ->
  df <> [] /\ (2 <= ancho df)%nat /\
  ref' = (if (ref =? 0)%nat then ancho df else ref) /\
  (ref' <= 2 * ancho df)%nat /\
  Forall (fun row => length row = ancho df /\ existsb con_contenido row = true /\
                     fila_a_eliminar (ancho df) row = false) df.
Proof.
  unfold filtrar_tabla. destruct tabla as [|r0 tabla]; [congruence|].
  set (t := r0 :: tabla). set (n := ancho t).
  destruct (n <? 2)%nat eqn:En; [cbn [orb]; congruence|]. cbn [orb].
  destruct (length _ <? 1)%nat; [congruence|].
  set (f2 := filter _ (rellenar None n <$> t)).
  destruct f2 as [|f0 fs] eqn:Ef2; [congruence|]. rewrite <- Ef2.
  set (f3 := filter _ f2).
  destruct (length f3 <? 1)%nat eqn:El; [congruence|].
  set (r := if (ref =? 0)%nat then n else ref).
  destruct (0 <? r)%nat eqn:Er; cbn [andb].
  2:{ intros H. exfalso. apply Nat.ltb_ge in Er. apply Nat.ltb_ge in En.
      subst r. destruct (ref =? 0)%nat eqn:E0; [lia|]. apply Nat.eqb_neq in E0. lia. }
  destruct (2 * n <? r)%nat eqn:E2; [congruence|].
  intros H. injection H as <- <-.
  assert (Hall : Forall (fun row => length row = n /\ existsb con_contenido row = true /\
                                    fila_a_eliminar n row = false) f3).
  { apply Forall_forall. intros row Hrow.
    apply list_elem_of_filter in Hrow as [H3 Hrow]. subst f2.
    apply list_elem_of_filter in Hrow as [H2 Hrow].
    apply list_elem_of_fmap in Hrow as (row0 & -> & Hrow0).
    split; [|split; assumption].
    apply length_rellenar. apply ancho_cota. exact Hrow0. }
  assert (Hne : f3 <> []).
  { intros E. rewrite E in El. discriminate. }
  assert (Ha : ancho f3 = n).
  { apply ancho_constante; [exact Hne|]. eapply Forall_impl; [exact Hall|].
    intros row (H & _). exact H. }
  rewrite Ha. apply Nat.ltb_ge in En, E2.
  repeat split; assumption.
Qed.

Lemma filtrar_tablas_elem (ref : nat) (tablas : list Tabla) (df : Tabla) :
  df ∈ filtrar_tablas ref tablas ->
  exists ref0 ref1 tabla, tabla ∈ tablas /\ filtrar_tabla ref0 tabla = (ref1, Some df).
Proof.
  revert ref. induction tablas as [|tabla tablas IH]; intros ref Hin.
  - apply elem_of_nil in Hin. contradiction.
  - cbn [filtrar_tablas] in Hin.
    destruct (filtrar_tabla ref tabla) as [ref1 [d|]] eqn:E.
    + apply elem_of_cons in Hin as [-> | Hin].
      * exists ref, ref1, tabla. split; [left|exact E].
      * destruct (IH _ Hin) as (r0 & r1 & t & Ht & Hf).
        exists r0, r1, t. split; [right; exact Ht|exact Hf].
    + destruct (IH _ Hin) as (r0 & r1 & t & Ht & Hf).
      exists r0, r1, t. split; [right; exact Ht|exact Hf].
Qed.

(** X22.  Every table that the general extractor accepts has a row and two
    columns or more; each of its rows is as long as the table is wide, has
    a cell with content, is not a repeated header (fewer than half of its
    non-empty cells hold a header keyword) and is not a section title. *)
Theorem tablas_aceptadas_filtradas (pdf : list Pagina) (df : Tabla) :
  df ∈ tablas_aceptadas pdf ->
  df <> [] /\ (2 <= ancho df)%nat /\
  Forall (fun row => length row = ancho df /\
                     existsb con_contenido row = true /\
                     es_encabezado row = false /\
                     es_titulo (ancho df) row = false) df.
Proof.
  unfold tablas_aceptadas. intros Hin.
  apply filtrar_tablas_elem in Hin as (r0 & r1 & t & _ & Hf).
  apply filtrar_tabla_Some in Hf as (Hne & Hn & _ & _ & Hall).
  split; [exact Hne|]. split; [exact Hn|].
  eapply Forall_impl; [exact Hall|].
  intros row (Hl & Hc & He). unfold fila_a_eliminar in He.
  apply orb_false_elim in He as [He Ht]. apply orb_false_elim in He as [_ He].
  repeat split; assumption.
Qed.

Lemma filtrar_tablas_referencia (ref : nat) (tablas : list Tabla) :
  (0 < ref)%nat ->
  Forall (fun df => (ref <= 2 * ancho df)%nat) (filtrar_tablas ref tablas).
Proof.
  intros Hr. revert ref Hr. induction tablas as [|tabla tablas IH]; intros ref Hr.
  - constructor.
  - cbn [filtrar_tablas].
    destruct (filtrar_tabla ref tabla) as [ref1 [d|]] eqn:E.
    + apply filtrar_tabla_Some in E as (_ & _ & E1 & E2 & _).
      destruct (ref =? 0)%nat eqn:E0; [apply Nat.eqb_eq in E0; lia|]. subst ref1.
      constructor; [exact E2|]. apply IH. exact Hr.
    + apply filtrar_tabla_None in E. subst ref1. apply IH. exact Hr.
Qed.

(** X23.  The first accepted table fixes the reference column count: every
    table accepted after it is at least half as wide. *)
Theorem tablas_aceptadas_referencia (pdf : list Pagina) (primera : Tabla) (resto : list Tabla) :
  tablas_aceptadas pdf = primera :: resto ->
  Forall (fun df => (ancho primera <= 2 * ancho df)%nat) resto.
Proof.
  unfold tablas_aceptadas. generalize (concat (tablas_de_pagina <$> pdf)) as tablas.
  induction tablas as [|tabla tablas IH]; intros H.
  - discriminate.
  - cbn [filtrar_tablas] in H.
    destruct (filtrar_tabla 0 tabla) as [ref1 [d|]] eqn:E.
    + injection H as -> <-.
      apply filtrar_tabla_Some in E as (_ & Hn & E1 & _ & _).
      cbn [Nat.eqb] in E1. subst ref1.
      apply filtrar_tablas_referencia. lia.
    + apply filtrar_tabla_None in E. subst ref1. apply IH. exact H.
Qed.

Section RescateProps.

Variable patron_producto : string -> option (string * string * string).
Variable patron_numerico : string -> option (string * string * string).
Variable patron_sin_codigo : string -> option (string * string).

Local Abbreviation rescatar := (rescatar_linea patron_producto patron_numerico patron_sin_codigo).
Local Abbreviation raw := (filas_raw patron_producto patron_numerico patron_sin_codigo).

Lemma rescatar_linea_Some (linea : string) (fila : list string) :
  rescatar linea = Some fila ->
  exists codigo desc precio,
    fila = [codigo; desc; precio] /\ (precio ∉ ["0,00"; "0,0"; "0"]) /\ Texto.strip desc = desc.
Proof.
  unfold rescatar_linea. set (l := Texto.strip linea). intros H.
  destruct (_ || _); [discriminate|].
  destruct (patron_producto l) as [[[codigo g2] precio]|].
  { destruct (String.eqb precio "0") eqn:E0; [discriminate|]. cbn [orb] in H.
    destruct (_ <? 3)%nat; [discriminate|].
    case_bool_decide as Hn; [discriminate|]. injection H as <-.
    exists codigo, (Texto.strip g2), precio.
    split; [reflexivity|]. split; [|apply strip_idem].
    apply String.eqb_neq in E0. intros Hin.
    rewrite !elem_of_cons, elem_of_nil in Hin.
    destruct Hin as [-> | [-> | [-> | []]]];
      [apply Hn; left | apply Hn; right; left | contradiction]. }
  destruct (patron_numerico l) as [[[g1 g2] precio]|].
  { unfold precio_nulo in H. case_bool_decide as Hn; [discriminate|]. injection H as <-.
    exists g1, (Texto.strip g2), precio.
    split; [reflexivity|]. split; [exact Hn|apply strip_idem]. }
  destruct (patron_sin_codigo l) as [[g1 precio]|]; [|discriminate].
  destruct (tiene_keyword _); [discriminate|].
  destruct (_ <? 5)%nat; [discriminate|]. cbn [orb] in H.
  unfold precio_nulo in H. case_bool_decide as Hn; [discriminate|]. injection H as <-.
  exists "", (Texto.strip g1), precio.
  split; [reflexivity|]. split; [exact Hn|apply strip_idem].
Qed.

(** X24.  Whatever the three patterns match, a row salvaged from the text
    has exactly three cells (code, description, price), its price is none
    of "0", "0,0", "0,00", and its description is trimmed. *)
Theorem filas_raw_forma (pdf : list Pagina) (fila : list string) :
  fila ∈ raw pdf ->
  exists codigo desc precio,
    fila = [codigo; desc; precio] /\ (precio ∉ ["0,00"; "0,0"; "0"]) /\ Texto.strip desc = desc.
Proof.
  unfold filas_raw. intros Hin.
  apply list_elem_of_omap in Hin as (linea & _ & Hl).
  exact (rescatar_linea_Some linea fila Hl).
Qed.

Lemma max_cols_cota (dfs : list Tabla) (df : Tabla) :
  df ∈ dfs -> (ancho df <= foldr Nat.max O (ancho <$> dfs))%nat.
Proof.
  induction dfs as [|d dfs IH]; intros Hin.
  - apply elem_of_nil in Hin. contradiction.
  - rewrite fmap_cons. cbn [foldr]. apply elem_of_cons in Hin as [-> | Hin]; [lia|].
    specialize (IH Hin). lia.
Qed.

Lemma concatenar_rectangular (dfs : list Tabla) : rectangular (concatenar dfs).
Proof.
  unfold rectangular, concatenar. destruct dfs as [|d0 dfs0]; [constructor|].
  set (dfs := d0 :: dfs0). set (max_cols := foldr Nat.max O (ancho <$> dfs)).
  cbn [columnas filas]. rewrite length_fmap, length_seq.
  apply Forall_forall. intros fila Hin.
  apply list_elem_of_In, in_concat in Hin as (filas_df & Hdf & Hin).
  apply list_elem_of_In in Hdf, Hin.
  apply list_elem_of_fmap in Hdf as (df & -> & Hdf).
  apply list_elem_of_fmap in Hin as (row & -> & Hrow).
  apply length_rellenar. rewrite length_fmap.
  pose proof (ancho_cota df row Hrow). pose proof (max_cols_cota dfs df Hdf).
  fold max_cols in H0. lia.
Qed.

(** X25.  The frame that [_leer_pdf] returns is rectangular on both paths:
    every row has as many cells as the frame has column labels. *)
Theorem _leer_pdf_rectangular (ruta_archivo : string) (pdf : list Pagina) :
  rectangular (_leer_pdf patron_producto patron_numerico patron_sin_codigo ruta_archivo pdf).
Proof.
  unfold _leer_pdf. destruct (Texto.contains _ _).
  - unfold rectangular, _leer_pdf_taller. cbn [columnas filas].
    apply Forall_forall. intros fila Hin.
    apply list_elem_of_fmap in Hin as (pq & -> & _). reflexivity.
  - apply concatenar_rectangular.
Qed.

Lemma str_celda_Some (fila : list string) : str_celda <$> (Some <$> fila) = fila.
Proof. induction fila as [|c fila IH]; [reflexivity|]. rewrite !fmap_cons, IH. reflexivity. Qed.

(** X26.  Outside the El Taller path, when the text gives more rows than
    all accepted tables together, the tables are dropped: the frame is
    exactly the salvaged rows under the labels 0, 1, 2. *)
Theorem _leer_pdf_texto_reemplaza (ruta_archivo : string) (pdf : list Pagina) :
  Texto.contains "EL TALLER" (upper ruta_archivo) = false ->
  (total_filas_tablas (tablas_aceptadas pdf) < length (raw pdf))%nat ->
  _leer_pdf patron_producto patron_numerico patron_sin_codigo ruta_archivo pdf =
    {| columnas := [EInt 0; EInt 1; EInt 2]; filas := raw pdf |}.
Proof.
  intros Hruta Hmas. unfold _leer_pdf. rewrite Hruta.
  assert (Hforma : forall fila, fila ∈ raw pdf -> exists codigo desc precio,
            fila = [codigo; desc; precio] /\ (precio ∉ ["0,00"; "0,0"; "0"]) /\
            Texto.strip desc = desc).
  { unfold filas_raw. intros fila Hin.
    apply list_elem_of_omap in Hin as (linea & _ & Hl).
    exact (rescatar_linea_Some linea fila Hl). }
  revert Hmas Hforma. generalize (tablas_aceptadas pdf) as dfs. generalize (raw pdf) as filas_raw.
  intros filas_raw dfs Hmas Hforma.
  assert (H3 : Forall (fun fila => length fila = 3%nat) filas_raw).
  { apply Forall_forall. intros fila Hin.
    destruct (Hforma fila Hin) as (c & d & p & -> & _). reflexivity. }
  unfold elegir_fuente. destruct filas_raw as [|f0 fs] eqn:Ef; [cbn in Hmas; lia|].
  rewrite <- Ef in *. apply Nat.ltb_lt in Hmas. rewrite Hmas.
  set (df_raw := (fun fila : list string => Some <$> fila) <$> filas_raw).
  assert (Ha : ancho df_raw = 3%nat).
  { apply ancho_constante.
    - subst df_raw. rewrite Ef. discriminate.
    - subst df_raw. apply Forall_fmap. eapply Forall_impl; [exact H3|].
      intros fila Hl. cbn. rewrite length_fmap. exact Hl. }
  unfold concatenar. cbn [fmap list_fmap foldr]. rewrite Ha. cbn [Nat.max seq].
  f_equal. cbn [concat]. rewrite app_nil_r.
  subst df_raw. rewrite <- list_fmap_compose.
  clear Ef Ha Hmas Hforma. induction H3 as [|fila resto Hl _ IH]; [reflexivity|].
  rewrite fmap_cons, IH. f_equal. cbn. rewrite str_celda_Some.
  unfold rellenar. rewrite Hl. cbn. apply app_nil_r.
Qed.

Lemma concatenar_total (dfs : list Tabla) :
  length (filas (concatenar dfs)) = total_filas_tablas dfs.
Proof.
  unfold concatenar, total_filas_tablas. destruct dfs as [|d0 dfs0]; [reflexivity|].
  generalize (foldr Nat.max O (ancho <$> d0 :: dfs0)) as max_cols. intros max_cols.
  cbn [filas]. induction (d0 :: dfs0) as [|d dfs IH]; [reflexivity|].
  rewrite !fmap_cons. cbn beta. cbn [concat foldr]. rewrite length_app, length_fmap, IH. reflexivity.
Qed.

Lemma total_filas_tablas_app (dfs dfs' : list Tabla) :
  total_filas_tablas (dfs ++ dfs') = (total_filas_tablas dfs + total_filas_tablas dfs')%nat.
Proof.
  unfold total_filas_tablas. induction dfs as [|d dfs IH]; [reflexivity|].
  rewrite <- app_comm_cons, !fmap_cons. cbn [foldr]. rewrite IH. lia.
Qed.

(** X27.  Outside the El Taller path, when the text does not give more
    rows than the accepted tables, both sources are kept: the frame has as
    many rows as the accepted tables and the text together, so a product
    found by both is counted twice. *)
Theorem _leer_pdf_suma_fuentes (ruta_archivo : string) (pdf : list Pagina) :
  Texto.contains "EL TALLER" (upper ruta_archivo) = false ->
  (length (raw pdf) <= total_filas_tablas (tablas_aceptadas pdf))%nat ->
  length (filas (_leer_pdf patron_producto patron_numerico patron_sin_codigo ruta_archivo pdf)) =
    (total_filas_tablas (tablas_aceptadas pdf) + length (raw pdf))%nat.
Proof.
  intros Hruta Hle. unfold _leer_pdf. rewrite Hruta. rewrite concatenar_total.
  unfold elegir_fuente. destruct (raw pdf) as [|f0 fs] eqn:Ef; [cbn; lia|].
  apply Nat.ltb_ge in Hle. rewrite Hle.
  rewrite total_filas_tablas_app. f_equal.
  unfold total_filas_tablas. cbn [foldr fmap list_fmap length]. rewrite Nat.add_0_r.
  f_equal. apply length_fmap.
Qed.

End RescateProps.

Lemma tablas_aceptadas_filtradas_witness :
  let df := [[Some "A1"; Some "Martillo"; Some "1.250,50"]] in
  df ∈ tablas_aceptadas pdf_lista /\
  df <> [] /\ (2 <= ancho df)%nat /\
  Forall (fun row => length row = ancho df /\
                     existsb con_contenido row = true /\
                     es_encabezado row = false /\
                     es_titulo (ancho df) row = false) df.
Proof.
  intros df.
  assert (H : df ∈ tablas_aceptadas pdf_lista) by (vm_compute; left).
  split; [exact H|]. exact (tablas_aceptadas_filtradas pdf_lista df H).
Defined.

Lemma tablas_aceptadas_referencia_witness :
  tablas_aceptadas pdf_lista =
    [[Some "A1"; Some "Martillo"; Some "1.250,50"]] :: [[[Some "Clavo"; Some "10,5"]]] /\
  Forall (fun df => (ancho [[Some "A1"; Some "Martillo"; Some "1.250,50"]] <= 2 * ancho df)%nat)
         [[[Some "Clavo"; Some "10,5"]]].
Proof.
  assert (H : tablas_aceptadas pdf_lista =
    [[Some "A1"; Some "Martillo"; Some "1.250,50"]] :: [[[Some "Clavo"; Some "10,5"]]])
    by (vm_compute; reflexivity).
  split; [exact H|]. exact (tablas_aceptadas_referencia pdf_lista _ _ H).
Defined.

Lemma filas_raw_forma_witness :
  let fila := ["AB123"; "Martillo de bola"; "1.250,50"] in
  fila ∈ filas_raw patron_producto_ejemplo sin_patron sin_patron pdf_texto /\
  exists codigo desc precio,
    fila = [codigo; desc; precio] /\ (precio ∉ ["0,00"; "0,0"; "0"]) /\ Texto.strip desc = desc.
Proof.
  intros fila.
  assert (H : fila ∈ filas_raw patron_producto_ejemplo sin_patron sin_patron pdf_texto)
    by (vm_compute; left).
  split; [exact H|].
  exact (filas_raw_forma patron_producto_ejemplo sin_patron sin_patron pdf_texto fila H).
Defined.

Lemma _leer_pdf_texto_reemplaza_witness :
  _leer_pdf patron_producto_ejemplo sin_patron sin_patron "proveedores/acme.pdf" pdf_texto =
    {| columnas := [EInt 0; EInt 1; EInt 2];
       filas := filas_raw patron_producto_ejemplo sin_patron sin_patron pdf_texto |}.
Proof.
  apply _leer_pdf_texto_reemplaza.
  - vm_compute. reflexivity.
  - vm_compute. lia.
Defined.

Lemma _leer_pdf_suma_fuentes_witness :
  length (filas (_leer_pdf patron_producto_ejemplo sin_patron sin_patron
                   "proveedores/acme.pdf" pdf_mixto)) =
    (total_filas_tablas (tablas_aceptadas pdf_mixto) +
     length (filas_raw patron_producto_ejemplo sin_patron sin_patron pdf_mixto))%nat.
Proof.
  apply _leer_pdf_suma_fuentes.
  - vm_compute. reflexivity.
  - vm_compute. lia.
Defined.

(** * The cleanup invariant and the price formula *)

(** ** The paths of the column inference *)

(** The labelled frame goes straight to the cleanup. *)
Lemma camino_corto (df : DataFrame) (mapeo_manual : option Mapeo) :
  tiene_columna (ETxt "Producto") df = true ->
  tiene_columna (ETxt "Precio de Costo") df = true ->
  _procesar_dataframe_inteligente df mapeo_manual = _limpieza_final (asegurar_codigo df).
Proof. intros H1 H2. unfold _procesar_dataframe_inteligente. rewrite H1, H2. reflexivity. Qed.

(** The manual branch, once its guard lets the indices through and both
    name a column, hands the renamed frame to the cleanup. *)
Lemma camino_manual (df : DataFrame) (m : Mapeo) (p c : etiqueta) :
  let df' := tras_skip df m in
  let max_idx := Z.of_nat (length (columnas df')) - 1 in
  let idx_cod := default (-1) (col_codigo m) in
  default (-1) (col_producto m) <= max_idx ->
  default (-1) (col_precio m) <= max_idx ->
  py_index (columnas df') (default (-1) (col_producto m)) = Some p ->
  py_index (columnas df') (default (-1) (col_precio m)) = Some c ->
  modo_manual df m =
    match _limpieza_final
            (asegurar_codigo
               (renombrar
                  (mapa_de p c (if (0 <=? idx_cod) && (idx_cod <=? max_idx)
                                then py_index (columnas df') idx_cod else None))
                  df')) with
    | Some t => Devuelve t
    | None => Falla df'
    end.
Proof.
  intros df' max_idx idx_cod H1 H2 Hp Hc.
  unfold modo_manual. cbv zeta.
  change (if 0 <? default 0 (skip_rows m)
          then {| columnas := columnas df;
                  filas := drop (Z.to_nat (default 0 (skip_rows m))) (filas df) |}
          else df) with (tras_skip df m).
  fold df'. fold max_idx. fold idx_cod.
  apply Z.ltb_ge in H1, H2. rewrite H1, H2. cbn [orb].
  rewrite Hp, Hc.
  destruct ((0 <=? idx_cod) && (idx_cod <=? max_idx)); [|reflexivity].
  destruct (py_index (columnas df') idx_cod); reflexivity.
Qed.

(** The automatic branch, once the scores choose a product and a price
    column whose labels are truthy, hands the renamed frame to the
    cleanup. *)
Lemma camino_automatico (df : DataFrame) (total_filas : nat)
  (scores : list (etiqueta * Puntajes)) (p c : etiqueta) (cod : option etiqueta) :
  puntuar_columnas df total_filas = Some scores ->
  scores <> [] ->
  elegir_columnas (columnas df) scores = Some (p, c, cod) ->
  etiqueta_verdadera p = true -> etiqueta_verdadera c = true ->
  modo_automatico df total_filas =
    _limpieza_final
      (asegurar_codigo
         (renombrar
            (mapa_de p c (cod ≫= fun k => if etiqueta_verdadera k then Some k else None))
            df)).
Proof.
  intros Hs Hne He Hp Hc. unfold modo_automatico. rewrite Hs. cbn [mbind option_bind].
  destruct scores as [|s scores]; [contradiction|].
  rewrite He, Hp, Hc. cbn [negb orb].
  destruct cod as [k|]; [|reflexivity].
  cbn [mbind option_bind]. destruct (etiqueta_verdadera k); reflexivity.
Qed.

Lemma catalogo_de_tabla (directorio : list Archivo) (nombre : string) (t : list Fila) :
  (nombre, t) ∈ catalogo_de directorio ->
  exists a : Archivo, a ∈ directorio /\ tabla_de_archivo a t.
Proof.
  intros H.
  rewrite catalogo_de_foldl in H. apply foldl_dict_set_elem in H as (pre & post & E & _).
  assert (Hin : (nombre, t) ∈ resultados_de directorio).
  { rewrite E. apply elem_of_app. right. left. }
  unfold resultados_de in Hin. apply list_elem_of_omap in Hin as (a & Ha & Hp).
  apply list_elem_of_filter in Ha as [_ Ha].
  destruct (procesar_un_archivo_tabla a nombre t Hp) as [_ Ht].
  exists a. split; assumption.
Qed.

(** C3.  Every row that [_limpieza_final] returns has a strictly positive
    cost and a trimmed product longer than one character: the output is the
    input rows in order, without those whose price cell does not parse to a
    positive number and those whose trimmed product has at most one
    character.  Each path of [_procesar_dataframe_inteligente] goes through
    that cleanup: the already-labelled frame is handed to it as it is; the
    manual branch, once its guard lets the indices through and both name a
    column, hands it the frame renamed by the mapping; the automatic branch,
    once the scores choose a product and a price column with truthy
    labels, hands it the frame renamed by that choice.  So every table that
    the function returns has valid rows, and so has every table of the
    catalog that was built from its file.  A table of the catalog that was
    unpickled from a cache file newer than its source is taken as it is,
    whatever its rows. *)
Theorem limpieza_final_filas_validas :
  (forall (df_final : DataFrame) (t : list Fila),
      _limpieza_final df_final = Some t ->
      Forall fila_valida t /\
      exists i_cod i_prod i_precio : nat,
        get_loc (ETxt "Precio de Costo") (columnas df_final) = Some i_precio /\
        get_loc (ETxt "Producto") (columnas df_final) = Some i_prod /\
        t = omap (limpiar_fila i_cod i_prod i_precio) (filas df_final) /\
        forall fila : list string,
          limpiar_fila i_cod i_prod i_precio fila = None <->
          limpiar_precio (celda i_precio fila) = None \/
          (String.length (Texto.strip (celda i_prod fila)) <= 1)%nat) /\
  (forall (df : DataFrame) (mapeo_manual : option Mapeo),
      tiene_columna (ETxt "Producto") df = true ->
      tiene_columna (ETxt "Precio de Costo") df = true ->
      _procesar_dataframe_inteligente df mapeo_manual =
        _limpieza_final (asegurar_codigo df)) /\
  (forall (df : DataFrame) (m : Mapeo) (p c : etiqueta),
      let df' := tras_skip df m in
      let max_idx := Z.of_nat (length (columnas df')) - 1 in
      let idx_cod := default (-1) (col_codigo m) in
      default (-1) (col_producto m) <= max_idx ->
      default (-1) (col_precio m) <= max_idx ->
      py_index (columnas df') (default (-1) (col_producto m)) = Some p ->
      py_index (columnas df') (default (-1) (col_precio m)) = Some c ->
      modo_manual df m =
        match _limpieza_final
                (asegurar_codigo
                   (renombrar
                      (mapa_de p c (if (0 <=? idx_cod) && (idx_cod <=? max_idx)
                                    then py_index (columnas df') idx_cod else None))
                      df')) with
        | Some t => Devuelve t
        | None => Falla df'
        end) /\
  (forall (df : DataFrame) (total_filas : nat) (scores : list (etiqueta * Puntajes))
          (p c : etiqueta) (cod : option etiqueta),
      puntuar_columnas df total_filas = Some scores ->
      scores <> [] ->
      elegir_columnas (columnas df) scores = Some (p, c, cod) ->
      etiqueta_verdadera p = true -> etiqueta_verdadera c = true ->
      modo_automatico df total_filas =
        _limpieza_final
          (asegurar_codigo
             (renombrar
                (mapa_de p c (cod ≫= fun k => if etiqueta_verdadera k then Some k else None))
                df))) /\
  (forall (df : DataFrame) (mapeo_manual : option Mapeo) (t : list Fila),
      _procesar_dataframe_inteligente df mapeo_manual = Some t ->
      Forall fila_valida t) /\
  (forall (directorio : list Archivo) (nombre : string) (t : list Fila),
      (nombre, t) ∈ catalogo_de directorio ->
      Forall fila_valida t \/
      exists (a : Archivo) (mtime_cache : Q),
        a ∈ directorio /\ cache a = Some (mtime_cache, Some t) /\
        (mtime_org a < mtime_cache)%Q).
Proof.
  split; [|split; [|split; [|split; [|split]]]].
  - intros df t H. split; [apply (_limpieza_final_valida _ _ H)|].
    unfold _limpieza_final in H.
    destruct (get_loc (ETxt "Precio de Costo") (columnas df)) as [ip|]; [|discriminate].
    destruct (get_loc (ETxt "Producto") (columnas df)) as [ipr|]; [|discriminate].
    destruct (get_loc (ETxt "Codigo") (columnas df)) as [ic|]; [|discriminate].
    cbn [mbind option_bind] in H. injection H as <-.
    exists ic, ipr, ip. repeat split; try reflexivity; apply limpiar_fila_None.
  - apply camino_corto.
  - apply camino_manual.
  - apply camino_automatico.
  - apply _procesar_dataframe_inteligente_valida.
  - intros directorio nombre t H.
    destruct (catalogo_de_tabla directorio nombre t H) as (a & Ha & [(mc & Hc & Hm)|(_ & Hv & _)]).
    + right. exists a, mc. repeat split; assumption.
    + left. exact Hv.
Qed.

Lemma limpieza_final_filas_validas_witness :
  (_procesar_dataframe_inteligente tabla_taller None =
     Some [ {| Codigo := ""; Producto := "Amoladora angular"; Precio_de_Costo := 108200 # 1 |};
            {| Codigo := ""; Producto := "Pinza universal"; Precio_de_Costo := 30864 # 25 |} ] /\
   Forall fila_valida
     [ {| Codigo := ""; Producto := "Amoladora angular"; Precio_de_Costo := 108200 # 1 |};
       {| Codigo := ""; Producto := "Pinza universal"; Precio_de_Costo := 30864 # 25 |} ]) /\
  _procesar_dataframe_inteligente tabla_taller None =
    _limpieza_final (asegurar_codigo tabla_taller) /\
  modo_manual grilla_codigo_producto_precio mapeo_completo =
    match _limpieza_final
            (asegurar_codigo
               (renombrar (mapa_de (EInt 1) (EInt 2) (Some (EInt 0)))
                  (tras_skip grilla_codigo_producto_precio mapeo_completo))) with
    | Some t => Devuelve t
    | None => Falla (tras_skip grilla_codigo_producto_precio mapeo_completo)
    end /\
  modo_automatico grilla_codigo_producto_precio 3 =
    _limpieza_final
      (asegurar_codigo
         (renombrar (mapa_de (EInt 1) (EInt 2) None) grilla_codigo_producto_precio)) /\
  (exists t : list Fila,
     catalogo_de directorio_sin_cache = [("ACME", t)] /\ t <> [] /\ Forall fila_valida t).
Proof.
  destruct limpieza_final_filas_validas as (_ & Hcorto & Hmanual & Hauto & Hproc & Hcat).
  split; [|split; [|split; [|split]]].
  - assert (H : _procesar_dataframe_inteligente tabla_taller None =
      Some [ {| Codigo := ""; Producto := "Amoladora angular"; Precio_de_Costo := 108200 # 1 |};
             {| Codigo := ""; Producto := "Pinza universal"; Precio_de_Costo := 30864 # 25 |} ])
      by (vm_compute; reflexivity).
    split; [exact H|]. exact (Hproc tabla_taller None _ H).
  - apply Hcorto; reflexivity.
  - apply (Hmanual grilla_codigo_producto_precio mapeo_completo (EInt 1) (EInt 2));
      (vm_compute; (reflexivity || discriminate)).
  - apply (Hauto grilla_codigo_producto_precio 3%nat
             (default [] (puntuar_columnas grilla_codigo_producto_precio 3))
             (EInt 1) (EInt 2) (Some (EInt 0)));
      (vm_compute; (reflexivity || discriminate)).
  - eexists. split; [vm_compute; reflexivity|]. split; [discriminate|].
    destruct (Hcat directorio_sin_cache "ACME" _ ltac:(vm_compute; left))
      as [H|(a & mc & Ha & Hc & _)].
    + exact H.
    + exfalso. apply list_elem_of_singleton in Ha. subst a. discriminate Hc.
Defined.

(** The invariant does not hold of every catalog: a cache file newer than
    its source brings its rows in unchecked. *)
Lemma limpieza_final_filas_validas_counterexample :
  ~ (forall (directorio : list Archivo) (nombre : string) (t : list Fila),
       (nombre, t) ∈ catalogo_de directorio -> Forall fila_valida t).
Proof.
  intros H.
  specialize (H directorio_cache_ajeno "ACME"
                [ {| Codigo := ""; Producto := "X"; Precio_de_Costo := 0 |} ]
                ltac:(vm_compute; left)).
  apply Forall_inv in H. destruct H as [H _]. revert H. vm_compute. discriminate.
Qed.

(** ** The price formula *)

(** C1.  The price is the formula
    [round(c * (1 - d1/100) * (1 - d2/100) * (1 + m/100), 2)] evaluated from
    left to right in binary64 arithmetic: with both discounts non-negative,
    [calcular_precio_final] returns [round2] of the float product of the
    cost, the two discount factors and the markup factor, every quotient,
    difference, sum and product being rounded to the nearest float.  A
    discount that is zero or negative is skipped: the price is the one of a
    zero discount.  [round2] of a finite float is the float nearest to a
    hundredth that lies at most half a hundredth from it.  Every hit of a
    search carries the price so computed from its cost and the
    configuration of its supplier. *)
Theorem calcular_precio_final_formula :
  forall c m d1 d2 : Q,
    ((0 <= d1)%Q -> (0 <= d2)%Q ->
       calcular_precio_final c (config_de m d1 d2) =
         round2
           (Binary64.producto
              (Binary64.producto
                 (Binary64.producto (Binary64.redondear c)
                    (Binary64.resta Binary64.uno (Binary64.entre_cien (Binary64.redondear d1))))
                 (Binary64.resta Binary64.uno (Binary64.entre_cien (Binary64.redondear d2))))
              (Binary64.suma Binary64.uno (Binary64.entre_cien (Binary64.redondear m))))) /\
    ((d1 <= 0)%Q ->
       calcular_precio_final c (config_de m d1 d2) =
         calcular_precio_final c (config_de m 0 d2)) /\
    ((d2 <= 0)%Q ->
       calcular_precio_final c (config_de m d1 d2) =
         calcular_precio_final c (config_de m d1 0)) /\
    (forall v : Q, exists k : Z,
        round2 (Binary64.Finito v) = Binary64.redondear (k # 100) /\
        ((k # 100) - (1 # 200) <= v)%Q /\ (v <= (k # 100) + (1 # 200))%Q) /\
    (forall (str_contains : string -> option (string -> bool))
            (scorer : string -> string -> Z) (mo : Motor) (consulta : string)
            (limite : Z) (proveedor_target : option string),
        Forall (fun h => config h = obtener_info_config mo (proveedor h) /\
                         precio_final h = calcular_precio_final (precio_costo h) (config h))
          (buscar_producto str_contains scorer mo consulta limite proveedor_target)).
Proof.
  intros c m d1 d2.
  split; [|split; [|split; [|split]]].
  - intros H1 H2. rewrite calcular_precio_final_config_de. cbv zeta.
    pose proof (redondear_canonico c) as Hc.
    destruct (Binary64.mayor_que_cero (Binary64.redondear d1)) eqn:E1.
    + destruct (Binary64.mayor_que_cero (Binary64.redondear d2)) eqn:E2; [reflexivity|].
      rewrite (no_negativo_no_positivo d2 H2 E2), factor_nulo.
      rewrite (producto_uno _ (producto_canonico _ _)). reflexivity.
    + rewrite (no_negativo_no_positivo d1 H1 E1), factor_nulo.
      rewrite (producto_uno _ Hc).
      destruct (Binary64.mayor_que_cero (Binary64.redondear d2)) eqn:E2; [reflexivity|].
      rewrite (no_negativo_no_positivo d2 H2 E2), factor_nulo.
      rewrite (producto_uno _ Hc). reflexivity.
  - intros H1. rewrite !calcular_precio_final_config_de.
    rewrite (no_positivo d1 H1), cero_no_positivo. reflexivity.
  - intros H2. rewrite !calcular_precio_final_config_de.
    rewrite (no_positivo d2 H2), cero_no_positivo. reflexivity.
  - apply round2_centesimos.
  - intros. apply buscar_producto_hit_de. intros. split; reflexivity.
Qed.

Lemma calcular_precio_final_formula_witness :
  calcular_precio_final 3 (config_de 50 5 0) = Binary64.redondear (427 # 100) /\
  calcular_precio_final 3 (config_de 50 5 0) =
    round2
      (Binary64.producto
         (Binary64.producto
            (Binary64.producto (Binary64.redondear 3)
               (Binary64.resta Binary64.uno (Binary64.entre_cien (Binary64.redondear 5))))
            (Binary64.resta Binary64.uno (Binary64.entre_cien (Binary64.redondear 0))))
         (Binary64.suma Binary64.uno (Binary64.entre_cien (Binary64.redondear 50)))) /\
  calcular_precio_final 1000 (config_de 50 (-10) 5) =
    calcular_precio_final 1000 (config_de 50 0 5) /\
  calcular_precio_final 1000 (config_de 50 10 (-5)) =
    calcular_precio_final 1000 (config_de 50 10 0).
Proof.
  destruct (calcular_precio_final_formula 3 50 5 0) as (H & _).
  destruct (calcular_precio_final_formula 1000 50 (-10) 5) as (_ & H1 & _).
  destruct (calcular_precio_final_formula 1000 50 10 (-5)) as (_ & _ & H2 & _).
  split; [vm_compute; reflexivity|].
  split; [apply H; discriminate | split; [apply H1; discriminate | apply H2; discriminate]].
Defined.

(** Cost 3, markup 50, first discount 5: the formula in exact arithmetic is
    4.275, which rounds to 4.28 with ties to even and with ties upwards;
    the float product lies below 4.275 and the price is 4.27. *)
Lemma calcular_precio_final_formula_counterexample :
  (spec_precio_exacto 3 50 5 0 == 171 # 40)%Q /\
  spec_calcular_precio_final 3 50 5 0 = Binary64.redondear (428 # 100) /\
  Qfloor (spec_precio_exacto 3 50 5 0 * 100 + (1 # 2)) = 428 /\
  calcular_precio_final 3 (config_de 50 5 0) = Binary64.redondear (427 # 100) /\
  calcular_precio_final 3 (config_de 50 5 0) <> spec_calcular_precio_final 3 50 5 0.
Proof. repeat split; vm_compute; (reflexivity || discriminate). Qed.

(** Costs 17684.21 and 864.05 at a markup of 30: the second product lies
    below 1123.265. *)
Example calcular_precio_final_escenario :
  calcular_precio_final (1768421 # 100) (config_de 30 0 0) = Binary64.redondear (2298947 # 100) /\
  calcular_precio_final (86405 # 100) (config_de 30 0 0) = Binary64.redondear (112326 # 100).
Proof. split; vm_compute; reflexivity. Qed.
